(** * The NVIDIA GPU collector of node_exporter (collector package, build tag nvgpu)

  A shallow embedding of the two variants of [nvgpuCollector.Update] and of
  the enum-to-label helpers next to them, followed by the properties the
  specification states about them.

  - [Part000] is the richer variant (clocks, compute mode, performance
    state, persistence mode, utilization, enforced power limit).
  - [NvidiaGpuLinux] is collector/nvidia_gpu_linux.go.

  A poll talks to the NVML binding, sends metrics on a channel and writes
  log lines.  The embedding keeps these three effects in one ordered trace
  of events; a failing poll carries its error next to the trace. *)

From Stdlib Require Import ZArith List String Ascii Bool Lia.
From Stdlib Require Import DecimalString DecimalZ DecimalPos.
From ExtLib Require Import Structures.Monad.
Import ListNotations.
Import MonadNotation.

Open Scope string_scope.
Open Scope Z_scope.
Open Scope list_scope.
Open Scope monad_scope.

(** ** The NVML binding (github.com/NVIDIA/go-nvml/pkg/nvml)

  The binding is not part of the repository.  Its named constants are taken
  as parameters ([nvml.Consts]); its functions are the fields of
  [nvml.Driver], one response per query. *)

Module nvml.

(** nvml.Return and the enum types are integer types. *)
Definition Return := Z.
(** nvml.Device: an opaque handle. *)
Definition Device := Z.

Class Consts := {
  SUCCESS : Return;
  ERROR_NOT_SUPPORTED : Return;
  BUS_TYPE_UNKNOWN : Z;
  BUS_TYPE_PCI : Z;
  BUS_TYPE_PCIE : Z;
  BUS_TYPE_FPCI : Z;
  BUS_TYPE_AGP : Z;
  CLOCK_GRAPHICS : Z;
  CLOCK_SM : Z;
  CLOCK_MEM : Z;
  CLOCK_VIDEO : Z;
  CLOCK_COUNT : Z;
  CLOCK_ID_CURRENT : Z;
  CLOCK_ID_APP_CLOCK_TARGET : Z;
  CLOCK_ID_APP_CLOCK_DEFAULT : Z;
  CLOCK_ID_CUSTOMER_BOOST_MAX : Z;
  CLOCK_ID_COUNT : Z;
  COMPUTEMODE_DEFAULT : Z;
  COMPUTEMODE_EXCLUSIVE_THREAD : Z;
  COMPUTEMODE_PROHIBITED : Z;
  COMPUTEMODE_EXCLUSIVE_PROCESS : Z;
  PSTATE_UNKNOWN : Z;
  FEATURE_DISABLED : Z;
  TEMPERATURE_GPU : Z;
  TEMPERATURE_COUNT : Z;
  (** The two statuses are the labels of one Go switch, which the compiler
      accepts only when they differ. *)
  SUCCESS_ne_NOT_SUPPORTED : (SUCCESS =? ERROR_NOT_SUPPORTED) = false
}.

(** nvml.Utilization *)
Record Utilization := { Gpu : Z; Memory_ : Z }.
(** nvml.Memory *)
Record Memory := { Total : Z; Free : Z; Used : Z }.

(** The functions of the binding that Update calls.  A driver answers a
    query with the same response whenever it is asked within one poll. *)
Record Driver := {
  Init : Return;
  Shutdown : Return;
  ErrorString : Return -> string;
  DeviceGetCount : Z * Return;
  DeviceGetHandleByIndex : Z -> Device * Return;
  SystemGetDriverVersion : string * Return;
  SystemGetCudaDriverVersion_v2 : Z * Return;
  SystemGetNVMLVersion : string * Return;
  GetUUID : Device -> string * Return;
  GetName : Device -> string * Return;
  GetBusType : Device -> Z * Return;
  GetNumFans : Device -> Z * Return;
  GetMinMaxFanSpeed : Device -> Z * Z * Return;
  GetFanSpeed_v2 : Device -> Z -> Z * Return;
  GetApplicationsClock : Device -> Z -> Z * Return;
  GetClock : Device -> Z -> Z -> Z * Return;
  GetComputeMode : Device -> Z * Return;
  GetPerformanceState : Device -> Z * Return;
  GetPersistenceMode : Device -> Z * Return;
  GetUtilizationRates : Device -> Utilization * Return;
  GetTemperature : Device -> Z -> Z * Return;
  GetPowerUsage : Device -> Z * Return;
  GetEnforcedPowerLimit : Device -> Z * Return;
  GetMemoryInfo : Device -> Memory * Return
}.

End nvml.

(** ** Formatting (strconv, fmt) *)

Module strconv.
(** strconv.Itoa: the decimal rendering of an int, with a leading minus
    sign for negative numbers. *)
Definition Itoa (n : Z) : string := NilZero.string_of_int (Z.to_int n).
End strconv.

Module fmt.
(** fmt.Sprintf, given as the pieces of the formatted string in order: the
    literal parts of the format and the rendered arguments. *)
Definition Sprintf (pieces : list string) : string := String.concat "" pieces.
(** fmt.Errorf builds an error that carries the formatted message. *)
Definition Errorf (pieces : list string) : string := Sprintf pieces.
End fmt.

(** Go's integer division truncates towards zero and the remainder takes
  the sign of the dividend. *)
Definition go_div (a b : Z) : Z := Z.quot a b.
Definition go_mod (a b : Z) : Z := Z.rem a b.

(** cudaV := fmt.Sprintf("%d.%d", cudaVI/1000, cudaVI%1000/10) *)
Definition cudaV (cudaVI : Z) : string :=
  fmt.Sprintf [strconv.Itoa (go_div cudaVI 1000); ".";
               strconv.Itoa (go_div (go_mod cudaVI 1000) 10)].

(** The derived version string in the words of the specification:
  major = raw / 1000, minor = (raw % 1000) / 10 on the packed, hence
  non-negative, integer, written "{major}.{minor}". *)
Definition spec_cuda_version (raw : Z) : string :=
  let major := raw / 1000 in
  let minor := (raw mod 1000) / 10 in
  (strconv.Itoa major ++ "." ++ strconv.Itoa minor)%string.

(** ** Enum-to-label helpers

  The generic helpers are used at the NVML enum type they convert to (or at
  int, for the loop counters), so the conversions in them are identities;
  a switch is a chain of comparisons in the order of its cases. *)

Section Labels.
Context {K : nvml.Consts}.

Definition getBusTypeString (busT : Z) : string :=
  if busT =? nvml.BUS_TYPE_AGP then "AGP"
  else if busT =? nvml.BUS_TYPE_FPCI then "FPCI"
  else if busT =? nvml.BUS_TYPE_PCI then "PCI"
  else if busT =? nvml.BUS_TYPE_PCIE then "PCIE"
  else if busT =? nvml.BUS_TYPE_UNKNOWN then "UNKNOWN"
  else "UNKNOWN".

Definition getClockTypeString (typeN : Z) : string :=
  if typeN =? nvml.CLOCK_GRAPHICS then "GRAPHICS"
  else if typeN =? nvml.CLOCK_SM then "SM"
  else if typeN =? nvml.CLOCK_MEM then "MEM"
  else if typeN =? nvml.CLOCK_VIDEO then "VIDEO"
  else "UNKNOWN".

Definition getClockIDString (typeN : Z) : string :=
  if typeN =? nvml.CLOCK_ID_CURRENT then "CURRENT"
  else if typeN =? nvml.CLOCK_ID_APP_CLOCK_TARGET then "APP CLOCK TARGET"
  else if typeN =? nvml.CLOCK_ID_APP_CLOCK_DEFAULT then "APP CLOCK DEFAULT"
  else if typeN =? nvml.CLOCK_ID_CUSTOMER_BOOST_MAX then "CUSTOMER BOOST MAX"
  else "UNKNOWN".

Definition getComputeModeString (modeN : Z) : string :=
  if modeN =? nvml.COMPUTEMODE_DEFAULT then "DEFAULT"
  else if modeN =? nvml.COMPUTEMODE_EXCLUSIVE_THREAD then "EXCLUSIVE THREAD"
  else if modeN =? nvml.COMPUTEMODE_PROHIBITED then "PROHIBITED"
  else if modeN =? nvml.COMPUTEMODE_EXCLUSIVE_PROCESS then "EXCLUSIVE PROCESS"
  else "UNKNOWN".

Definition getPstatesString (stateN : Z) : string :=
  if negb (nvml.PSTATE_UNKNOWN =? stateN)
  then fmt.Sprintf ["P"; strconv.Itoa stateN]
  else "UNKNOWN".

Definition getPersisModeString (stateN : Z) : string :=
  if stateN =? nvml.FEATURE_DISABLED then "OFF" else "ON".

Definition getTemperatureSensorString (tempN : Z) : string :=
  if tempN =? nvml.TEMPERATURE_GPU then "GPU" else "UNKNOWN".

(** The codes named by the cases of each switch. *)
Definition busTypeCodes : list Z :=
  [nvml.BUS_TYPE_AGP; nvml.BUS_TYPE_FPCI; nvml.BUS_TYPE_PCI;
   nvml.BUS_TYPE_PCIE; nvml.BUS_TYPE_UNKNOWN].
Definition clockTypeCodes : list Z :=
  [nvml.CLOCK_GRAPHICS; nvml.CLOCK_SM; nvml.CLOCK_MEM; nvml.CLOCK_VIDEO].
Definition clockIDCodes : list Z :=
  [nvml.CLOCK_ID_CURRENT; nvml.CLOCK_ID_APP_CLOCK_TARGET;
   nvml.CLOCK_ID_APP_CLOCK_DEFAULT; nvml.CLOCK_ID_CUSTOMER_BOOST_MAX].
Definition computeModeCodes : list Z :=
  [nvml.COMPUTEMODE_DEFAULT; nvml.COMPUTEMODE_EXCLUSIVE_THREAD;
   nvml.COMPUTEMODE_PROHIBITED; nvml.COMPUTEMODE_EXCLUSIVE_PROCESS].
Definition temperatureSensorCodes : list Z := [nvml.TEMPERATURE_GPU].

End Labels.

(** "Anything outside the known codes maps to UNKNOWN", for one helper. *)
Definition falls_back_to_UNKNOWN (known : list Z) (f : Z -> string) : Prop :=
  forall code, ~ In code known -> f code = "UNKNOWN".

(** ** Queries, metrics and the trace of a poll *)

(** One constructor per call into the binding, with its arguments. *)
Inductive Query : Type :=
| QInit
| QShutdown
| QDeviceGetCount
| QDeviceGetHandleByIndex (i : Z)
| QSystemGetDriverVersion
| QSystemGetCudaDriverVersion_v2
| QSystemGetNVMLVersion
| QGetUUID (d : nvml.Device)
| QGetName (d : nvml.Device)
| QGetBusType (d : nvml.Device)
| QGetNumFans (d : nvml.Device)
| QGetMinMaxFanSpeed (d : nvml.Device)
| QGetFanSpeed_v2 (d : nvml.Device) (fan : Z)
| QGetApplicationsClock (d : nvml.Device) (clockType : Z)
| QGetClock (d : nvml.Device) (clockType clockId : Z)
| QGetComputeMode (d : nvml.Device)
| QGetPerformanceState (d : nvml.Device)
| QGetPersistenceMode (d : nvml.Device)
| QGetUtilizationRates (d : nvml.Device)
| QGetTemperature (d : nvml.Device) (sensor : Z)
| QGetPowerUsage (d : nvml.Device)
| QGetEnforcedPowerLimit (d : nvml.Device)
| QGetMemoryInfo (d : nvml.Device).

(** What each call returns: its values followed by the status. *)
Definition Resp (q : Query) : Type :=
  match q with
  | QInit | QShutdown => nvml.Return
  | QDeviceGetCount => (Z * nvml.Return)%type
  | QDeviceGetHandleByIndex _ => (nvml.Device * nvml.Return)%type
  | QSystemGetDriverVersion | QSystemGetNVMLVersion => (string * nvml.Return)%type
  | QSystemGetCudaDriverVersion_v2 => (Z * nvml.Return)%type
  | QGetUUID _ | QGetName _ => (string * nvml.Return)%type
  | QGetMinMaxFanSpeed _ => (Z * Z * nvml.Return)%type
  | QGetUtilizationRates _ => (nvml.Utilization * nvml.Return)%type
  | QGetMemoryInfo _ => (nvml.Memory * nvml.Return)%type
  | _ => (Z * nvml.Return)%type
  end.

Definition answer (drv : nvml.Driver) (q : Query) : Resp q :=
  match q as q0 return Resp q0 with
  | QInit => nvml.Init drv
  | QShutdown => nvml.Shutdown drv
  | QDeviceGetCount => nvml.DeviceGetCount drv
  | QDeviceGetHandleByIndex i => nvml.DeviceGetHandleByIndex drv i
  | QSystemGetDriverVersion => nvml.SystemGetDriverVersion drv
  | QSystemGetCudaDriverVersion_v2 => nvml.SystemGetCudaDriverVersion_v2 drv
  | QSystemGetNVMLVersion => nvml.SystemGetNVMLVersion drv
  | QGetUUID d => nvml.GetUUID drv d
  | QGetName d => nvml.GetName drv d
  | QGetBusType d => nvml.GetBusType drv d
  | QGetNumFans d => nvml.GetNumFans drv d
  | QGetMinMaxFanSpeed d => nvml.GetMinMaxFanSpeed drv d
  | QGetFanSpeed_v2 d f => nvml.GetFanSpeed_v2 drv d f
  | QGetApplicationsClock d t => nvml.GetApplicationsClock drv d t
  | QGetClock d t cid => nvml.GetClock drv d t cid
  | QGetComputeMode d => nvml.GetComputeMode drv d
  | QGetPerformanceState d => nvml.GetPerformanceState drv d
  | QGetPersistenceMode d => nvml.GetPersistenceMode drv d
  | QGetUtilizationRates d => nvml.GetUtilizationRates drv d
  | QGetTemperature d t => nvml.GetTemperature drv d t
  | QGetPowerUsage d => nvml.GetPowerUsage drv d
  | QGetEnforcedPowerLimit d => nvml.GetEnforcedPowerLimit drv d
  | QGetMemoryInfo d => nvml.GetMemoryInfo drv d
  end.

(** The status a driver gives to a query. *)
Definition status (drv : nvml.Driver) (q : Query) : nvml.Return :=
  match q as q0 return Resp q0 -> nvml.Return with
  | QInit | QShutdown => fun r => r
  | QDeviceGetCount => snd
  | QDeviceGetHandleByIndex _ => snd
  | QSystemGetDriverVersion | QSystemGetNVMLVersion => snd
  | QSystemGetCudaDriverVersion_v2 => snd
  | QGetUUID _ | QGetName _ => snd
  | QGetMinMaxFanSpeed _ => snd
  | QGetUtilizationRates _ => snd
  | QGetMemoryInfo _ => snd
  | _ => snd
  end (answer drv q).

(** The descriptors held by nvgpuCollector, one per family; a metric is
    built from the descriptor of one field. *)
Inductive Desc : Type :=
| gpuSysInfo | gpuInfo | gpuMinFanSpeed | gpuMaxFanSpeed | gpuFanSpeed
| gpuTemp | gpuPowerUsage | gpuPowerEnforceLimit
| gpuMemTotal | gpuMemUsed | gpuMemFree
| gpuAppClk | gpuClk | gpuComputeMode | gpuPerf | gpuPersisMode | gpuUtil.

Definition Desc_eqb (a b : Desc) : bool :=
  match a, b with
  | gpuSysInfo, gpuSysInfo | gpuInfo, gpuInfo
  | gpuMinFanSpeed, gpuMinFanSpeed | gpuMaxFanSpeed, gpuMaxFanSpeed
  | gpuFanSpeed, gpuFanSpeed | gpuTemp, gpuTemp
  | gpuPowerUsage, gpuPowerUsage | gpuPowerEnforceLimit, gpuPowerEnforceLimit
  | gpuMemTotal, gpuMemTotal | gpuMemUsed, gpuMemUsed | gpuMemFree, gpuMemFree
  | gpuAppClk, gpuAppClk | gpuClk, gpuClk | gpuComputeMode, gpuComputeMode
  | gpuPerf, gpuPerf | gpuPersisMode, gpuPersisMode | gpuUtil, gpuUtil => true
  | _, _ => false
  end.

(** NewNVGPUCollector: the last part of the metric name and the label names
    of each descriptor. *)
Definition familyName (d : Desc) : string :=
  match d with
  | gpuSysInfo => "sysinfo" | gpuInfo => "gpuinfo"
  | gpuAppClk => "appclk" | gpuClk => "clk"
  | gpuComputeMode => "compute_mode" | gpuPerf => "perf"
  | gpuPersisMode => "persis_mode" | gpuUtil => "util"
  | gpuMinFanSpeed => "min_fan_speed" | gpuMaxFanSpeed => "max_fan_speed"
  | gpuFanSpeed => "fan_speed" | gpuTemp => "temp"
  | gpuPowerUsage => "power_usage"
  | gpuPowerEnforceLimit => "power_enforce_limit"
  | gpuMemTotal => "mem_total" | gpuMemUsed => "mem_used"
  | gpuMemFree => "mem_free"
  end.

Definition variableLabels (d : Desc) : list string :=
  match d with
  | gpuSysInfo => ["driver_v"; "cuda_v"; "nvml_v"]
  | gpuInfo => ["index"; "uuid"; "name"; "bus_type"]
  | gpuAppClk => ["index"; "type"]
  | gpuClk => ["index"; "type"; "id"]
  | gpuComputeMode => ["index"; "mode"]
  | gpuPerf => ["index"; "state"]
  | gpuPersisMode => ["index"; "mode"]
  | gpuUtil => ["index"; "type"]
  | gpuFanSpeed => ["index"; "fan"]
  | gpuTemp => ["index"; "type"]
  | gpuMinFanSpeed | gpuMaxFanSpeed | gpuPowerUsage | gpuPowerEnforceLimit
  | gpuMemTotal | gpuMemUsed | gpuMemFree => ["index"]
  end.

(** prometheus.MustNewConstMetric(desc, prometheus.GaugeValue, value,
    labelValues...).  Every metric of the collector is a gauge; [value] is
    the integer that the code converts with float64, or the literal 1. *)
Record Metric := MustNewConstMetric {
  desc : Desc;
  value : Z;
  labelValues : list string
}.

Inductive Level : Type := LevelError | LevelDebug.

(** What a poll does, in order: a call into the binding, a send on the
    metric channel, a line on the logger. *)
Inductive Event : Type :=
| Call (q : Query)
| Send (m : Metric)
| Log (lvl : Level) (msg : string).

(** The outcome of a computation that may return early with an error. *)
Inductive result (A : Type) : Type :=
| Ok (a : A)
| Err (e : string).
Arguments Ok {A} a.
Arguments Err {A} e.

(** A computation of the poll: the events it performed and its outcome. *)
Definition M (A : Type) : Type := (list Event * result A)%type.

Definition trace {A} (m : M A) : list Event := fst m.
Definition outcome {A} (m : M A) : result A := snd m.

Definition retM {A} (a : A) : M A := ([], Ok a).

Definition bindM {A B} (m : M A) (f : A -> M B) : M B :=
  match m with
  | (t, Ok a) => (t ++ trace (f a), outcome (f a))
  | (t, Err e) => (t, Err e)
  end.

#[global] Instance Monad_M : Monad M := {| ret := @retM; bind := @bindM |}.

(** return fmt.Errorf(...) *)
Definition fail {A} (e : string) : M A := ([], Err e).

(** A call into the binding. *)
Definition call (drv : nvml.Driver) (q : Query) : M (Resp q) :=
  ([Call q], Ok (answer drv q)).

(** ch <- metric *)
Definition send (m : Metric) : M unit := ([Send m], Ok tt).

(** level.X(c.logger).Log("msg", msg) *)
Definition log (lvl : Level) (msg : string) : M unit := ([Log lvl msg], Ok tt).

(** defer f(): the deferred function runs when the surrounding function
    returns, on every path, and cannot change the returned error. *)
Definition defer {A} (deferred : M unit) (body : M A) : M A :=
  (trace body ++ trace deferred, outcome body).

(** for i := 0; i < n; i++ { ... }: the values of the counter. *)
Definition upto (n : Z) : list Z := map Z.of_nat (seq 0 (Z.to_nat n)).

(** A loop whose body may return from the function. *)
Fixpoint forEach {A} (l : list A) (body : A -> M unit) : M unit :=
  match l with
  | [] => ret tt
  | x :: l' => body x ;; forEach l' body
  end.

(** for indexI, d := range devices: the positions with their elements. *)
Fixpoint indexedFrom {A} (i : Z) (l : list A) : list (Z * A) :=
  match l with
  | [] => []
  | x :: l' => (i, x) :: indexedFrom (i + 1) l'
  end.
Definition indexed {A} (l : list A) : list (Z * A) := indexedFrom 0 l.

(** The metrics sent on the channel, in order. *)
Fixpoint sent (t : list Event) : list Metric :=
  match t with
  | [] => []
  | Send m :: t' => m :: sent t'
  | _ :: t' => sent t'
  end.

(** The calls made into the binding, in order. *)
Fixpoint calls (t : list Event) : list Query :=
  match t with
  | [] => []
  | Call q :: t' => q :: calls t'
  | _ :: t' => calls t'
  end.

(** The metrics of one family. *)
Definition ofFamily (d : Desc) (ms : list Metric) : list Metric :=
  filter (fun m => Desc_eqb (desc m) d) ms.

(** The three kingpin flags. *)
Record Flags := {
  enableNVGPUSysInfo : bool;
  enableNVGPUInfo : bool;
  enableNVGPUFan : bool
}.

(** ** The parts of Update that both files share, in source order *)

Section Collector.
Context {K : nvml.Consts}.
Variable drv : nvml.Driver.
Variable fl : Flags.

(** if ret != nvml.SUCCESS { return err } *)
Definition check (rc : nvml.Return) (err : string) : M unit :=
  if negb (rc =? nvml.SUCCESS) then fail err else ret tt.

(** The deferred function of Update. *)
Definition shutdown : M unit :=
  rc <- call drv QShutdown ;;
  if negb (rc =? nvml.SUCCESS)
  then log LevelError
         (fmt.Sprintf ["unable to shutdown NVML: "; nvml.ErrorString drv rc])
  else ret tt.

(** The loop that resolves the handles; [devices] is the slice built so far. *)
Fixpoint deviceHandles (idx : list Z) (devices : list nvml.Device)
  : M (list nvml.Device) :=
  match idx with
  | [] => ret devices
  | i :: idx' =>
      '(d, rc) <- call drv (QDeviceGetHandleByIndex i) ;;
      check rc (fmt.Errorf ["unable to get device at index "; strconv.Itoa i;
                            ": "; nvml.ErrorString drv rc]) ;;
      deviceHandles idx' (devices ++ [d])
  end.

(** nvml.DeviceGetCount and the handle loop. *)
Definition enumerate : M (list nvml.Device) :=
  '(count, rc) <- call drv QDeviceGetCount ;;
  check rc (fmt.Errorf ["unable to get device count: ";
                        nvml.ErrorString drv rc]) ;;
  deviceHandles (upto count) [].

(** The body of if *enableNVGPUSysInfo. *)
Definition getSysInfo : M unit :=
  '(driverV, rc) <- call drv QSystemGetDriverVersion ;;
  check rc (fmt.Errorf ["unable to Get NVIDIA System Driver Version: ";
                        nvml.ErrorString drv rc]) ;;
  '(cudaVI, rc) <- call drv QSystemGetCudaDriverVersion_v2 ;;
  check rc (fmt.Errorf ["unable to Get NVIDIA CUDA Driver Version: ";
                        nvml.ErrorString drv rc]) ;;
  '(nvmlV, rc) <- call drv QSystemGetNVMLVersion ;;
  check rc (fmt.Errorf ["unable to Get NVIDIA NVML Version: ";
                        nvml.ErrorString drv rc]) ;;
  send (MustNewConstMetric gpuSysInfo 1 [driverV; cudaV cudaVI; nvmlV]).

(** The body of if *enableNVGPUInfo. *)
Definition getGPUInfo (index : string) (d : nvml.Device) : M unit :=
  '(uuid, rc) <- call drv (QGetUUID d) ;;
  check rc (fmt.Errorf ["unable to get GPU "; index; " UUID: ";
                        nvml.ErrorString drv rc]) ;;
  '(name, rc) <- call drv (QGetName d) ;;
  check rc (fmt.Errorf ["unable to get GPU "; index; " NAME: ";
                        nvml.ErrorString drv rc]) ;;
  '(busTypeE, rc) <- call drv (QGetBusType d) ;;
  check rc (fmt.Errorf ["unable to get GPU "; index; " BUS Type: ";
                        nvml.ErrorString drv rc]) ;;
  send (MustNewConstMetric gpuInfo 1
          [index; uuid; name; getBusTypeString busTypeE]).

(** The body of the loop over the fans of a device. *)
Definition fanSpeed (index : string) (d : nvml.Device)
    (minFanSpeed maxFanSpeed : Z) (f : Z) : M unit :=
  '(fanSpeed, rc) <- call drv (QGetFanSpeed_v2 d f) ;;
  check rc (fmt.Errorf ["unable to get GPU "; index; " Fan "; strconv.Itoa f;
                        " Speed: "; nvml.ErrorString drv rc]) ;;
  send (MustNewConstMetric gpuMinFanSpeed minFanSpeed [index]) ;;
  send (MustNewConstMetric gpuMaxFanSpeed maxFanSpeed [index]) ;;
  send (MustNewConstMetric gpuFanSpeed fanSpeed [index; strconv.Itoa f]).

(** The body of if *enableNVGPUFan. *)
Definition getFanInfo (index : string) (d : nvml.Device) : M unit :=
  '(fanNums, rc) <- call drv (QGetNumFans d) ;;
  if negb (rc =? nvml.SUCCESS)
  then fail (fmt.Errorf ["unable to get GPU "; index; " Fan info: ";
                         nvml.ErrorString drv rc])
  else if 0 <? fanNums
  then
    '(minFanSpeed, maxFanSpeed, rc) <- call drv (QGetMinMaxFanSpeed d) ;;
    check rc (fmt.Errorf ["unable to get GPU "; index;
                          " Fan Min/Max Speed: "; nvml.ErrorString drv rc]) ;;
    forEach (upto fanNums) (fanSpeed index d minFanSpeed maxFanSpeed)
  else log LevelDebug (fmt.Sprintf ["GPU "; index; " has not Fan"]).

(** d.GetPowerUsage and its metric. *)
Definition getPowerUsage (index : string) (d : nvml.Device) : M unit :=
  '(power, rc) <- call drv (QGetPowerUsage d) ;;
  check rc (fmt.Errorf ["unable to get GPU "; index; " Power Usage Value: ";
                        nvml.ErrorString drv rc]) ;;
  send (MustNewConstMetric gpuPowerUsage power [index]).

(** d.GetMemoryInfo and its three metrics. *)
Definition getMemoryInfo (index : string) (d : nvml.Device) : M unit :=
  '(mem, rc) <- call drv (QGetMemoryInfo d) ;;
  check rc (fmt.Errorf ["unable to get GPU "; index; " Memory Info: ";
                        nvml.ErrorString drv rc]) ;;
  send (MustNewConstMetric gpuMemTotal (nvml.Total mem) [index]) ;;
  send (MustNewConstMetric gpuMemFree (nvml.Free mem) [index]) ;;
  send (MustNewConstMetric gpuMemUsed (nvml.Used mem) [index]).

(** The statements of Update after the defer statement: the enumeration,
    the system information and the loop over the devices, whose body is
    where the two files differ. *)
Definition collect (deviceMetrics : Z -> nvml.Device -> M unit) : M unit :=
  devices <- enumerate ;;
  (if enableNVGPUSysInfo fl then getSysInfo else ret tt) ;;
  forEach (indexed devices) (fun '(indexI, d) => deviceMetrics indexI d).

(** Update: nvml.Init, the deferred nvml.Shutdown, and the rest. *)
Definition poll (deviceMetrics : Z -> nvml.Device -> M unit) : M unit :=
  rc <- call drv QInit ;;
  check rc (fmt.Errorf ["unable to initialize NVML: ";
                        nvml.ErrorString drv rc]) ;;
  defer shutdown (collect deviceMetrics).

End Collector.

(** ** src/unnamed/part_000 *)

Module Part000.
Section Poll.
Context {K : nvml.Consts}.
Variable drv : nvml.Driver.
Variable fl : Flags.

(** One clock type: d.GetApplicationsClock and the switch on its status. *)
Definition appClock (index : string) (d : nvml.Device) (t : Z) : M unit :=
  '(appclk, rc) <- call drv (QGetApplicationsClock d t) ;;
  if rc =? nvml.ERROR_NOT_SUPPORTED
  then log LevelDebug
         (fmt.Sprintf ["GPU "; index; " not support App Clock Type ";
                       getClockTypeString t])
  else if rc =? nvml.SUCCESS
  then send (MustNewConstMetric gpuAppClk appclk
               [index; getClockTypeString t])
  else fail (fmt.Errorf ["unable to get GPU "; index;
                         " Applications Clock Type "; getClockTypeString t;
                         " Info: "; nvml.ErrorString drv rc]).

(** One clock type and clock id: d.GetClock and the switch on its status. *)
Definition clock (index : string) (d : nvml.Device) (t cid : Z) : M unit :=
  '(clk, rc) <- call drv (QGetClock d t cid) ;;
  if rc =? nvml.ERROR_NOT_SUPPORTED
  then log LevelDebug
         (fmt.Sprintf ["GPU "; index; " not support Clock Type ";
                       getClockTypeString t; " with Clock ID ";
                       getClockIDString cid])
  else if rc =? nvml.SUCCESS
  then send (MustNewConstMetric gpuClk clk
               [index; getClockTypeString t; getClockIDString cid])
  else fail (fmt.Errorf ["unable to get GPU "; index; " Clock Type ";
                         getClockTypeString t; " ID "; getClockIDString cid;
                         " Info: "; nvml.ErrorString drv rc]).

(** The two nested loops over the clock types and the clock ids. *)
Definition getClockInfo (index : string) (d : nvml.Device) : M unit :=
  forEach (upto nvml.CLOCK_COUNT) (fun t =>
    appClock index d t ;;
    forEach (upto nvml.CLOCK_ID_COUNT) (clock index d t)).

Definition getComputeMode (index : string) (d : nvml.Device) : M unit :=
  '(compute_m, rc) <- call drv (QGetComputeMode d) ;;
  check rc (fmt.Errorf ["unable to get GPU "; index; " Compute Mode Info: ";
                        nvml.ErrorString drv rc]) ;;
  send (MustNewConstMetric gpuComputeMode 1
          [index; getComputeModeString compute_m]).

Definition getPerformanceState (index : string) (d : nvml.Device) : M unit :=
  '(perf_state, rc) <- call drv (QGetPerformanceState d) ;;
  check rc (fmt.Errorf ["unable to get GPU "; index;
                        " Performance State Info: ";
                        nvml.ErrorString drv rc]) ;;
  send (MustNewConstMetric gpuPerf 1 [index; getPstatesString perf_state]).

Definition getPersistenceMode (index : string) (d : nvml.Device) : M unit :=
  '(persis_mode, rc) <- call drv (QGetPersistenceMode d) ;;
  check rc (fmt.Errorf ["unable to get GPU "; index;
                        " Persistence Mode Info: ";
                        nvml.ErrorString drv rc]) ;;
  send (MustNewConstMetric gpuPersisMode 1
          [index; getPersisModeString persis_mode]).

Definition getGPUUtilization (index : string) (d : nvml.Device) : M unit :=
  '(util, rc) <- call drv (QGetUtilizationRates d) ;;
  check rc (fmt.Errorf ["unable to get GPU "; index; " Utilization Info: ";
                        nvml.ErrorString drv rc]) ;;
  send (MustNewConstMetric gpuUtil (nvml.Gpu util) [index; "GPU"]) ;;
  send (MustNewConstMetric gpuUtil (nvml.Memory_ util) [index; "MEMORY"]).

(** The body of the loop over the temperature sensors. *)
Definition temperature (index : string) (d : nvml.Device) (t : Z) : M unit :=
  '(temp, rc) <- call drv (QGetTemperature d t) ;;
  check rc (fmt.Errorf ["unable to get GPU "; index; " Temperature Sensor ";
                        getTemperatureSensorString t; " Value: ";
                        nvml.ErrorString drv rc]) ;;
  send (MustNewConstMetric gpuTemp temp
          [index; getTemperatureSensorString t]).

Definition getTemperatureInfo (index : string) (d : nvml.Device) : M unit :=
  forEach (upto nvml.TEMPERATURE_COUNT) (temperature index d).

(** d.GetEnforcedPowerLimit and the switch on its status. *)
Definition getEnforcedPowerLimit (index : string) (d : nvml.Device)
  : M unit :=
  '(enforce_limit, rc) <- call drv (QGetEnforcedPowerLimit d) ;;
  if rc =? nvml.ERROR_NOT_SUPPORTED
  then log LevelDebug
         (fmt.Sprintf ["GPU "; index;
                       " not support Enforced Power Limitation"])
  else if rc =? nvml.SUCCESS
  then send (MustNewConstMetric gpuPowerEnforceLimit enforce_limit [index])
  else fail (fmt.Errorf ["unable to get GPU "; index;
                         " Power Enforced Limitation Value: ";
                         nvml.ErrorString drv rc]).

(** The body of for indexI, d := range devices. *)
Definition deviceMetrics (indexI : Z) (d : nvml.Device) : M unit :=
  let index := strconv.Itoa indexI in
  (if enableNVGPUInfo fl then getGPUInfo drv index d else ret tt) ;;
  (if enableNVGPUFan fl then getFanInfo drv index d else ret tt) ;;
  getClockInfo index d ;;
  getComputeMode index d ;;
  getPerformanceState index d ;;
  getPersistenceMode index d ;;
  getGPUUtilization index d ;;
  getTemperatureInfo index d ;;
  getPowerUsage drv index d ;;
  getEnforcedPowerLimit index d ;;
  getMemoryInfo drv index d.

(** func (c *nvgpuCollector) Update(ch chan<- prometheus.Metric) error *)
Definition Update : M unit := poll drv fl deviceMetrics.

End Poll.
End Part000.

(** ** src/collector/nvidia_gpu_linux.go *)

Module NvidiaGpuLinux.
Section Poll.
Context {K : nvml.Consts}.
Variable drv : nvml.Driver.
Variable fl : Flags.

(** The body of the loop over the temperature sensors; the error names the
    sensor by its number. *)
Definition temperature (index : string) (d : nvml.Device) (t : Z) : M unit :=
  '(temp, rc) <- call drv (QGetTemperature d t) ;;
  check rc (fmt.Errorf ["unable to get GPU "; index; " Temperature Sensor ";
                        strconv.Itoa t; " Value: ";
                        nvml.ErrorString drv rc]) ;;
  send (MustNewConstMetric gpuTemp temp
          [index; getTemperatureSensorString t]).

Definition getTemperatureInfo (index : string) (d : nvml.Device) : M unit :=
  forEach (upto nvml.TEMPERATURE_COUNT) (temperature index d).

(** The body of for indexI, d := range devices. *)
Definition deviceMetrics (indexI : Z) (d : nvml.Device) : M unit :=
  let index := strconv.Itoa indexI in
  (if enableNVGPUInfo fl then getGPUInfo drv index d else ret tt) ;;
  (if enableNVGPUFan fl then getFanInfo drv index d else ret tt) ;;
  getTemperatureInfo index d ;;
  getPowerUsage drv index d ;;
  getMemoryInfo drv index d.

(** func (c *nvgpuCollector) Update(ch chan<- prometheus.Metric) error *)
Definition Update : M unit := poll drv fl deviceMetrics.

End Poll.
End NvidiaGpuLinux.

(** ** A concrete binding, for running the embedding *)

(** The values of the constants in go-nvml. *)
#[global] Instance go_nvml : nvml.Consts := {|
  nvml.SUCCESS := 0;
  nvml.ERROR_NOT_SUPPORTED := 3;
  nvml.BUS_TYPE_UNKNOWN := 0;
  nvml.BUS_TYPE_PCI := 1;
  nvml.BUS_TYPE_PCIE := 2;
  nvml.BUS_TYPE_FPCI := 3;
  nvml.BUS_TYPE_AGP := 4;
  nvml.CLOCK_GRAPHICS := 0;
  nvml.CLOCK_SM := 1;
  nvml.CLOCK_MEM := 2;
  nvml.CLOCK_VIDEO := 3;
  nvml.CLOCK_COUNT := 4;
  nvml.CLOCK_ID_CURRENT := 0;
  nvml.CLOCK_ID_APP_CLOCK_TARGET := 1;
  nvml.CLOCK_ID_APP_CLOCK_DEFAULT := 2;
  nvml.CLOCK_ID_CUSTOMER_BOOST_MAX := 3;
  nvml.CLOCK_ID_COUNT := 4;
  nvml.COMPUTEMODE_DEFAULT := 0;
  nvml.COMPUTEMODE_EXCLUSIVE_THREAD := 1;
  nvml.COMPUTEMODE_PROHIBITED := 2;
  nvml.COMPUTEMODE_EXCLUSIVE_PROCESS := 3;
  nvml.PSTATE_UNKNOWN := 32;
  nvml.FEATURE_DISABLED := 0;
  nvml.TEMPERATURE_GPU := 0;
  nvml.TEMPERATURE_COUNT := 1;
  nvml.SUCCESS_ne_NOT_SUPPORTED := eq_refl
|}.

(** A machine with [n] devices of [fans] fans each on which every query
    succeeds; the handle of device [i] is [100 + i]. *)
Definition healthy (n fans : Z) : nvml.Driver := {|
  nvml.Init := 0;
  nvml.Shutdown := 0;
  nvml.ErrorString := fun rc => ("nvml error " ++ strconv.Itoa rc)%string;
  nvml.DeviceGetCount := (n, 0);
  nvml.DeviceGetHandleByIndex := fun i => (100 + i, 0);
  nvml.SystemGetDriverVersion := ("535.104.05", 0);
  nvml.SystemGetCudaDriverVersion_v2 := (12020, 0);
  nvml.SystemGetNVMLVersion := ("12.535.104.05", 0);
  nvml.GetUUID := fun d => (("GPU-" ++ strconv.Itoa d)%string, 0);
  nvml.GetName := fun _ => ("NVIDIA A100", 0);
  nvml.GetBusType := fun _ => (2, 0);
  nvml.GetNumFans := fun _ => (fans, 0);
  nvml.GetMinMaxFanSpeed := fun _ => (30, 100, 0);
  nvml.GetFanSpeed_v2 := fun _ f => (40 + f, 0);
  nvml.GetApplicationsClock := fun _ t => (1000 + t, 0);
  nvml.GetClock := fun _ t cid => (1000 + 10 * t + cid, 0);
  nvml.GetComputeMode := fun _ => (0, 0);
  nvml.GetPerformanceState := fun _ => (8, 0);
  nvml.GetPersistenceMode := fun _ => (1, 0);
  nvml.GetUtilizationRates := fun _ => ({| nvml.Gpu := 42; nvml.Memory_ := 17 |}, 0);
  nvml.GetTemperature := fun _ _ => (55, 0);
  nvml.GetPowerUsage := fun _ => (70000, 0);
  nvml.GetEnforcedPowerLimit := fun _ => (250000, 0);
  nvml.GetMemoryInfo := fun _ =>
    ({| nvml.Total := 85899345920; nvml.Free := 85000000000;
        nvml.Used := 899345920 |}, 0)
|}.

Definition allFlags : Flags :=
  {| enableNVGPUSysInfo := true; enableNVGPUInfo := true;
     enableNVGPUFan := true |}.
Definition noFlags : Flags :=
  {| enableNVGPUSysInfo := false; enableNVGPUInfo := false;
     enableNVGPUFan := false |}.

(** The driver that gives the status [rc] to the queries selected by [p]
    and answers like [drv] otherwise. *)
Definition withStatus (p : Query -> bool) (rc : nvml.Return)
    (drv : nvml.Driver) : nvml.Driver :=
  let st {A} (q : Query) (r : A * nvml.Return) : A * nvml.Return :=
    if p q then (fst r, rc) else r in
  {|
  nvml.Init := if p QInit then rc else nvml.Init drv;
  nvml.Shutdown := if p QShutdown then rc else nvml.Shutdown drv;
  nvml.ErrorString := nvml.ErrorString drv;
  nvml.DeviceGetCount := st QDeviceGetCount (nvml.DeviceGetCount drv);
  nvml.DeviceGetHandleByIndex := fun i =>
    st (QDeviceGetHandleByIndex i) (nvml.DeviceGetHandleByIndex drv i);
  nvml.SystemGetDriverVersion :=
    st QSystemGetDriverVersion (nvml.SystemGetDriverVersion drv);
  nvml.SystemGetCudaDriverVersion_v2 :=
    st QSystemGetCudaDriverVersion_v2 (nvml.SystemGetCudaDriverVersion_v2 drv);
  nvml.SystemGetNVMLVersion :=
    st QSystemGetNVMLVersion (nvml.SystemGetNVMLVersion drv);
  nvml.GetUUID := fun d => st (QGetUUID d) (nvml.GetUUID drv d);
  nvml.GetName := fun d => st (QGetName d) (nvml.GetName drv d);
  nvml.GetBusType := fun d => st (QGetBusType d) (nvml.GetBusType drv d);
  nvml.GetNumFans := fun d => st (QGetNumFans d) (nvml.GetNumFans drv d);
  nvml.GetMinMaxFanSpeed := fun d =>
    st (QGetMinMaxFanSpeed d) (nvml.GetMinMaxFanSpeed drv d);
  nvml.GetFanSpeed_v2 := fun d f =>
    st (QGetFanSpeed_v2 d f) (nvml.GetFanSpeed_v2 drv d f);
  nvml.GetApplicationsClock := fun d t =>
    st (QGetApplicationsClock d t) (nvml.GetApplicationsClock drv d t);
  nvml.GetClock := fun d t cid =>
    st (QGetClock d t cid) (nvml.GetClock drv d t cid);
  nvml.GetComputeMode := fun d =>
    st (QGetComputeMode d) (nvml.GetComputeMode drv d);
  nvml.GetPerformanceState := fun d =>
    st (QGetPerformanceState d) (nvml.GetPerformanceState drv d);
  nvml.GetPersistenceMode := fun d =>
    st (QGetPersistenceMode d) (nvml.GetPersistenceMode drv d);
  nvml.GetUtilizationRates := fun d =>
    st (QGetUtilizationRates d) (nvml.GetUtilizationRates drv d);
  nvml.GetTemperature := fun d t =>
    st (QGetTemperature d t) (nvml.GetTemperature drv d t);
  nvml.GetPowerUsage := fun d =>
    st (QGetPowerUsage d) (nvml.GetPowerUsage drv d);
  nvml.GetEnforcedPowerLimit := fun d =>
    st (QGetEnforcedPowerLimit d) (nvml.GetEnforcedPowerLimit drv d);
  nvml.GetMemoryInfo := fun d =>
    st (QGetMemoryInfo d) (nvml.GetMemoryInfo drv d)
  |}.

Definition isShutdown (q : Query) : bool :=
  match q with QShutdown => true | _ => false end.

(** [drv] with another status for nvml.Shutdown. *)
Definition setShutdown (rc : nvml.Return) (drv : nvml.Driver) : nvml.Driver :=
  withStatus isShutdown rc drv.

Definition temperatureQuery (q : Query) : bool :=
  match q with QGetTemperature _ _ => true | _ => false end.

(** Queries about devices and sensors that a one-device poll never makes. *)
Definition beyondFirst (q : Query) : bool :=
  match q with
  | QDeviceGetHandleByIndex i => 1 <=? i
  | QGetTemperature _ t => 1 <=? t
  | QGetFanSpeed_v2 _ f => 2 <=? f
  | _ => false
  end.

(** ** Vocabulary of the properties *)

Section Vocabulary.
Context {K : nvml.Consts}.

(** The queries whose switch has a case for nvml.ERROR_NOT_SUPPORTED. *)
Definition soft (q : Query) : bool :=
  match q with
  | QGetApplicationsClock _ _ | QGetClock _ _ _ | QGetEnforcedPowerLimit _ => true
  | _ => false
  end.

(** A status that makes a query of the poll a hard failure: not SUCCESS,
    and not NOT_SUPPORTED either where the query has a soft path. *)
Definition hard_failure (drv : nvml.Driver) (q : Query) : bool :=
  negb (status drv q =? nvml.SUCCESS)
  && negb (soft q && (status drv q =? nvml.ERROR_NOT_SUPPORTED)).

(** An event after which the poll goes on. *)
Definition passes (drv : nvml.Driver) (ev : Event) : Prop :=
  match ev with
  | Call q => hard_failure drv q = false
  | _ => True
  end.

(** A computation returns an error exactly at the first hard failure: on
    success no call of its trace failed hard; on error the trace ends with
    the call that did, and nothing follows it. *)
Definition stops_at_failure (drv : nvml.Driver) {A} (m : M A) : Prop :=
  match outcome m with
  | Ok _ => Forall (passes drv) (trace m)
  | Err _ => exists pre q, trace m = pre ++ [Call q]
                           /\ Forall (passes drv) pre
                           /\ hard_failure drv q = true
  end.

(** Every event of the trace satisfies [P]. *)
Definition every (P : Event -> Prop) {A} (m : M A) : Prop :=
  Forall P (trace m).

(** Two drivers give the same responses to the queries of a list, and
    render statuses alike. *)
Definition same_responses (qs : list Query) (d1 d2 : nvml.Driver) : Prop :=
  (forall q, In q qs -> answer d1 q = answer d2 q)
  /\ (forall rc, nvml.ErrorString d1 rc = nvml.ErrorString d2 rc).

(** A computation over a driver depends on the driver only through the
    responses to the calls it makes. *)
Definition local {A} (c : nvml.Driver -> M A) : Prop :=
  forall d1 d2, same_responses (calls (trace (c d1))) d1 d2 -> c d1 = c d2.

(** The queries that belong to the three families with a flag. *)
Definition sysInfoQuery (q : Query) : bool :=
  match q with
  | QSystemGetDriverVersion | QSystemGetCudaDriverVersion_v2
  | QSystemGetNVMLVersion => true
  | _ => false
  end.
Definition gpuInfoQuery (q : Query) : bool :=
  match q with
  | QGetUUID _ | QGetName _ | QGetBusType _ => true
  | _ => false
  end.
Definition fanQuery (q : Query) : bool :=
  match q with
  | QGetNumFans _ | QGetMinMaxFanSpeed _ | QGetFanSpeed_v2 _ _ => true
  | _ => false
  end.
Definition fanDesc (d : Desc) : bool :=
  match d with
  | gpuMinFanSpeed | gpuMaxFanSpeed | gpuFanSpeed => true
  | _ => false
  end.

(** No call of the trace is in [qs] and no metric sent is of [ds]. *)
Definition untouched (qs : Query -> bool) (ds : Desc -> bool) (ev : Event)
  : Prop :=
  match ev with
  | Call q => qs q = false
  | Send m => ds (desc m) = false
  | Log _ _ => True
  end.

(** The queries a poll may not make under the flags [fl]. *)
Definition disabledQuery (fl : Flags) (q : Query) : bool :=
  (negb (enableNVGPUSysInfo fl) && sysInfoQuery q)
  || (negb (enableNVGPUInfo fl) && gpuInfoQuery q)
  || (negb (enableNVGPUFan fl) && fanQuery q).

(** The descriptors a poll may not use under the flags [fl]. *)
Definition disabledDesc (fl : Flags) (d : Desc) : bool :=
  (negb (enableNVGPUSysInfo fl) && Desc_eqb d gpuSysInfo)
  || (negb (enableNVGPUInfo fl) && Desc_eqb d gpuInfo)
  || (negb (enableNVGPUFan fl) && fanDesc d).

(** The first label value of a metric is [index]. *)
Definition labelled (index : string) (ev : Event) : Prop :=
  match ev with
  | Send m => hd_error (labelValues m) = Some index
  | _ => True
  end.

(** Neither nvml.Init nor nvml.Shutdown. *)
Definition notSession (ev : Event) : Prop :=
  match ev with
  | Call QInit | Call QShutdown => False
  | _ => True
  end.

(** What the session of a poll [U] looks like on a driver whose nvml.Init
    succeeds: nvml.Init, then a body without nvml.Shutdown, then the
    deferred function, which makes the one call to nvml.Shutdown, logs its
    status when it is not SUCCESS and sends nothing; a poll that returns an error made a call that failed hard as
    the last event of its body; the status of nvml.Shutdown changes neither
    the returned error nor the metrics sent. *)
Definition session_discipline (drv : nvml.Driver) (fl : Flags)
    (U : nvml.Driver -> Flags -> M unit) : Prop :=
  List.length (filter isShutdown (calls (trace (U drv fl)))) = 1%nat
  /\ (exists body,
        trace (U drv fl) = Call QInit :: body ++ trace (shutdown drv)
        /\ trace (shutdown drv)
           = Call QShutdown
               :: (if nvml.Shutdown drv =? nvml.SUCCESS then []
                   else [Log LevelError
                           (fmt.Sprintf
                              ["unable to shutdown NVML: ";
                               nvml.ErrorString drv (nvml.Shutdown drv)])])
        /\ calls (trace (shutdown drv)) = [QShutdown]
        /\ sent (trace (shutdown drv)) = []
        /\ ~ In QShutdown (calls body)
        /\ (outcome (U drv fl) = Ok tt -> Forall (passes drv) body)
        /\ (forall e, outcome (U drv fl) = Err e ->
            exists pre q, body = pre ++ [Call q]
                          /\ Forall (passes drv) pre
                          /\ hard_failure drv q = true))
  /\ (forall rc,
        outcome (U (setShutdown rc drv) fl) = outcome (U drv fl)
        /\ sent (trace (U (setShutdown rc drv) fl)) = sent (trace (U drv fl))).

(** What the flags do to a poll [U]: a family whose flag is false makes no
    query and sends no metric, and the poll is the same on every driver
    that differs only in the responses to the queries of disabled
    families. *)
Definition flag_gating (drv : nvml.Driver) (fl : Flags)
    (U : nvml.Driver -> Flags -> M unit) : Prop :=
  (enableNVGPUSysInfo fl = false ->
   filter sysInfoQuery (calls (trace (U drv fl))) = []
   /\ ofFamily gpuSysInfo (sent (trace (U drv fl))) = [])
  /\ (enableNVGPUInfo fl = false ->
      filter gpuInfoQuery (calls (trace (U drv fl))) = []
      /\ ofFamily gpuInfo (sent (trace (U drv fl))) = [])
  /\ (enableNVGPUFan fl = false ->
      filter fanQuery (calls (trace (U drv fl))) = []
      /\ filter (fun m => fanDesc (desc m)) (sent (trace (U drv fl))) = [])
  /\ (forall d2,
        (forall q, disabledQuery fl q = false -> answer drv q = answer d2 q) ->
        (forall rc, nvml.ErrorString drv rc = nvml.ErrorString d2 rc) ->
        U d2 fl = U drv fl).

(** The handle that the driver resolves for the index [i]. *)
Definition handleAt (drv : nvml.Driver) (i : Z) : nvml.Device :=
  fst (nvml.DeviceGetHandleByIndex drv i).

(** What the enumeration means for a poll [U] whose loop body is [dm], on
    a driver that reports [N] devices: every metric of the body for the
    device at position [i] carries the decimal rendering of [i] as its
    first label; every metric of the poll is the system information or
    carries the index of a position below [N]; and a poll that succeeds
    sends the system information, if enabled, and then the metrics of the
    devices in the order of their positions. *)
Definition indexes_devices (drv : nvml.Driver) (fl : Flags) (N : Z)
    (U : M unit) (dm : Z -> nvml.Device -> M unit) : Prop :=
  (forall i d, every (labelled (strconv.Itoa i)) (dm i d))
  /\ Forall (fun m =>
               desc m = gpuSysInfo
               \/ exists i, 0 <= i < N
                            /\ hd_error (labelValues m)
                               = Some (strconv.Itoa i))
            (sent (trace U))
  /\ (outcome U = Ok tt ->
      sent (trace U)
      = sent (trace (if enableNVGPUSysInfo fl then getSysInfo drv
                     else ret tt))
        ++ flat_map (fun i => sent (trace (dm i (handleAt drv i)))) (upto N)).

(** The policy of a sub-metric with a soft path: the step makes the one
    query [q]; on NOT_SUPPORTED it goes on and sends nothing; on SUCCESS it
    goes on and sends exactly [metric]; on any other status it returns an
    error and sends nothing. *)
Definition soft_policy (drv : nvml.Driver) (q : Query) (step : M unit)
    (metric : Metric) : Prop :=
  calls (trace step) = [q]
  /\ (status drv q = nvml.ERROR_NOT_SUPPORTED ->
      outcome step = Ok tt /\ sent (trace step) = [])
  /\ (status drv q = nvml.SUCCESS ->
      outcome step = Ok tt /\ sent (trace step) = [metric])
  /\ (status drv q <> nvml.SUCCESS ->
      status drv q <> nvml.ERROR_NOT_SUPPORTED ->
      (exists e, outcome step = Err e) /\ sent (trace step) = []).

(** The policy of a sub-metric without a soft path: the step makes the one
    query [q]; on SUCCESS it goes on and sends exactly [metric]; on any
    other status, NOT_SUPPORTED included, it returns an error and sends
    nothing. *)
Definition hard_policy (drv : nvml.Driver) (q : Query) (step : M unit)
    (metric : Metric) : Prop :=
  calls (trace step) = [q]
  /\ (status drv q = nvml.SUCCESS ->
      outcome step = Ok tt /\ sent (trace step) = [metric])
  /\ (status drv q <> nvml.SUCCESS ->
      (exists e, outcome step = Err e) /\ sent (trace step) = [])
  /\ (status drv q = nvml.ERROR_NOT_SUPPORTED ->
      (exists e, outcome step = Err e) /\ sent (trace step) = []).

(** A poll [U] aborts at the query [q]: it returns an error, and [q] is its
    last call before the release of the session. *)
Definition aborts_at (drv : nvml.Driver) (U : M unit) (q : Query) : Prop :=
  exists e pre,
    outcome U = Err e
    /\ trace U = Call QInit :: pre ++ Call q :: trace (shutdown drv).

(** The metrics of the sub-metrics with a switch on the status. *)
Definition appClkMetric (drv : nvml.Driver) (index : string)
    (d : nvml.Device) (t : Z) : Metric :=
  MustNewConstMetric gpuAppClk (fst (nvml.GetApplicationsClock drv d t))
    [index; getClockTypeString t].
Definition clkMetric (drv : nvml.Driver) (index : string)
    (d : nvml.Device) (t cid : Z) : Metric :=
  MustNewConstMetric gpuClk (fst (nvml.GetClock drv d t cid))
    [index; getClockTypeString t; getClockIDString cid].
Definition enforceLimitMetric (drv : nvml.Driver) (index : string)
    (d : nvml.Device) : Metric :=
  MustNewConstMetric gpuPowerEnforceLimit
    (fst (nvml.GetEnforcedPowerLimit drv d)) [index].
Definition tempMetric (drv : nvml.Driver) (index : string)
    (d : nvml.Device) (t : Z) : Metric :=
  MustNewConstMetric gpuTemp (fst (nvml.GetTemperature drv d t))
    [index; getTemperatureSensorString t].

(** The three metrics sent for the fan [f] of a device. *)
Definition fanMetrics (drv : nvml.Driver) (index : string)
    (d : nvml.Device) (f : Z) : list Metric :=
  [MustNewConstMetric gpuMinFanSpeed
     (fst (fst (nvml.GetMinMaxFanSpeed drv d))) [index];
   MustNewConstMetric gpuMaxFanSpeed
     (snd (fst (nvml.GetMinMaxFanSpeed drv d))) [index];
   MustNewConstMetric gpuFanSpeed (fst (nvml.GetFanSpeed_v2 drv d f))
     [index; strconv.Itoa f]].

(** A metric has one label value per label name of its descriptor. *)
Definition wellLabelled (ev : Event) : Prop :=
  match ev with
  | Send m =>
      List.length (labelValues m) = List.length (variableLabels (desc m))
  | _ => True
  end.

(** A persis_mode metric carries the label "ON" or "OFF". *)
Definition onOff (ev : Event) : Prop :=
  match ev with
  | Send m =>
      desc m = gpuPersisMode ->
      exists index, labelValues m = [index; "ON"]
                    \/ labelValues m = [index; "OFF"]
  | _ => True
  end.

(** The device that a query is about, when it is about one. *)
Definition deviceOf (q : Query) : option nvml.Device :=
  match q with
  | QGetUUID d | QGetName d | QGetBusType d | QGetNumFans d
  | QGetMinMaxFanSpeed d | QGetFanSpeed_v2 d _ | QGetApplicationsClock d _
  | QGetClock d _ _ | QGetComputeMode d | QGetPerformanceState d
  | QGetPersistenceMode d | QGetUtilizationRates d | QGetTemperature d _
  | QGetPowerUsage d | QGetEnforcedPowerLimit d | QGetMemoryInfo d => Some d
  | _ => None
  end.

(** A query about a device is about a handle that the driver resolves for
    an index below the device count. *)
Definition onEnumerated (drv : nvml.Driver) (ev : Event) : Prop :=
  match ev with
  | Call q =>
      match deviceOf q with
      | Some d => exists i, 0 <= i < fst (nvml.DeviceGetCount drv)
                            /\ d = handleAt drv i
      | None => True
      end
  | _ => True
  end.

(** The counters that the loops pass to the driver stay below the bound of
    their loop. *)
Definition inBounds (drv : nvml.Driver) (ev : Event) : Prop :=
  match ev with
  | Call (QDeviceGetHandleByIndex i) =>
      0 <= i < fst (nvml.DeviceGetCount drv)
  | Call (QGetFanSpeed_v2 d f) => 0 <= f < fst (nvml.GetNumFans drv d)
  | Call (QGetApplicationsClock _ t) => 0 <= t < nvml.CLOCK_COUNT
  | Call (QGetClock _ t cid) =>
      0 <= t < nvml.CLOCK_COUNT /\ 0 <= cid < nvml.CLOCK_ID_COUNT
  | Call (QGetTemperature _ t) => 0 <= t < nvml.TEMPERATURE_COUNT
  | _ => True
  end.

(** A step that makes the one query [q] and then sends all of [metrics], in
    order, or, when the query does not succeed, returns an error and sends
    none of them. *)
Definition all_or_nothing (drv : nvml.Driver) (q : Query) (step : M unit)
    (metrics : list Metric) : Prop :=
  calls (trace step) = [q]
  /\ (status drv q = nvml.SUCCESS ->
      outcome step = Ok tt /\ sent (trace step) = metrics)
  /\ (status drv q <> nvml.SUCCESS ->
      (exists e, outcome step = Err e) /\ sent (trace step) = []).

(** The families whose value is the constant 1 and whose information is in
    the labels. *)
Definition infoDesc (d : Desc) : bool :=
  match d with
  | gpuSysInfo | gpuInfo | gpuComputeMode | gpuPerf | gpuPersisMode => true
  | _ => false
  end.

(** The queries and the descriptors that only the richer file has. *)
Definition richQuery (q : Query) : bool :=
  match q with
  | QGetApplicationsClock _ _ | QGetClock _ _ _ | QGetComputeMode _
  | QGetPerformanceState _ | QGetPersistenceMode _ | QGetUtilizationRates _
  | QGetEnforcedPowerLimit _ => true
  | _ => false
  end.
Definition richDesc (d : Desc) : bool :=
  match d with
  | gpuAppClk | gpuClk | gpuComputeMode | gpuPerf | gpuPersisMode | gpuUtil
  | gpuPowerEnforceLimit => true
  | _ => false
  end.

(** The calls of the body of if *enableNVGPUSysInfo, which stops at the
    first query that does not succeed. *)
Definition sysInfoCalls (drv : nvml.Driver) : list Query :=
  if negb (snd (nvml.SystemGetDriverVersion drv) =? nvml.SUCCESS)
  then [QSystemGetDriverVersion]
  else if negb (snd (nvml.SystemGetCudaDriverVersion_v2 drv) =? nvml.SUCCESS)
  then [QSystemGetDriverVersion; QSystemGetCudaDriverVersion_v2]
  else [QSystemGetDriverVersion; QSystemGetCudaDriverVersion_v2;
        QSystemGetNVMLVersion].

(** The calls of the body of if *enableNVGPUInfo, likewise. *)
Definition gpuInfoCalls (drv : nvml.Driver) (d : nvml.Device) : list Query :=
  if negb (snd (nvml.GetUUID drv d) =? nvml.SUCCESS)
  then [QGetUUID d]
  else if negb (snd (nvml.GetName drv d) =? nvml.SUCCESS)
  then [QGetUUID d; QGetName d]
  else [QGetUUID d; QGetName d; QGetBusType d].

(** When the computation succeeds it has sent exactly [k] metrics of the
    family [d]. *)
Definition sends_on_success (d : Desc) (k : nat) {A} (m : M A) : Prop :=
  (exists a, outcome m = Ok a) ->
  List.length (ofFamily d (sent (trace m))) = k.

(** How many metrics of a family the body of the device loop sends for one
    device when it succeeds, for the families where that number does not
    depend on what the driver answers; [rich] tells the two files apart. *)
Definition perDevice (rich : bool) (fl : Flags) (d : Desc) : option nat :=
  match d with
  | gpuSysInfo => Some 0%nat
  | gpuInfo => Some (if enableNVGPUInfo fl then 1%nat else 0%nat)
  | gpuTemp => Some (Z.to_nat nvml.TEMPERATURE_COUNT)
  | gpuPowerUsage | gpuMemTotal | gpuMemUsed | gpuMemFree => Some 1%nat
  | gpuComputeMode | gpuPerf | gpuPersisMode =>
      Some (if rich then 1%nat else 0%nat)
  | gpuUtil => Some (if rich then 2%nat else 0%nat)
  | gpuAppClk | gpuClk | gpuPowerEnforceLimit =>
      if rich then None else Some 0%nat
  | gpuMinFanSpeed | gpuMaxFanSpeed | gpuFanSpeed =>
      if enableNVGPUFan fl then None else Some 0%nat
  end.

(** A metric of an information family has the value 1. *)
Definition valueOne (ev : Event) : Prop :=
  match ev with
  | Send m => infoDesc (desc m) = true -> value m = 1
  | _ => True
  end.

(** The codes named by the cases of getBusTypeString that do not return
    "UNKNOWN". *)
Definition namedBusTypeCodes : list Z :=
  [nvml.BUS_TYPE_AGP; nvml.BUS_TYPE_FPCI; nvml.BUS_TYPE_PCI;
   nvml.BUS_TYPE_PCIE].

(** [m2] does what [m1] does with the metrics outside [keep] left out:
    when [m1] succeeds, [m2] succeeds with the same result and sends the
    metrics of [m1] whose family is in [keep], in the same order. *)
Definition extends (keep : Desc -> bool) {A} (m1 m2 : M A) : Prop :=
  forall a, outcome m1 = Ok a ->
            outcome m2 = Ok a
            /\ filter (fun m => keep (desc m)) (sent (trace m1))
               = sent (trace m2).

(** Every metric sent is of a family in [keep]. *)
Definition sendsOnly (keep : Desc -> bool) (ev : Event) : Prop :=
  match ev with
  | Send m => keep (desc m) = true
  | _ => True
  end.

(** Every flag that is true in [fl'] is true in [fl]. *)
Definition flags_le (fl' fl : Flags) : Prop :=
  (enableNVGPUSysInfo fl' = true -> enableNVGPUSysInfo fl = true)
  /\ (enableNVGPUInfo fl' = true -> enableNVGPUInfo fl = true)
  /\ (enableNVGPUFan fl' = true -> enableNVGPUFan fl = true).

(** What the message of an error says of the query [q] that failed: it
    starts with "unable to " and ends with the driver's rendering of the
    status of [q]. *)
Definition describes (drv : nvml.Driver) (q : Query) (e : string) : Prop :=
  String.prefix "unable to " e = true
  /\ exists what,
       e = String.append what (nvml.ErrorString drv (status drv q)).

(** The message of an error about a query on the device [d], made in the
    body of the device loop at position [index]. *)
Definition describesDevice (drv : nvml.Driver) (index : string)
    (d : nvml.Device) (q : Query) (e : string) : Prop :=
  describes drv q e
  /\ deviceOf q = Some d
  /\ String.prefix
       (String.append "unable to get GPU " (String.append index " ")) e = true.

(** When the failed query is about a device, the message names a position
    of that device in the enumeration. *)
Definition namesDevice (drv : nvml.Driver) (q : Query) (e : string) : Prop :=
  match deviceOf q with
  | Some d =>
      exists i, 0 <= i < fst (nvml.DeviceGetCount drv)
                /\ d = handleAt drv i
                /\ String.prefix
                     (String.append "unable to get GPU "
                        (String.append (strconv.Itoa i) " ")) e = true
  | None => True
  end.

(** An error of [m] comes from the last event of its trace, a query that
    failed hard, and its message satisfies [P] for that query. *)
Definition blames (drv : nvml.Driver) (P : Query -> string -> Prop) {A}
    (m : M A) : Prop :=
  forall e, outcome m = Err e ->
            exists pre q, trace m = pre ++ [Call q]
                          /\ hard_failure drv q = true /\ P q e.

(** A poll that returns an error made a query that failed hard, right
    before the deferred shutdown (or nvml.Init, with no shutdown), and the
    error describes that query and names its device. *)
Definition reports_failure (drv : nvml.Driver) (U : M unit) : Prop :=
  forall e, outcome U = Err e ->
            exists pre q,
              ((q = QInit /\ trace U = [Call QInit])
               \/ trace U = pre ++ Call q :: trace (shutdown drv))
              /\ hard_failure drv q = true
              /\ describes drv q e
              /\ namesDevice drv q e.

(** Neither a query nor a metric that only the richer file has. *)
Definition plain (ev : Event) : Prop :=
  match ev with
  | Call q => richQuery q = false
  | Send m => richDesc (desc m) = false
  | Log _ _ => True
  end.

End Vocabulary.

(** * Properties *)

(** ** The labels *)

Section LabelFacts.
Context {K : nvml.Consts}.

Lemma getBusTypeString_default code :
  ~ In code busTypeCodes -> getBusTypeString code = "UNKNOWN".
Proof.
  unfold busTypeCodes, getBusTypeString; simpl; intros H.
  repeat match goal with
         | |- context [code =? ?c] =>
             destruct (Z.eqb_spec code c); [exfalso; apply H; intuition congruence|]
         end.
  reflexivity.
Qed.

Lemma getClockTypeString_default code :
  ~ In code clockTypeCodes -> getClockTypeString code = "UNKNOWN".
Proof.
  unfold clockTypeCodes, getClockTypeString; simpl; intros H.
  repeat match goal with
         | |- context [code =? ?c] =>
             destruct (Z.eqb_spec code c); [exfalso; apply H; intuition congruence|]
         end.
  reflexivity.
Qed.

Lemma getClockIDString_default code :
  ~ In code clockIDCodes -> getClockIDString code = "UNKNOWN".
Proof.
  unfold clockIDCodes, getClockIDString; simpl; intros H.
  repeat match goal with
         | |- context [code =? ?c] =>
             destruct (Z.eqb_spec code c); [exfalso; apply H; intuition congruence|]
         end.
  reflexivity.
Qed.

Lemma getComputeModeString_default code :
  ~ In code computeModeCodes -> getComputeModeString code = "UNKNOWN".
Proof.
  unfold computeModeCodes, getComputeModeString; simpl; intros H.
  repeat match goal with
         | |- context [code =? ?c] =>
             destruct (Z.eqb_spec code c); [exfalso; apply H; intuition congruence|]
         end.
  reflexivity.
Qed.

Lemma getTemperatureSensorString_default code :
  ~ In code temperatureSensorCodes ->
  getTemperatureSensorString code = "UNKNOWN".
Proof.
  unfold temperatureSensorCodes, getTemperatureSensorString; simpl; intros H.
  destruct (Z.eqb_spec code nvml.TEMPERATURE_GPU); [exfalso; apply H; intuition congruence|].
  reflexivity.
Qed.

Lemma getPstatesString_known code :
  code <> nvml.PSTATE_UNKNOWN ->
  getPstatesString code = ("P" ++ strconv.Itoa code)%string.
Proof.
  intros H; unfold getPstatesString.
  destruct (Z.eqb_spec nvml.PSTATE_UNKNOWN code); [congruence|reflexivity].
Qed.

Lemma getPstatesString_unknown :
  getPstatesString nvml.PSTATE_UNKNOWN = "UNKNOWN".
Proof. unfold getPstatesString; now rewrite Z.eqb_refl. Qed.

Lemma getPersisModeString_on_off code :
  getPersisModeString code = "ON" \/ getPersisModeString code = "OFF".
Proof.
  unfold getPersisModeString; destruct (code =? nvml.FEATURE_DISABLED); auto.
Qed.

(** C1, as the code has it: the five helpers that are a switch with a
    default arm map every code outside their cases to "UNKNOWN";
    getPstatesString maps the single code PSTATE_UNKNOWN to "UNKNOWN" and
    every other code n to "P" followed by n in decimal, which is never
    "UNKNOWN"; getPersisModeString maps FEATURE_DISABLED to "OFF" and every
    other code to "ON".  All seven are total functions. *)
Theorem C1_mapping_fallback :
  falls_back_to_UNKNOWN busTypeCodes getBusTypeString
  /\ falls_back_to_UNKNOWN clockTypeCodes getClockTypeString
  /\ falls_back_to_UNKNOWN clockIDCodes getClockIDString
  /\ falls_back_to_UNKNOWN computeModeCodes getComputeModeString
  /\ falls_back_to_UNKNOWN temperatureSensorCodes getTemperatureSensorString
  /\ (forall code,
        (code = nvml.PSTATE_UNKNOWN /\ getPstatesString code = "UNKNOWN")
        \/ (code <> nvml.PSTATE_UNKNOWN
            /\ getPstatesString code = ("P" ++ strconv.Itoa code)%string
            /\ getPstatesString code <> "UNKNOWN"))
  /\ (forall code,
        (code = nvml.FEATURE_DISABLED /\ getPersisModeString code = "OFF")
        \/ (code <> nvml.FEATURE_DISABLED
            /\ getPersisModeString code = "ON")).
Proof.
  repeat split.
  - exact getBusTypeString_default.
  - exact getClockTypeString_default.
  - exact getClockIDString_default.
  - exact getComputeModeString_default.
  - exact getTemperatureSensorString_default.
  - intros code. destruct (Z.eq_dec code nvml.PSTATE_UNKNOWN) as [->|Hne].
    + left; split; [reflexivity|apply getPstatesString_unknown].
    + right; rewrite (getPstatesString_known _ Hne).
      repeat split; [assumption|discriminate].
  - intros code. unfold getPersisModeString.
    destruct (Z.eqb_spec code nvml.FEATURE_DISABLED); auto.
Qed.

(** C10: getPersisModeString returns "ON" for every state code other than
    FEATURE_DISABLED and "OFF" for FEATURE_DISABLED, hence never "UNKNOWN". *)
Lemma getPersisModeString_never_unknown code :
  getPersisModeString code <> "UNKNOWN".
Proof.
  destruct (getPersisModeString_on_off code) as [-> | ->]; discriminate.
Qed.

End LabelFacts.

(** C1 as stated fails for the two helpers without a default arm: with the
    constants of go-nvml, the persistence-mode code 2 is neither
    FEATURE_DISABLED (0) nor FEATURE_ENABLED (1) and maps to "ON", and the
    performance-state code 40 is none of PSTATE_0 .. PSTATE_15 nor
    PSTATE_UNKNOWN (32) and maps to "P40". *)
Lemma C1_counterexample :
  ~ falls_back_to_UNKNOWN [0; 1] getPersisModeString
  /\ ~ falls_back_to_UNKNOWN (32 :: upto 16) getPstatesString.
Proof.
  split; intros H.
  - assert (N : ~ In 2 [0; 1]) by (simpl; lia).
    specialize (H 2 N). discriminate H.
  - assert (N : ~ In 40 (32 :: upto 16)).
    { cbv. intros X.
      repeat (destruct X as [X|X]; [discriminate X|]). exact X. }
    specialize (H 40 N). discriminate H.
Qed.

Lemma C1_mapping_fallback_witness :
  getBusTypeString 99 = "UNKNOWN"
  /\ getTemperatureSensorString (-1) = "UNKNOWN"
  /\ getPstatesString 32 = "UNKNOWN".
Proof.
  split; [|split].
  - apply (proj1 C1_mapping_fallback 99). simpl. lia.
  - apply (proj1 (proj2 (proj2 (proj2 (proj2 C1_mapping_fallback)))) (-1)).
    simpl. lia.
  - destruct (proj1 (proj2 (proj2 (proj2 (proj2 (proj2
                C1_mapping_fallback))))) 32) as [[_ H]|[H _]].
    + exact H.
    + exfalso. apply H. reflexivity.
Defined.

(** ** The CUDA version string *)

Lemma cudaV_unfold raw :
  cudaV raw
  = (strconv.Itoa (Z.quot raw 1000) ++ "."
     ++ strconv.Itoa (Z.quot (Z.rem raw 1000) 10))%string.
Proof. reflexivity. Qed.

(** C5: the version string is "{major}.{minor}" with major = raw / 1000 and
    minor = (raw % 1000) / 10: in Go's truncating arithmetic for every int,
    and hence in the arithmetic of the specification for every packed
    (non-negative) version; 11070 gives "11.7" and 12020 gives "12.2". *)
Theorem C5_cuda_version :
  (forall raw,
     cudaV raw
     = (strconv.Itoa (Z.quot raw 1000) ++ "."
        ++ strconv.Itoa (Z.quot (Z.rem raw 1000) 10))%string)
  /\ (forall raw, 0 <= raw -> cudaV raw = spec_cuda_version raw)
  /\ cudaV 11070 = "11.7"
  /\ cudaV 12020 = "12.2".
Proof.
  split; [exact cudaV_unfold|]. split; [|split; reflexivity].
  intros raw Hraw. rewrite cudaV_unfold. unfold spec_cuda_version.
  rewrite (Z.quot_div_nonneg raw 1000) by lia.
  rewrite (Z.rem_mod_nonneg raw 1000) by lia.
  rewrite (Z.quot_div_nonneg (raw mod 1000) 10)
    by (try lia; apply Z.mod_pos_bound; lia).
  reflexivity.
Qed.

Lemma C5_cuda_version_witness :
  0 <= 11070 /\ cudaV 11070 = spec_cuda_version 11070.
Proof.
  split; [lia|]. apply (proj1 (proj2 C5_cuda_version) 11070). lia.
Defined.

(** ** Traces of composed computations *)

Lemma trace_bind {A B} (m : M A) (f : A -> M B) :
  trace (bind m f)
  = trace m ++ match outcome m with Ok a => trace (f a) | Err _ => [] end.
Proof.
  destruct m as [t [a|e]]; simpl; [reflexivity|now rewrite app_nil_r].
Qed.

Lemma outcome_bind {A B} (m : M A) (f : A -> M B) :
  outcome (bind m f)
  = match outcome m with Ok a => outcome (f a) | Err e => Err e end.
Proof. destruct m as [t [a|e]]; reflexivity. Qed.

Lemma bind_Ok {A B} (m : M A) (f : A -> M B) a :
  outcome m = Ok a -> bind m f = (trace m ++ trace (f a), outcome (f a)).
Proof. destruct m as [t [a'|e]]; simpl; intros H; now inversion H. Qed.

Lemma bind_Err {A B} (m : M A) (f : A -> M B) e :
  outcome m = Err e -> bind m f = (trace m, Err e).
Proof. destruct m as [t [a'|e']]; simpl; intros H; now inversion H. Qed.

Lemma sent_app t1 t2 : sent (t1 ++ t2) = sent t1 ++ sent t2.
Proof.
  induction t1 as [|[q|m|l s] t1 IH]; simpl; rewrite ?IH; reflexivity.
Qed.

Lemma calls_app t1 t2 : calls (t1 ++ t2) = calls t1 ++ calls t2.
Proof.
  induction t1 as [|[q|m|l s] t1 IH]; simpl; rewrite ?IH; reflexivity.
Qed.

Lemma ofFamily_app d l1 l2 :
  ofFamily d (l1 ++ l2) = ofFamily d l1 ++ ofFamily d l2.
Proof. apply filter_app. Qed.

Lemma in_calls q t : In q (calls t) <-> In (Call q) t.
Proof.
  induction t as [|[q'|m|l s] t IH]; simpl.
  - tauto.
  - rewrite IH. split; intros [H|H]; auto; left; congruence.
  - rewrite IH. split; [auto|intros [H|H]; [discriminate|auto]].
  - rewrite IH. split; [auto|intros [H|H]; [discriminate|auto]].
Qed.

(** *** [every] through the constructs of the embedding *)

Section Every.
Variable P : Event -> Prop.

Lemma every_ret {A} (a : A) : every P (ret a).
Proof. constructor. Qed.

Lemma every_fail {A} e : every P (@fail A e).
Proof. constructor. Qed.

Lemma every_bind {A B} (m : M A) (f : A -> M B) :
  every P m -> (forall a, outcome m = Ok a -> every P (f a)) ->
  every P (bind m f).
Proof.
  unfold every; intros Hm Hf. rewrite trace_bind.
  apply Forall_app; split; [assumption|].
  destruct (outcome m) as [a|e]; [now apply Hf|constructor].
Qed.

Lemma every_call drv q : P (Call q) -> every P (call drv q).
Proof. intros H; repeat constructor; assumption. Qed.

Lemma every_send m : P (Send m) -> every P (send m).
Proof. intros H; repeat constructor; assumption. Qed.

Lemma every_log lvl msg : P (Log lvl msg) -> every P (log lvl msg).
Proof. intros H; repeat constructor; assumption. Qed.

Lemma every_check {K : nvml.Consts} rc e : every P (check rc e).
Proof. unfold check; destruct (negb _); constructor. Qed.

Lemma every_forEach {A} (l : list A) (body : A -> M unit) :
  (forall x, In x l -> every P (body x)) -> every P (forEach l body).
Proof.
  induction l as [|x l IH]; intros H; simpl.
  - apply every_ret.
  - apply every_bind; [apply H; now left|].
    intros _ _. apply IH. intros y Hy. apply H. now right.
Qed.

Lemma every_defer {A} (deferred : M unit) (body : M A) :
  every P body -> every P deferred -> every P (defer deferred body).
Proof. intros Hb Hd. apply Forall_app; split; assumption. Qed.

End Every.

Lemma every_impl (P Q : Event -> Prop) {A} (m : M A) :
  (forall ev, P ev -> Q ev) -> every P m -> every Q m.
Proof. intros H. apply Forall_impl, H. Qed.

(** One step through a computation, for a goal [every P m]. *)
Ltac every_step :=
  lazymatch goal with
  | |- every _ (ret _) => apply every_ret
  | |- every _ (bind _ _) => apply every_bind; [ | intros ? _ ]
  | |- every _ (call _ _) => apply every_call
  | |- every _ (send _) => apply every_send
  | |- every _ (log _ _) => apply every_log
  | |- every _ (fail _) => apply every_fail
  | |- every _ (check _ _) => apply every_check
  | |- every _ (forEach _ _) => apply every_forEach; intros ? _
  | |- every _ (defer _ _) => apply every_defer
  | |- every _ (if ?b then _ else _) => destruct b eqn:?
  | |- every _ (match ?x with _ => _ end) => destruct x
  end.

Lemma every_deviceHandles {K : nvml.Consts} P drv idx devices :
  (forall i, In i idx -> P (Call (QDeviceGetHandleByIndex i))) ->
  every P (deviceHandles drv idx devices).
Proof.
  revert devices; induction idx as [|i idx IH]; intros devices H;
    cbn [deviceHandles].
  - apply every_ret.
  - repeat every_step.
    + apply H; now left.
    + apply IH. intros j Hj. apply H. now right.
Qed.

(** The text of the two polls. *)
Ltac unfold_poll :=
  unfold Part000.Update, NvidiaGpuLinux.Update, poll, collect, enumerate,
    shutdown,
    getSysInfo, Part000.deviceMetrics, NvidiaGpuLinux.deviceMetrics,
    getGPUInfo, getFanInfo, fanSpeed, getPowerUsage, getMemoryInfo,
    Part000.getClockInfo, Part000.appClock, Part000.clock,
    Part000.getComputeMode, Part000.getPerformanceState,
    Part000.getPersistenceMode, Part000.getGPUUtilization,
    Part000.getTemperatureInfo, Part000.temperature,
    Part000.getEnforcedPowerLimit,
    NvidiaGpuLinux.getTemperatureInfo, NvidiaGpuLinux.temperature.

Ltac every_poll :=
  unfold_poll;
  repeat first [ every_step | apply every_deviceHandles; intros ? _ ].

(** ** What each poll sends and asks *)

Section PollFacts.
Context {K : nvml.Consts}.
Variable drv : nvml.Driver.
Variable fl : Flags.

Lemma Part000_persis_mode_labels : every onOff (Part000.Update drv fl).
Proof.
  every_poll; try exact I; try (simpl; discriminate).
  simpl; intros _.
  match goal with
  | |- context [getPersisModeString ?code] =>
      destruct (getPersisModeString_on_off code) as [-> | ->]
  end; eauto.
Qed.

(** prometheus.MustNewConstMetric panics when the number of label values
    differs from the number of label names of the descriptor; no metric of
    either poll is built that way. *)
Lemma Part000_well_labelled :
  every wellLabelled (Part000.Update drv fl).
Proof. every_poll; reflexivity. Qed.

Lemma NvidiaGpuLinux_well_labelled :
  every wellLabelled (NvidiaGpuLinux.Update drv fl).
Proof. every_poll; reflexivity. Qed.

Lemma Part000_untouched :
  every (untouched (disabledQuery fl) (disabledDesc fl))
        (Part000.Update drv fl).
Proof.
  unfold disabledQuery, disabledDesc.
  every_poll; simpl; rewrite ?andb_false_r; try reflexivity;
    repeat match goal with H : _ = true |- _ => rewrite H end;
    reflexivity.
Qed.

Lemma NvidiaGpuLinux_untouched :
  every (untouched (disabledQuery fl) (disabledDesc fl))
        (NvidiaGpuLinux.Update drv fl).
Proof.
  unfold disabledQuery, disabledDesc.
  every_poll; simpl; rewrite ?andb_false_r; try reflexivity;
    repeat match goal with H : _ = true |- _ => rewrite H end;
    reflexivity.
Qed.

Lemma Part000_deviceMetrics_labelled indexI d :
  every (labelled (strconv.Itoa indexI)) (Part000.deviceMetrics drv fl indexI d).
Proof. every_poll; simpl; auto. Qed.

Lemma NvidiaGpuLinux_deviceMetrics_labelled indexI d :
  every (labelled (strconv.Itoa indexI))
        (NvidiaGpuLinux.deviceMetrics drv fl indexI d).
Proof. every_poll; simpl; auto. Qed.

End PollFacts.

(** *** [stops_at_failure] through the constructs of the embedding *)

Lemma bind_ret_l {A B} (a : A) (f : A -> M B) : bind (ret a) f = f a.
Proof. simpl. now destruct (f a). Qed.

Lemma bind_fail_l {A B} e (f : A -> M B) : bind (fail e) f = fail e.
Proof. reflexivity. Qed.

Section Stops.
Context {K : nvml.Consts}.
Variable drv : nvml.Driver.

Lemma stops_ret {A} (a : A) : stops_at_failure drv (ret a).
Proof. constructor. Qed.

Lemma stops_send m : stops_at_failure drv (send m).
Proof. repeat constructor. Qed.

Lemma stops_log lvl msg : stops_at_failure drv (log lvl msg).
Proof. repeat constructor. Qed.

Lemma stops_bind {A B} (m : M A) (f : A -> M B) :
  stops_at_failure drv m -> (forall a, stops_at_failure drv (f a)) ->
  stops_at_failure drv (bind m f).
Proof.
  unfold stops_at_failure. rewrite outcome_bind, trace_bind.
  intros Hm Hf. destruct (outcome m) as [a|e].
  - specialize (Hf a). destruct (outcome (f a)) as [b|e].
    + apply Forall_app; split; assumption.
    + destruct Hf as (pre & q & -> & Hpre & Hq).
      exists (trace m ++ pre), q. rewrite app_assoc. repeat split; auto.
      apply Forall_app; split; assumption.
  - now rewrite app_nil_r.
Qed.

(** A call goes on when its status passes and is the last event of the
    computation when its status is a hard failure. *)
Lemma stops_call q {B} (k : Resp q -> M B) :
  (hard_failure drv q = false -> stops_at_failure drv (k (answer drv q))) ->
  (hard_failure drv q = true ->
   exists e, k (answer drv q) = fail e) ->
  stops_at_failure drv (bind (call drv q) k).
Proof.
  intros Hpass Hfail. unfold stops_at_failure.
  rewrite outcome_bind, trace_bind. simpl.
  destruct (hard_failure drv q) eqn:Hq.
  - destruct (Hfail eq_refl) as [e ->]. simpl.
    exists [], q. repeat split; auto.
  - specialize (Hpass eq_refl). unfold stops_at_failure in Hpass.
    destruct (outcome (k (answer drv q))) as [b|e].
    + constructor; assumption.
    + destruct Hpass as (pre & q' & -> & Hpre & Hq').
      exists (Call q :: pre), q'. repeat split; auto.
Qed.

Lemma stops_forEach {A} (l : list A) (body : A -> M unit) :
  (forall x, stops_at_failure drv (body x)) ->
  stops_at_failure drv (forEach l body).
Proof.
  intros H. induction l as [|x l IH]; cbn [forEach].
  - apply stops_ret.
  - apply stops_bind; [apply H|intros _; apply IH].
Qed.

End Stops.

(** The status of the call just made, against what is known of it. *)
Ltac decide_status Hhf :=
  unfold check;
  repeat match type of Hhf with
         | context [?a =? ?b] =>
             revert Hhf; destruct (a =? b) eqn:?; intros Hhf
         end;
  cbn [negb andb] in Hhf; try discriminate Hhf;
  cbn [negb]; rewrite ?bind_ret_l, ?bind_fail_l.

Ltac after_call :=
  let Hhf := fresh "Hhf" in
  intros Hhf; cbv beta; unfold hard_failure, status in Hhf;
  cbn in Hhf; cbn [answer];
  repeat match goal with
         | |- context [let (_, _) := ?x in _] => destruct x
         end;
  cbn [snd] in Hhf; decide_status Hhf; try (eexists; reflexivity); clear Hhf.

Ltac stops_step :=
  lazymatch goal with
  | |- stops_at_failure _ (ret _) => apply stops_ret
  | |- stops_at_failure _ (send _) => apply stops_send
  | |- stops_at_failure _ (log _ _) => apply stops_log
  | |- stops_at_failure _ (bind (call _ _) _) => apply stops_call; after_call
  | |- stops_at_failure _ (bind _ _) => apply stops_bind; [ | intros ? ]
  | |- stops_at_failure _ (forEach _ _) => apply stops_forEach; intros ?
  | |- stops_at_failure _ (if ?b then _ else _) => destruct b eqn:?
  | |- stops_at_failure _ (match ?x with _ => _ end) => destruct x
  end.

(** *** [local] through the constructs of the embedding *)

Lemma same_responses_incl qs qs' d1 d2 :
  incl qs' qs -> same_responses qs d1 d2 -> same_responses qs' d1 d2.
Proof. intros Hi [Hq He]; split; auto. Qed.

Lemma same_responses_app qs qs' d1 d2 :
  same_responses (qs ++ qs') d1 d2 ->
  same_responses qs d1 d2 /\ same_responses qs' d1 d2.
Proof.
  intros H; split; eapply same_responses_incl; try exact H.
  - apply incl_appl, incl_refl.
  - apply incl_appr, incl_refl.
Qed.

Lemma local_const {A} (m : M A) : local (fun _ => m).
Proof. intros d1 d2 _; reflexivity. Qed.

Lemma local_call q : local (fun d => call d q).
Proof.
  intros d1 d2 [Hq _]. unfold call. rewrite (Hq q); [reflexivity|now left].
Qed.

Lemma local_bind {A B} (c : nvml.Driver -> M A)
    (f : A -> nvml.Driver -> M B) :
  local c -> (forall a, local (f a)) ->
  local (fun d => bind (c d) (fun a => f a d)).
Proof.
  intros Hc Hf d1 d2 H. rewrite trace_bind, calls_app in H.
  apply same_responses_app in H. destruct H as [H1 H2].
  rewrite <- (Hc d1 d2 H1).
  destruct (c d1) as [t [a|e]]; [|reflexivity].
  simpl in H2. simpl. now rewrite (Hf a d1 d2 H2).
Qed.

Lemma local_forEach {A} (l : list A) (body : A -> nvml.Driver -> M unit) :
  (forall x, local (body x)) ->
  local (fun d => forEach l (fun x => body x d)).
Proof.
  intros H. induction l as [|x l IH]; cbn [forEach].
  - apply local_const.
  - apply (local_bind (body x) (fun _ d => forEach l (fun x => body x d)));
      [apply H|intros _; apply IH].
Qed.

Lemma local_defer {A} (deferred : nvml.Driver -> M unit)
    (body : nvml.Driver -> M A) :
  local body -> local deferred ->
  local (fun d => defer (deferred d) (body d)).
Proof.
  intros Hb Hd d1 d2 H. unfold defer in *. cbn [trace fst] in H.
  rewrite calls_app in H. apply same_responses_app in H.
  destruct H as [H1 H2]. now rewrite (Hb d1 d2 H1), (Hd d1 d2 H2).
Qed.

(** A computation that differs between drivers only in how statuses are
    rendered. *)
Lemma local_render {A} (c : nvml.Driver -> M A) :
  (forall d1 d2,
     (forall rc, nvml.ErrorString d1 rc = nvml.ErrorString d2 rc) ->
     c d1 = c d2) ->
  local c.
Proof. intros H d1 d2 [_ He]. now apply H. Qed.

Ltac local_leaf :=
  apply local_render;
  let He := fresh "He" in
  intros ? ? He; unfold check; rewrite ?He; reflexivity.

Ltac local_step :=
  lazymatch goal with
  | |- local (fun d => call d _) => apply local_call
  | |- local (fun d => bind _ _) =>
      first [ apply local_bind; [ | intros ? ]
            | local_leaf ]
  | |- local (fun d => forEach _ _) => apply local_forEach; intros ?
  | |- local (fun d => defer _ _) => apply local_defer
  | |- local (fun d => if ?b then _ else _) => destruct b eqn:?
  | |- local (fun d => match ?x with _ => _ end) => destruct x
  | |- local _ => local_leaf
  end.

Lemma local_deviceHandles {K : nvml.Consts} idx devices :
  local (fun d => deviceHandles d idx devices).
Proof.
  revert devices; induction idx as [|i idx IH]; intros devices;
    cbn [deviceHandles].
  - apply local_const.
  - repeat local_step. apply IH.
Qed.

Ltac local_poll :=
  unfold_poll;
  repeat first [ apply local_deviceHandles | local_step ].

Section Locality.
Context {K : nvml.Consts}.
Variable fl : Flags.

Lemma local_Part000_Update : local (fun drv => Part000.Update drv fl).
Proof. local_poll. Qed.

Lemma local_NvidiaGpuLinux_Update :
  local (fun drv => NvidiaGpuLinux.Update drv fl).
Proof. local_poll. Qed.

End Locality.

(** ** The session of a poll *)

Lemma stops_deviceHandles {K : nvml.Consts} drv idx devices :
  stops_at_failure drv (deviceHandles drv idx devices).
Proof.
  revert devices; induction idx as [|i idx IH]; intros devices;
    cbn [deviceHandles].
  - apply stops_ret.
  - repeat stops_step. apply IH.
Qed.

Ltac stops_poll :=
  unfold_poll;
  repeat first [ apply stops_deviceHandles | stops_step ].

Section Session.
Context {K : nvml.Consts}.
Variable drv : nvml.Driver.
Variable fl : Flags.

Lemma shutdown_run :
  shutdown drv
  = (Call QShutdown
       :: (if nvml.Shutdown drv =? nvml.SUCCESS then []
           else [Log LevelError
                   (fmt.Sprintf ["unable to shutdown NVML: ";
                                 nvml.ErrorString drv (nvml.Shutdown drv)])]),
     Ok tt).
Proof.
  unfold shutdown, call. cbn.
  destruct (nvml.Shutdown drv =? nvml.SUCCESS); reflexivity.
Qed.

Lemma poll_run dm :
  nvml.Init drv = nvml.SUCCESS ->
  poll drv fl dm
  = (Call QInit :: trace (collect drv fl dm) ++ trace (shutdown drv),
     outcome (collect drv fl dm)).
Proof.
  intros H. unfold poll, call, check. cbn.
  rewrite H, Z.eqb_refl. reflexivity.
Qed.

Lemma poll_init_failed dm :
  nvml.Init drv <> nvml.SUCCESS ->
  poll drv fl dm
  = ([Call QInit],
     Err (fmt.Errorf ["unable to initialize NVML: ";
                      nvml.ErrorString drv (nvml.Init drv)])).
Proof.
  intros H. unfold poll, call, check. cbn.
  destruct (Z.eqb_spec (nvml.Init drv) nvml.SUCCESS); [contradiction|].
  reflexivity.
Qed.

Lemma Part000_collect_notSession :
  every notSession (collect drv fl (Part000.deviceMetrics drv fl)).
Proof. every_poll; exact I. Qed.

Lemma NvidiaGpuLinux_collect_notSession :
  every notSession (collect drv fl (NvidiaGpuLinux.deviceMetrics drv fl)).
Proof. every_poll; exact I. Qed.

Lemma Part000_collect_stops :
  stops_at_failure drv (collect drv fl (Part000.deviceMetrics drv fl)).
Proof. stops_poll. Qed.

Lemma NvidiaGpuLinux_collect_stops :
  stops_at_failure drv (collect drv fl (NvidiaGpuLinux.deviceMetrics drv fl)).
Proof. stops_poll. Qed.

End Session.

Section Discipline.
Context {K : nvml.Consts}.

Lemma answer_setShutdown rc drv q :
  q <> QShutdown -> answer drv q = answer (setShutdown rc drv) q.
Proof. destruct q; intros H; try reflexivity. contradiction. Qed.

Lemma filter_isShutdown_notSession t :
  Forall notSession t -> filter isShutdown (calls t) = [].
Proof.
  induction 1 as [|ev t Hev _ IH]; [reflexivity|].
  destruct ev as [q|m|lvl msg]; simpl; auto.
  destruct q; simpl in *; auto; contradiction.
Qed.

Lemma notSession_not_Shutdown t :
  Forall notSession t -> ~ In QShutdown (calls t).
Proof.
  intros H Hin. apply in_calls in Hin.
  rewrite Forall_forall in H. exact (H _ Hin).
Qed.

Lemma sent_shutdown drv : sent (trace (shutdown drv)) = [].
Proof.
  rewrite shutdown_run. cbn.
  destruct (nvml.Shutdown drv =? nvml.SUCCESS); reflexivity.
Qed.

Lemma calls_shutdown drv : calls (trace (shutdown drv)) = [QShutdown].
Proof.
  rewrite shutdown_run. cbn.
  destruct (nvml.Shutdown drv =? nvml.SUCCESS); reflexivity.
Qed.

Lemma poll_session_discipline drv fl
    (dm : nvml.Driver -> Flags -> Z -> nvml.Device -> M unit) :
  (forall d, every notSession (collect d fl (dm d fl))) ->
  stops_at_failure drv (collect drv fl (dm drv fl)) ->
  local (fun d => collect d fl (dm d fl)) ->
  nvml.Init drv = nvml.SUCCESS ->
  session_discipline drv fl (fun d f => poll d f (dm d f)).
Proof.
  intros Hns Hstop Hloc Hinit. unfold session_discipline.
  rewrite (poll_run drv fl _ Hinit). cbn [trace outcome fst snd].
  pose proof (Hns drv) as Hbody. unfold every in Hbody.
  assert (collect_setShutdown : forall rc,
            collect (setShutdown rc drv) fl (dm (setShutdown rc drv) fl)
            = collect drv fl (dm drv fl)).
  { intros rc. symmetry. apply (Hloc drv (setShutdown rc drv)).
    split; [|reflexivity].
    intros q Hq. apply answer_setShutdown. intros ->.
    now apply (notSession_not_Shutdown _ Hbody). }
  repeat split.
  - cbn [calls filter isShutdown].
    rewrite calls_app, filter_app, calls_shutdown.
    now rewrite (filter_isShutdown_notSession _ Hbody).
  - exists (trace (collect drv fl (dm drv fl))).
    split; [reflexivity|].
    split; [now rewrite shutdown_run|]. split; [apply calls_shutdown|].
    split; [apply sent_shutdown|].
    split; [now apply notSession_not_Shutdown|].
    unfold stops_at_failure in Hstop. split.
    + intros E. now rewrite E in Hstop.
    + intros e E. now rewrite E in Hstop.
  - rewrite (poll_run (setShutdown rc drv) fl _ Hinit). cbn [outcome snd].
    now rewrite (collect_setShutdown rc).
  - rewrite (poll_run (setShutdown rc drv) fl _ Hinit). cbn [trace fst].
    cbn [sent]. rewrite !sent_app, !sent_shutdown.
    now rewrite (collect_setShutdown rc).
Qed.

(** C2: on a driver whose nvml.Init succeeds, either poll calls
    nvml.Shutdown exactly once, as its last call and after everything else
    on every path; a poll that returns an error stopped at the call that
    failed hard, with nothing between that call and the release; the status
    of nvml.Shutdown is at most logged: it changes neither the error
    returned nor the metrics sent. *)
Theorem C2_session_release drv fl :
  nvml.Init drv = nvml.SUCCESS ->
  session_discipline drv fl Part000.Update
  /\ session_discipline drv fl NvidiaGpuLinux.Update.
Proof.
  intros Hinit. split.
  - apply (poll_session_discipline drv fl Part000.deviceMetrics); auto.
    + intros d; apply Part000_collect_notSession.
    + apply Part000_collect_stops.
    + local_poll.
  - apply (poll_session_discipline drv fl NvidiaGpuLinux.deviceMetrics); auto.
    + intros d; apply NvidiaGpuLinux_collect_notSession.
    + apply NvidiaGpuLinux_collect_stops.
    + local_poll.
Qed.

End Discipline.

Lemma C2_session_release_witness :
  nvml.Init (withStatus (fun q => isShutdown q || temperatureQuery q) 999
               (healthy 2 2)) = nvml.SUCCESS
  /\ session_discipline
       (withStatus (fun q => isShutdown q || temperatureQuery q) 999
          (healthy 2 2))
       allFlags Part000.Update.
Proof.
  split; [reflexivity|].
  refine (proj1 (C2_session_release
                   (withStatus (fun q => isShutdown q || temperatureQuery q)
                      999 (healthy 2 2))
                   allFlags _)).
  reflexivity.
Defined.

(** ** Flags and determinism *)

Section Gating.
Context {K : nvml.Consts}.

Lemma answer_withStatus p rc drv q :
  p q = false -> answer (withStatus p rc drv) q = answer drv q.
Proof. destruct q; simpl; intros ->; reflexivity. Qed.

Lemma untouched_calls qs ds (f : Query -> bool) t :
  (forall q, f q = true -> qs q = true) ->
  Forall (untouched qs ds) t -> filter f (calls t) = [].
Proof.
  intros Hf. induction 1 as [|ev t Hev _ IH]; [reflexivity|].
  destruct ev as [q|m|lvl msg]; simpl; auto.
  destruct (f q) eqn:E; [|assumption].
  simpl in Hev. rewrite (Hf q E) in Hev. discriminate.
Qed.

Lemma untouched_sent qs ds (f : Desc -> bool) t :
  (forall d, f d = true -> ds d = true) ->
  Forall (untouched qs ds) t -> filter (fun m => f (desc m)) (sent t) = [].
Proof.
  intros Hf. induction 1 as [|ev t Hev _ IH]; [reflexivity|].
  destruct ev as [q|m|lvl msg]; simpl; auto.
  destruct (f (desc m)) eqn:E; [|assumption].
  simpl in Hev. rewrite (Hf _ E) in Hev. discriminate.
Qed.

Lemma untouched_disabled_query fl t q :
  Forall (untouched (disabledQuery fl) (disabledDesc fl)) t ->
  In q (calls t) -> disabledQuery fl q = false.
Proof.
  intros H Hq. apply in_calls in Hq. rewrite Forall_forall in H.
  exact (H _ Hq).
Qed.

Ltac flag_case H E :=
  rewrite H, E; cbn [negb andb orb]; rewrite ?orb_true_r; reflexivity.

Lemma poll_flag_gating drv fl (U : nvml.Driver -> Flags -> M unit) :
  every (untouched (disabledQuery fl) (disabledDesc fl)) (U drv fl) ->
  local (fun d => U d fl) ->
  flag_gating drv fl U.
Proof.
  intros Hev Hloc. unfold every in Hev. unfold flag_gating, ofFamily.
  split; [|split; [|split]]; [intros H; split ..|].
  - apply untouched_calls with (qs := disabledQuery fl) (ds := disabledDesc fl);
      [intros q E; unfold disabledQuery; flag_case H E|exact Hev].
  - apply untouched_sent
      with (qs := disabledQuery fl) (ds := disabledDesc fl)
           (f := fun d => Desc_eqb d gpuSysInfo);
      [intros d E; unfold disabledDesc; flag_case H E|exact Hev].
  - apply untouched_calls with (qs := disabledQuery fl) (ds := disabledDesc fl);
      [intros q E; unfold disabledQuery; flag_case H E|exact Hev].
  - apply untouched_sent
      with (qs := disabledQuery fl) (ds := disabledDesc fl)
           (f := fun d => Desc_eqb d gpuInfo);
      [intros d E; unfold disabledDesc; flag_case H E|exact Hev].
  - apply untouched_calls with (qs := disabledQuery fl) (ds := disabledDesc fl);
      [intros q E; unfold disabledQuery; flag_case H E|exact Hev].
  - apply untouched_sent
      with (qs := disabledQuery fl) (ds := disabledDesc fl) (f := fanDesc);
      [intros d E; unfold disabledDesc; flag_case H E|exact Hev].
  - intros d2 Hq He. symmetry. apply (Hloc drv d2). split; [|exact He].
    intros q Hin. apply Hq. eapply untouched_disabled_query; eassumption.
Qed.

(** C7: in either poll, a family whose flag is false makes none of its
    queries and sends none of its metrics, and the poll (its trace and the
    error it returns) is the same whatever the driver would have answered to
    the queries of the disabled families. *)
Theorem C7_disabled_families drv fl :
  flag_gating drv fl Part000.Update
  /\ flag_gating drv fl NvidiaGpuLinux.Update.
Proof.
  split; apply poll_flag_gating.
  - apply Part000_untouched.
  - apply local_Part000_Update.
  - apply NvidiaGpuLinux_untouched.
  - apply local_NvidiaGpuLinux_Update.
Qed.

(** C9: a poll depends on the driver only through the responses to the
    queries it makes: on two drivers that answer those queries alike (and
    render statuses alike), and under the same flags, either poll sends the
    same metrics in the same order and returns the same result. *)
Theorem C9_deterministic d1 d2 fl :
  (same_responses (calls (trace (Part000.Update d1 fl))) d1 d2 ->
   sent (trace (Part000.Update d1 fl)) = sent (trace (Part000.Update d2 fl))
   /\ Part000.Update d1 fl = Part000.Update d2 fl)
  /\ (same_responses (calls (trace (NvidiaGpuLinux.Update d1 fl))) d1 d2 ->
      sent (trace (NvidiaGpuLinux.Update d1 fl))
      = sent (trace (NvidiaGpuLinux.Update d2 fl))
      /\ NvidiaGpuLinux.Update d1 fl = NvidiaGpuLinux.Update d2 fl).
Proof.
  split; intros H.
  - now rewrite (local_Part000_Update fl d1 d2 H).
  - now rewrite (local_NvidiaGpuLinux_Update fl d1 d2 H).
Qed.

End Gating.

Lemma C7_disabled_families_witness :
  Part000.Update (withStatus (disabledQuery noFlags) 999 (healthy 1 2)) noFlags
  = Part000.Update (healthy 1 2) noFlags
  /\ outcome (Part000.Update (healthy 1 2) noFlags) = Ok tt.
Proof.
  split; [|reflexivity].
  apply (proj2 (proj2 (proj2 (proj1
           (C7_disabled_families (healthy 1 2) noFlags))))).
  - intros q Hq. symmetry. now apply answer_withStatus.
  - reflexivity.
Defined.

Lemma C9_deterministic_witness :
  sent (trace (Part000.Update (healthy 1 2) allFlags))
  = sent (trace (Part000.Update (withStatus beyondFirst 999 (healthy 1 2))
                   allFlags)).
Proof.
  apply (proj1 (C9_deterministic (healthy 1 2)
                  (withStatus beyondFirst 999 (healthy 1 2)) allFlags)).
  split; [|reflexivity].
  intros q Hq. symmetry. apply answer_withStatus.
  revert q Hq. apply Forall_forall. vm_compute. repeat constructor.
Defined.

(** ** The persistence-mode label *)

Lemma Forall_sent (P : Event -> Prop) (Q : Metric -> Prop) t :
  (forall m, P (Send m) -> Q m) -> Forall P t -> Forall Q (sent t).
Proof.
  intros H. induction 1 as [|ev t Hev _ IH]; [constructor|].
  destruct ev as [q|m|lvl msg]; simpl; auto.
Qed.

(** C10: getPersisModeString returns "ON" for every state code other than
    FEATURE_DISABLED, "OFF" for FEATURE_DISABLED and never "UNKNOWN"; hence
    every persis_mode metric that a poll sends carries, after the index, a
    mode label that is "ON" or "OFF". *)
Theorem C10_persistence_mode_labels {K : nvml.Consts} :
  (forall code, code <> nvml.FEATURE_DISABLED ->
                getPersisModeString code = "ON")
  /\ getPersisModeString nvml.FEATURE_DISABLED = "OFF"
  /\ (forall code, getPersisModeString code <> "UNKNOWN")
  /\ (forall drv fl,
        Forall (fun m => desc m = gpuPersisMode ->
                         exists index,
                           labelValues m = [index; "ON"]
                           \/ labelValues m = [index; "OFF"])
               (sent (trace (Part000.Update drv fl))))
  /\ (forall drv fl,
        ofFamily gpuPersisMode (sent (trace (NvidiaGpuLinux.Update drv fl)))
        = []).
Proof.
  split; [|split; [|split; [|split]]].
  - intros code H. unfold getPersisModeString.
    destruct (Z.eqb_spec code nvml.FEATURE_DISABLED); [contradiction|reflexivity].
  - unfold getPersisModeString. now rewrite Z.eqb_refl.
  - exact getPersisModeString_never_unknown.
  - intros drv fl.
    apply (Forall_sent onOff); [intros m H; exact H|].
    apply Part000_persis_mode_labels.
  - intros drv fl. unfold ofFamily.
    apply untouched_sent
      with (qs := fun _ => false)
           (ds := fun d => Desc_eqb d gpuPersisMode)
           (f := fun d => Desc_eqb d gpuPersisMode); [auto|].
    change (every (untouched (fun _ => false)
                     (fun d => Desc_eqb d gpuPersisMode))
              (NvidiaGpuLinux.Update drv fl)).
    every_poll; reflexivity.
Qed.

Lemma C10_persistence_mode_labels_witness :
  2 <> nvml.FEATURE_DISABLED /\ getPersisModeString 2 = "ON".
Proof.
  split; [discriminate|].
  apply (proj1 C10_persistence_mode_labels 2). discriminate.
Defined.

(** ** Enumeration *)

Lemma in_upto i n : In i (upto n) <-> 0 <= i < n.
Proof.
  unfold upto. rewrite in_map_iff. split.
  - intros (k & <- & Hk). apply in_seq in Hk. lia.
  - intros H. exists (Z.to_nat i). split; [lia|]. apply in_seq. lia.
Qed.

Lemma length_upto n : List.length (upto n) = Z.to_nat n.
Proof. unfold upto. now rewrite length_map, length_seq. Qed.

Lemma indexedFrom_map {A} (h : Z -> A) s n :
  indexedFrom (Z.of_nat s) (map h (map Z.of_nat (seq s n)))
  = map (fun i => (i, h i)) (map Z.of_nat (seq s n)).
Proof.
  revert s; induction n as [|n IH]; intros s; [reflexivity|].
  cbn [seq map indexedFrom]. f_equal.
  replace (Z.of_nat s + 1) with (Z.of_nat (S s)) by lia. apply IH.
Qed.

Lemma indexed_upto {A} (h : Z -> A) n :
  indexed (map h (upto n)) = map (fun i => (i, h i)) (upto n).
Proof. apply (indexedFrom_map h 0%nat). Qed.

Lemma forEach_Ok {A} (l : list A) (body : A -> M unit) :
  outcome (forEach l body) = Ok tt ->
  trace (forEach l body) = flat_map (fun x => trace (body x)) l.
Proof.
  induction l as [|x l IH]; cbn [forEach flat_map]; [reflexivity|].
  rewrite outcome_bind, trace_bind.
  destruct (outcome (body x)) as [[]|e]; [|discriminate].
  intros H. now rewrite (IH H).
Qed.

Lemma forEach_all_Ok {A} (l : list A) (body : A -> M unit) :
  (forall x, In x l -> outcome (body x) = Ok tt) ->
  forEach l body = (flat_map (fun x => trace (body x)) l, Ok tt).
Proof.
  induction l as [|x l IH]; intros H; cbn [forEach flat_map]; [reflexivity|].
  rewrite (bind_Ok _ _ tt) by (apply H; now left).
  rewrite IH by (intros y Hy; apply H; now right). reflexivity.
Qed.

Lemma sent_flat_map {A} (f : A -> list Event) l :
  sent (flat_map f l) = flat_map (fun x => sent (f x)) l.
Proof.
  induction l as [|x l IH]; [reflexivity|].
  cbn [flat_map]. now rewrite sent_app, IH.
Qed.

Section Enumeration.
Context {K : nvml.Consts}.
Variable drv : nvml.Driver.

Lemma deviceHandles_cons i idx devices :
  deviceHandles drv (i :: idx) devices
  = (let '(d, rc) := nvml.DeviceGetHandleByIndex drv i in
     if rc =? nvml.SUCCESS
     then (Call (QDeviceGetHandleByIndex i)
             :: trace (deviceHandles drv idx (devices ++ [d])),
           outcome (deviceHandles drv idx (devices ++ [d])))
     else ([Call (QDeviceGetHandleByIndex i)],
           Err (fmt.Errorf ["unable to get device at index ";
                            strconv.Itoa i; ": ";
                            nvml.ErrorString drv rc]))).
Proof.
  cbn [deviceHandles]. unfold call, check. cbn.
  destruct (nvml.DeviceGetHandleByIndex drv i) as [d rc].
  destruct (rc =? nvml.SUCCESS); reflexivity.
Qed.

Lemma deviceHandles_Ok idx : forall devices ds,
  outcome (deviceHandles drv idx devices) = Ok ds ->
  ds = devices ++ map (handleAt drv) idx.
Proof.
  induction idx as [|i idx IH]; intros devices ds.
  - cbn. intros [= <-]. now rewrite app_nil_r.
  - rewrite deviceHandles_cons. cbn [map]. unfold handleAt at 1.
    destruct (nvml.DeviceGetHandleByIndex drv i) as [d rc].
    destruct (rc =? nvml.SUCCESS); cbn; [|discriminate].
    intros H. rewrite (IH _ _ H), <- app_assoc. reflexivity.
Qed.

Lemma deviceHandles_succeeds idx : forall devices,
  (forall i, In i idx ->
             snd (nvml.DeviceGetHandleByIndex drv i) = nvml.SUCCESS) ->
  outcome (deviceHandles drv idx devices) = Ok (devices ++ map (handleAt drv) idx).
Proof.
  induction idx as [|i idx IH]; intros devices H.
  - cbn. now rewrite app_nil_r.
  - rewrite deviceHandles_cons. cbn [map]. unfold handleAt at 1.
    pose proof (H i (or_introl eq_refl)) as Hi.
    destruct (nvml.DeviceGetHandleByIndex drv i) as [d rc].
    cbn in Hi. rewrite Hi, Z.eqb_refl. cbn.
    rewrite IH by (intros j Hj; apply H; now right).
    now rewrite <- app_assoc.
Qed.

Lemma deviceHandles_fails idx : forall devices,
  (exists i, In i idx
             /\ snd (nvml.DeviceGetHandleByIndex drv i) <> nvml.SUCCESS) ->
  exists e, outcome (deviceHandles drv idx devices) = Err e.
Proof.
  induction idx as [|i idx IH]; intros devices (j & Hj & Hne).
  - destruct Hj.
  - rewrite deviceHandles_cons.
    destruct (nvml.DeviceGetHandleByIndex drv i) as [d rc] eqn:E.
    destruct (Z.eqb_spec rc nvml.SUCCESS) as [->|Hrc]; cbn; [|eauto].
    apply IH. exists j. split; [|assumption].
    destruct Hj as [<-|Hj]; [|assumption].
    rewrite E in Hne. now cbn in Hne.
Qed.

Lemma enumerate_run :
  enumerate drv
  = (let '(count, rc) := nvml.DeviceGetCount drv in
     if rc =? nvml.SUCCESS
     then (Call QDeviceGetCount :: trace (deviceHandles drv (upto count) []),
           outcome (deviceHandles drv (upto count) []))
     else ([Call QDeviceGetCount],
           Err (fmt.Errorf ["unable to get device count: ";
                            nvml.ErrorString drv rc]))).
Proof.
  unfold enumerate, call, check. cbn.
  destruct (nvml.DeviceGetCount drv) as [count rc].
  destruct (rc =? nvml.SUCCESS); reflexivity.
Qed.

Lemma enumerate_Ok ds :
  outcome (enumerate drv) = Ok ds ->
  ds = map (handleAt drv) (upto (fst (nvml.DeviceGetCount drv))).
Proof.
  rewrite enumerate_run. destruct (nvml.DeviceGetCount drv) as [count rc].
  destruct (rc =? nvml.SUCCESS); cbn; [|discriminate].
  intros H. now apply deviceHandles_Ok in H.
Qed.

Lemma enumerate_succeeds N :
  nvml.DeviceGetCount drv = (N, nvml.SUCCESS) ->
  (forall i, 0 <= i < N ->
             snd (nvml.DeviceGetHandleByIndex drv i) = nvml.SUCCESS) ->
  outcome (enumerate drv) = Ok (map (handleAt drv) (upto N)).
Proof.
  intros Hc Hh. rewrite enumerate_run, Hc, Z.eqb_refl. cbn.
  apply (deviceHandles_succeeds (upto N) []).
  intros i Hi. apply Hh. now apply in_upto.
Qed.

Lemma enumerate_fails :
  snd (nvml.DeviceGetCount drv) <> nvml.SUCCESS
  \/ (exists i, 0 <= i < fst (nvml.DeviceGetCount drv)
                /\ snd (nvml.DeviceGetHandleByIndex drv i) <> nvml.SUCCESS) ->
  exists e, outcome (enumerate drv) = Err e.
Proof.
  rewrite enumerate_run. destruct (nvml.DeviceGetCount drv) as [count rc].
  cbn [fst snd]. intros H.
  destruct (Z.eqb_spec rc nvml.SUCCESS) as [->|Hrc]; cbn; [|eauto].
  destruct H as [H|(i & Hi & Hne)]; [contradiction|].
  apply deviceHandles_fails. exists i. split; [now apply in_upto|assumption].
Qed.

Lemma enumerate_sends_nothing : sent (trace (enumerate drv)) = [].
Proof.
  assert (H : every (fun ev => match ev with Send _ => False | _ => True end)
                (enumerate drv)) by (every_poll; exact I).
  unfold every in H. induction H as [|ev t Hev _ IH]; [reflexivity|].
  destruct ev; cbn; auto. contradiction.
Qed.

End Enumeration.

Section EnumerationPoll.
Context {K : nvml.Consts}.
Variable drv : nvml.Driver.
Variable fl : Flags.

Lemma poll_sends_nothing_when_enumeration_fails dm :
  (exists e, outcome (enumerate drv) = Err e) ->
  (exists e, outcome (poll drv fl dm) = Err e)
  /\ sent (trace (poll drv fl dm)) = [].
Proof.
  intros [e He].
  destruct (Z.eq_dec (nvml.Init drv) nvml.SUCCESS) as [Hi|Hi].
  - rewrite (poll_run drv fl dm Hi). cbn [outcome trace fst snd sent].
    rewrite sent_app, sent_shutdown. unfold collect.
    rewrite (bind_Err _ _ e He). cbn [outcome trace fst snd].
    rewrite enumerate_sends_nothing. eauto.
  - rewrite (poll_init_failed drv fl dm Hi). cbn. eauto.
Qed.

Lemma sysInfo_sends_sysInfo :
  every (fun ev => match ev with
                   | Send m => desc m = gpuSysInfo
                   | _ => True
                   end)
        (if enableNVGPUSysInfo fl then getSysInfo drv else ret tt).
Proof. every_poll; auto. Qed.

Lemma poll_indexes_devices N (dm : Z -> nvml.Device -> M unit) :
  fst (nvml.DeviceGetCount drv) = N ->
  (forall i d, every (labelled (strconv.Itoa i)) (dm i d)) ->
  indexes_devices drv fl N (poll drv fl dm) dm.
Proof.
  intros HN Hdm. unfold indexes_devices. split; [exact Hdm|].
  destruct (Z.eq_dec (nvml.Init drv) nvml.SUCCESS) as [Hi|Hi];
    [|rewrite (poll_init_failed drv fl dm Hi); cbn; split;
      [constructor|discriminate]].
  rewrite (poll_run drv fl dm Hi). cbn [outcome trace fst snd sent].
  rewrite sent_app, sent_shutdown, app_nil_r. split.
  - apply (Forall_sent
             (fun ev => match ev with
                        | Send m =>
                            desc m = gpuSysInfo
                            \/ exists i, 0 <= i < N
                                         /\ hd_error (labelValues m)
                                            = Some (strconv.Itoa i)
                        | _ => True
                        end)); [auto|].
    unfold collect. apply every_bind.
    + unfold enumerate. every_poll; exact I.
    + intros ds Hds. apply enumerate_Ok in Hds. rewrite HN in Hds. subst ds.
      apply every_bind.
      * eapply every_impl; [|apply sysInfo_sends_sysInfo].
        intros [q|m|lvl msg]; auto.
      * intros _ _. apply every_forEach. intros [i d] Hin.
        rewrite indexed_upto in Hin. apply in_map_iff in Hin.
        destruct Hin as (j & [= <- <-] & Hj). apply in_upto in Hj.
        eapply every_impl; [|apply Hdm].
        intros [q|m|lvl msg]; cbn; eauto.
  - unfold collect. rewrite outcome_bind, trace_bind.
    destruct (outcome (enumerate drv)) as [ds|e] eqn:Hds; [|discriminate].
    apply enumerate_Ok in Hds. rewrite HN in Hds. subst ds.
    rewrite outcome_bind, trace_bind.
    destruct (outcome (if enableNVGPUSysInfo fl then getSysInfo drv
                       else ret tt)) as [[]|e]; [|discriminate].
    intros Hloop. rewrite (forEach_Ok _ _ Hloop).
    rewrite !sent_app, enumerate_sends_nothing. cbn [app]. f_equal.
    rewrite indexed_upto, sent_flat_map, flat_map_concat_map, map_map.
    now rewrite <- flat_map_concat_map.
Qed.

End EnumerationPoll.

(** C6: on a driver that reports N >= 0 devices and resolves each of the
    indices 0 .. N-1, the enumeration returns exactly N handles, the one of
    index i at position i; in either poll every metric of the device at
    position i carries the decimal rendering of i as its first label, every
    metric sent is the system information or carries such an index below N,
    and a successful poll sends the metrics of the devices in the order
    0 .. N-1.  If the count query or the resolution of one of the indices
    fails, either poll returns an error and sends no metric at all. *)
Theorem C6_enumeration {K : nvml.Consts} drv fl N :
  (0 <= N ->
   nvml.DeviceGetCount drv = (N, nvml.SUCCESS) ->
   (forall i, 0 <= i < N ->
              snd (nvml.DeviceGetHandleByIndex drv i) = nvml.SUCCESS) ->
   outcome (enumerate drv) = Ok (map (handleAt drv) (upto N))
   /\ Z.of_nat (List.length (map (handleAt drv) (upto N))) = N
   /\ indexed (map (handleAt drv) (upto N))
      = map (fun i => (i, handleAt drv i)) (upto N)
   /\ indexes_devices drv fl N (Part000.Update drv fl)
        (Part000.deviceMetrics drv fl)
   /\ indexes_devices drv fl N (NvidiaGpuLinux.Update drv fl)
        (NvidiaGpuLinux.deviceMetrics drv fl))
  /\ (snd (nvml.DeviceGetCount drv) <> nvml.SUCCESS
      \/ (exists i, 0 <= i < fst (nvml.DeviceGetCount drv)
                    /\ snd (nvml.DeviceGetHandleByIndex drv i)
                       <> nvml.SUCCESS) ->
      ((exists e, outcome (Part000.Update drv fl) = Err e)
       /\ sent (trace (Part000.Update drv fl)) = [])
      /\ ((exists e, outcome (NvidiaGpuLinux.Update drv fl) = Err e)
          /\ sent (trace (NvidiaGpuLinux.Update drv fl)) = [])).
Proof.
  split.
  - intros HN Hc Hh. split; [now apply enumerate_succeeds|].
    split; [rewrite length_map, length_upto; lia|].
    split; [apply indexed_upto|].
    split; apply poll_indexes_devices; try (now rewrite Hc).
    + apply Part000_deviceMetrics_labelled.
    + apply NvidiaGpuLinux_deviceMetrics_labelled.
  - intros H. apply enumerate_fails in H.
    split; now apply poll_sends_nothing_when_enumeration_fails.
Qed.

Lemma C6_enumeration_witness :
  outcome (enumerate (healthy 3 0)) = Ok [100; 101; 102]
  /\ indexed [100; 101; 102] = [(0, 100); (1, 101); (2, 102)]
  /\ sent (trace (Part000.Update
                    (withStatus beyondFirst 999 (healthy 3 0)) allFlags))
     = [].
Proof.
  split; [|split].
  - refine (proj1 (proj1 (C6_enumeration (healthy 3 0) allFlags 3) _ _ _));
      [lia|reflexivity|intros; reflexivity].
  - refine (proj1 (proj2 (proj2
              (proj1 (C6_enumeration (healthy 3 0) allFlags 3) _ _ _))));
      [lia|reflexivity|intros; reflexivity].
  - assert (F : snd (nvml.DeviceGetCount
                       (withStatus beyondFirst 999 (healthy 3 0)))
                <> nvml.SUCCESS
                \/ (exists i,
                      0 <= i < fst (nvml.DeviceGetCount
                                      (withStatus beyondFirst 999 (healthy 3 0)))
                      /\ snd (nvml.DeviceGetHandleByIndex
                                (withStatus beyondFirst 999 (healthy 3 0)) i)
                         <> nvml.SUCCESS)).
    { right. exists 1. split; [vm_compute; split; [discriminate|reflexivity]|].
      vm_compute. discriminate. }
    exact (proj2 (proj1 (proj2 (C6_enumeration
                    (withStatus beyondFirst 999 (healthy 3 0)) allFlags 3) F))).
Defined.

(** ** Hard failures abort the poll *)

Lemma flat_map_ext_In {A B} (f g : A -> list B) l :
  (forall x, In x l -> f x = g x) -> flat_map f l = flat_map g l.
Proof.
  induction l as [|x l IH]; intros H; [reflexivity|].
  cbn [flat_map]. rewrite (H x) by now left.
  rewrite IH by (intros y Hy; apply H; now right). reflexivity.
Qed.

Lemma flat_map_singleton {A B} (f : A -> B) l :
  flat_map (fun x => [f x]) l = map f l.
Proof. induction l as [|x l IH]; cbn; [|rewrite IH]; reflexivity. Qed.

Section Abort.
Context {K : nvml.Consts}.
Variable drv : nvml.Driver.
Variable fl : Flags.

Lemma stops_hard_failure {A} (m : M A) q :
  stops_at_failure drv m -> In q (calls (trace m)) ->
  hard_failure drv q = true ->
  exists e pre, outcome m = Err e /\ trace m = pre ++ [Call q].
Proof.
  unfold stops_at_failure. intros Hs Hin Hq. apply in_calls in Hin.
  destruct (outcome m) as [a|e].
  - rewrite Forall_forall in Hs. specialize (Hs _ Hin). cbn in Hs. congruence.
  - destruct Hs as (pre & q' & Ht & Hpre & Hq'). exists e, pre.
    split; [reflexivity|]. rewrite Ht in *. apply in_app_or in Hin.
    destruct Hin as [Hin|[[= ->]|[]]]; [|reflexivity].
    rewrite Forall_forall in Hpre. specialize (Hpre _ Hin). cbn in Hpre.
    congruence.
Qed.

Lemma stops_error_cause {A} (m : M A) e :
  stops_at_failure drv m -> outcome m = Err e ->
  exists q, In q (calls (trace m)) /\ hard_failure drv q = true.
Proof.
  unfold stops_at_failure. intros Hs He. rewrite He in Hs.
  destruct Hs as (pre & q & Ht & _ & Hq). exists q. split; [|assumption].
  apply in_calls. rewrite Ht. apply in_or_app. right. now left.
Qed.

Lemma poll_calls dm q :
  nvml.Init drv = nvml.SUCCESS ->
  In q (calls (trace (poll drv fl dm))) ->
  q = QInit \/ q = QShutdown \/ In q (calls (trace (collect drv fl dm))).
Proof.
  intros Hi. rewrite (poll_run drv fl dm Hi). cbn [trace fst calls].
  rewrite calls_app, calls_shutdown. intros [<-|H]; [auto|].
  apply in_app_or in H. destruct H as [H|[<-|[]]]; auto.
Qed.

Lemma poll_aborts_at dm q :
  stops_at_failure drv (collect drv fl dm) ->
  nvml.Init drv = nvml.SUCCESS ->
  q <> QInit -> q <> QShutdown ->
  In q (calls (trace (poll drv fl dm))) ->
  hard_failure drv q = true ->
  aborts_at drv (poll drv fl dm) q.
Proof.
  intros Hs Hi Hq1 Hq2 Hin Hq.
  apply (poll_calls dm q Hi) in Hin.
  destruct Hin as [->|[->|Hin]]; [contradiction..|].
  destruct (stops_hard_failure _ q Hs Hin Hq) as (e & pre & He & Ht).
  exists e, pre. rewrite (poll_run drv fl dm Hi). cbn [outcome trace fst snd].
  split; [assumption|]. rewrite Ht, <- app_assoc. reflexivity.
Qed.

Lemma poll_error_cause dm e :
  stops_at_failure drv (collect drv fl dm) ->
  nvml.Init drv = nvml.SUCCESS ->
  outcome (poll drv fl dm) = Err e ->
  exists q, In q (calls (trace (poll drv fl dm)))
            /\ hard_failure drv q = true.
Proof.
  intros Hs Hi. rewrite (poll_run drv fl dm Hi). cbn [outcome trace fst snd].
  intros He. destruct (stops_error_cause _ e Hs He) as (q & Hin & Hq).
  exists q. split; [|assumption]. cbn [calls]. right.
  rewrite calls_app. apply in_or_app. now left.
Qed.

Lemma hard_failure_soft q :
  soft q = true ->
  status drv q <> nvml.SUCCESS -> status drv q <> nvml.ERROR_NOT_SUPPORTED ->
  hard_failure drv q = true.
Proof.
  intros Hs H1 H2. unfold hard_failure. rewrite Hs.
  destruct (Z.eqb_spec (status drv q) nvml.SUCCESS); [contradiction|].
  destruct (Z.eqb_spec (status drv q) nvml.ERROR_NOT_SUPPORTED);
    [contradiction|reflexivity].
Qed.

Lemma hard_failure_hard q :
  soft q = false -> status drv q <> nvml.SUCCESS ->
  hard_failure drv q = true.
Proof.
  intros Hs H1. unfold hard_failure. rewrite Hs.
  destruct (Z.eqb_spec (status drv q) nvml.SUCCESS); [contradiction|].
  reflexivity.
Qed.

Lemma NOT_SUPPORTED_ne_SUCCESS : nvml.ERROR_NOT_SUPPORTED <> nvml.SUCCESS.
Proof.
  pose proof nvml.SUCCESS_ne_NOT_SUPPORTED as H.
  intros E. rewrite E, Z.eqb_refl in H. discriminate.
Qed.

(** *** The steps with a switch on the status *)

Ltac policy :=
  repeat split; intros;
  repeat match goal with
         | H : ?x = _ |- context [?x] => rewrite H
         | |- _ => rewrite Z.eqb_refl
         | |- _ => rewrite nvml.SUCCESS_ne_NOT_SUPPORTED
         | H : ?x <> ?y |- context [?x =? ?y] =>
             destruct (Z.eqb_spec x y); [contradiction|]
         | |- context [?x =? ?y] =>
             destruct (Z.eqb_spec x y)
         end;
  cbn; eauto; try congruence.

Lemma appClock_policy index d t :
  soft_policy drv (QGetApplicationsClock d t)
    (Part000.appClock drv index d t) (appClkMetric drv index d t).
Proof.
  unfold soft_policy, Part000.appClock, appClkMetric, status, call. cbn.
  destruct (nvml.GetApplicationsClock drv d t) as [v rc]. cbn.
  policy.
Qed.

Lemma clock_policy index d t cid :
  soft_policy drv (QGetClock d t cid)
    (Part000.clock drv index d t cid) (clkMetric drv index d t cid).
Proof.
  unfold soft_policy, Part000.clock, clkMetric, status, call. cbn.
  destruct (nvml.GetClock drv d t cid) as [v rc]. cbn.
  policy.
Qed.

Lemma getEnforcedPowerLimit_policy index d :
  soft_policy drv (QGetEnforcedPowerLimit d)
    (Part000.getEnforcedPowerLimit drv index d)
    (enforceLimitMetric drv index d).
Proof.
  unfold soft_policy, Part000.getEnforcedPowerLimit, enforceLimitMetric,
    status, call. cbn.
  destruct (nvml.GetEnforcedPowerLimit drv d) as [v rc]. cbn.
  policy.
Qed.

Lemma Part000_temperature_policy index d t :
  hard_policy drv (QGetTemperature d t)
    (Part000.temperature drv index d t) (tempMetric drv index d t).
Proof.
  pose proof NOT_SUPPORTED_ne_SUCCESS as Hne.
  unfold hard_policy, Part000.temperature, tempMetric, status, call, check.
  cbn. destruct (nvml.GetTemperature drv d t) as [v rc]. cbn.
  policy.
Qed.

Lemma NvidiaGpuLinux_temperature_policy index d t :
  hard_policy drv (QGetTemperature d t)
    (NvidiaGpuLinux.temperature drv index d t) (tempMetric drv index d t).
Proof.
  pose proof NOT_SUPPORTED_ne_SUCCESS as Hne.
  unfold hard_policy, NvidiaGpuLinux.temperature, tempMetric, status, call,
    check.
  cbn. destruct (nvml.GetTemperature drv d t) as [v rc]. cbn.
  policy.
Qed.

(** *** The loops over the clocks and the sensors *)

Lemma soft_step_Ok q step metric :
  soft_policy drv q step metric -> hard_failure drv q = false ->
  outcome step = Ok tt
  /\ sent (trace step)
     = if status drv q =? nvml.SUCCESS then [metric] else [].
Proof.
  intros (_ & Hns & Hok & _) Hq. unfold hard_failure in Hq.
  destruct (Z.eqb_spec (status drv q) nvml.SUCCESS) as [E|E]; [auto|].
  cbn in Hq.
  destruct (soft q && (status drv q =? nvml.ERROR_NOT_SUPPORTED)) eqn:E2;
    [|discriminate].
  apply andb_prop in E2. destruct E2 as [_ E2]. apply Z.eqb_eq in E2. auto.
Qed.

Lemma getClockInfo_Ok index d :
  (forall t, 0 <= t < nvml.CLOCK_COUNT ->
             hard_failure drv (QGetApplicationsClock d t) = false) ->
  (forall t cid, 0 <= t < nvml.CLOCK_COUNT ->
                 0 <= cid < nvml.CLOCK_ID_COUNT ->
                 hard_failure drv (QGetClock d t cid) = false) ->
  outcome (Part000.getClockInfo drv index d) = Ok tt
  /\ sent (trace (Part000.getClockInfo drv index d))
     = flat_map
         (fun t =>
            (if status drv (QGetApplicationsClock d t) =? nvml.SUCCESS
             then [appClkMetric drv index d t] else [])
            ++ flat_map
                 (fun cid =>
                    if status drv (QGetClock d t cid) =? nvml.SUCCESS
                    then [clkMetric drv index d t cid] else [])
                 (upto nvml.CLOCK_ID_COUNT))
         (upto nvml.CLOCK_COUNT).
Proof.
  intros Happ Hclk. unfold Part000.getClockInfo.
  assert (Hinner : forall t, In t (upto nvml.CLOCK_COUNT) ->
            forEach (upto nvml.CLOCK_ID_COUNT) (Part000.clock drv index d t)
            = (flat_map (fun cid => trace (Part000.clock drv index d t cid))
                 (upto nvml.CLOCK_ID_COUNT), Ok tt)).
  { intros t Ht. apply forEach_all_Ok. intros cid Hc.
    apply in_upto in Ht, Hc.
    apply (soft_step_Ok _ _ _ (clock_policy index d t cid)). auto. }
  rewrite forEach_all_Ok.
  - split; [reflexivity|]. cbn [trace fst]. rewrite sent_flat_map.
    apply flat_map_ext_In. intros t Ht. rewrite trace_bind.
    pose proof Ht as Ht'. apply in_upto in Ht'.
    destruct (soft_step_Ok _ _ _ (appClock_policy index d t) (Happ t Ht'))
      as [Ho Hs].
    rewrite Ho, sent_app, Hs, (Hinner t Ht). cbn [trace fst]. f_equal.
    rewrite sent_flat_map. apply flat_map_ext_In. intros cid Hc.
    apply in_upto in Hc.
    apply (soft_step_Ok _ _ _ (clock_policy index d t cid)). auto.
  - intros t Ht. rewrite outcome_bind.
    pose proof Ht as Ht'. apply in_upto in Ht'.
    destruct (soft_step_Ok _ _ _ (appClock_policy index d t) (Happ t Ht'))
      as [Ho _].
    now rewrite Ho, (Hinner t Ht).
Qed.

Lemma hard_step_Ok q step metric :
  hard_policy drv q step metric -> status drv q = nvml.SUCCESS ->
  outcome step = Ok tt /\ sent (trace step) = [metric].
Proof. intros (_ & Hok & _) Hq. auto. Qed.

Lemma temperature_loop_Ok (step : Z -> M unit) index d :
  (forall t, hard_policy drv (QGetTemperature d t) (step t)
               (tempMetric drv index d t)) ->
  (forall t, 0 <= t < nvml.TEMPERATURE_COUNT ->
             status drv (QGetTemperature d t) = nvml.SUCCESS) ->
  outcome (forEach (upto nvml.TEMPERATURE_COUNT) step) = Ok tt
  /\ sent (trace (forEach (upto nvml.TEMPERATURE_COUNT) step))
     = map (tempMetric drv index d) (upto nvml.TEMPERATURE_COUNT).
Proof.
  intros Hp Hs. rewrite forEach_all_Ok.
  - split; [reflexivity|]. cbn [trace fst]. rewrite sent_flat_map.
    rewrite <- flat_map_singleton. apply flat_map_ext_In.
    intros t Ht. apply in_upto in Ht.
    apply (hard_step_Ok _ _ _ (Hp t)). auto.
  - intros t Ht. apply in_upto in Ht.
    apply (hard_step_Ok _ _ _ (Hp t)). auto.
Qed.

End Abort.

(** C3: each application clock of a clock type, each clock of a clock type
    and clock id, and the enforced power limit follow the soft policy: on
    NOT_SUPPORTED the step sends nothing and goes on, on SUCCESS it sends
    its one metric, on any other status it returns an error.  The two loops
    visit every clock type below CLOCK_COUNT and every clock id below
    CLOCK_ID_COUNT, in order.  In the poll, such a query that gets another
    status is the last call before the release and the poll returns an
    error; and a poll returns an error only when one of its calls failed
    hard, which NOT_SUPPORTED on these queries is not. *)
Theorem C3_soft_skip {K : nvml.Consts} drv fl index d :
  (forall t, soft_policy drv (QGetApplicationsClock d t)
               (Part000.appClock drv index d t) (appClkMetric drv index d t))
  /\ (forall t cid, soft_policy drv (QGetClock d t cid)
                      (Part000.clock drv index d t cid)
                      (clkMetric drv index d t cid))
  /\ soft_policy drv (QGetEnforcedPowerLimit d)
       (Part000.getEnforcedPowerLimit drv index d)
       (enforceLimitMetric drv index d)
  /\ ((forall t, 0 <= t < nvml.CLOCK_COUNT ->
                 hard_failure drv (QGetApplicationsClock d t) = false) ->
      (forall t cid, 0 <= t < nvml.CLOCK_COUNT ->
                     0 <= cid < nvml.CLOCK_ID_COUNT ->
                     hard_failure drv (QGetClock d t cid) = false) ->
      outcome (Part000.getClockInfo drv index d) = Ok tt
      /\ sent (trace (Part000.getClockInfo drv index d))
         = flat_map
             (fun t =>
                (if status drv (QGetApplicationsClock d t) =? nvml.SUCCESS
                 then [appClkMetric drv index d t] else [])
                ++ flat_map
                     (fun cid =>
                        if status drv (QGetClock d t cid) =? nvml.SUCCESS
                        then [clkMetric drv index d t cid] else [])
                     (upto nvml.CLOCK_ID_COUNT))
             (upto nvml.CLOCK_COUNT))
  /\ (nvml.Init drv = nvml.SUCCESS ->
      forall q, soft q = true ->
                In q (calls (trace (Part000.Update drv fl))) ->
                status drv q <> nvml.SUCCESS ->
                status drv q <> nvml.ERROR_NOT_SUPPORTED ->
                aborts_at drv (Part000.Update drv fl) q)
  /\ (nvml.Init drv = nvml.SUCCESS ->
      forall e, outcome (Part000.Update drv fl) = Err e ->
                exists q, In q (calls (trace (Part000.Update drv fl)))
                          /\ hard_failure drv q = true).
Proof.
  split; [intros t; apply appClock_policy|].
  split; [intros t cid; apply clock_policy|].
  split; [apply getEnforcedPowerLimit_policy|].
  split; [apply getClockInfo_Ok|].
  split.
  - intros Hi q Hs Hin H1 H2.
    apply poll_aborts_at; auto.
    + apply Part000_collect_stops.
    + intros ->; discriminate.
    + intros ->; discriminate.
    + now apply hard_failure_soft.
  - intros Hi e He.
    apply (poll_error_cause drv fl _ e (Part000_collect_stops drv fl) Hi He).
Qed.

Lemma C3_soft_skip_witness :
  aborts_at (withStatus soft 999 (healthy 1 0))
    (Part000.Update (withStatus soft 999 (healthy 1 0)) allFlags)
    (QGetApplicationsClock 100 0)
  /\ outcome (Part000.Update (withStatus soft 3 (healthy 1 0)) allFlags)
     = Ok tt.
Proof.
  split; [|reflexivity].
  refine (proj1 (proj2 (proj2 (proj2 (proj2
            (C3_soft_skip (withStatus soft 999 (healthy 1 0)) allFlags
               "0" 100))))) _ _ _ _ _ _).
  - reflexivity.
  - reflexivity.
  - vm_compute. tauto.
  - vm_compute. discriminate.
  - vm_compute. discriminate.
Defined.

(** C8: the temperature of a sensor follows the hard policy in both files:
    on SUCCESS the step sends its one metric, labelled with the index and
    the name of the sensor, and on every other status, NOT_SUPPORTED
    included, it returns an error and sends nothing.  When every sensor
    below TEMPERATURE_COUNT succeeds, the loop sends exactly one metric per
    sensor, in order.  In either poll, a temperature query that does not
    succeed is the last call before the release and the poll returns an
    error. *)
Theorem C8_temperature_hard_fail {K : nvml.Consts} drv fl index d :
  (forall t, hard_policy drv (QGetTemperature d t)
               (Part000.temperature drv index d t) (tempMetric drv index d t))
  /\ (forall t, hard_policy drv (QGetTemperature d t)
                  (NvidiaGpuLinux.temperature drv index d t)
                  (tempMetric drv index d t))
  /\ ((forall t, 0 <= t < nvml.TEMPERATURE_COUNT ->
                 status drv (QGetTemperature d t) = nvml.SUCCESS) ->
      (outcome (Part000.getTemperatureInfo drv index d) = Ok tt
       /\ sent (trace (Part000.getTemperatureInfo drv index d))
          = map (tempMetric drv index d) (upto nvml.TEMPERATURE_COUNT))
      /\ (outcome (NvidiaGpuLinux.getTemperatureInfo drv index d) = Ok tt
          /\ sent (trace (NvidiaGpuLinux.getTemperatureInfo drv index d))
             = map (tempMetric drv index d) (upto nvml.TEMPERATURE_COUNT)))
  /\ (nvml.Init drv = nvml.SUCCESS ->
      forall d' t,
        status drv (QGetTemperature d' t) <> nvml.SUCCESS ->
        (In (QGetTemperature d' t) (calls (trace (Part000.Update drv fl))) ->
         aborts_at drv (Part000.Update drv fl) (QGetTemperature d' t))
        /\ (In (QGetTemperature d' t)
              (calls (trace (NvidiaGpuLinux.Update drv fl))) ->
            aborts_at drv (NvidiaGpuLinux.Update drv fl)
              (QGetTemperature d' t))).
Proof.
  split; [intros t; apply Part000_temperature_policy|].
  split; [intros t; apply NvidiaGpuLinux_temperature_policy|].
  split.
  - intros Hs. split.
    + apply (temperature_loop_Ok drv _ index d); [|assumption].
      intros t; apply Part000_temperature_policy.
    + apply (temperature_loop_Ok drv _ index d); [|assumption].
      intros t; apply NvidiaGpuLinux_temperature_policy.
  - intros Hi d' t Hne. split; intros Hin.
    + apply poll_aborts_at; auto; try discriminate.
      * apply Part000_collect_stops.
      * now apply hard_failure_hard.
    + apply poll_aborts_at; auto; try discriminate.
      * apply NvidiaGpuLinux_collect_stops.
      * now apply hard_failure_hard.
Qed.

Lemma C8_temperature_hard_fail_witness :
  aborts_at (withStatus temperatureQuery 3 (healthy 1 0))
    (NvidiaGpuLinux.Update (withStatus temperatureQuery 3 (healthy 1 0))
       allFlags)
    (QGetTemperature 100 0).
Proof.
  refine (proj2 (proj2 (proj2 (proj2
            (C8_temperature_hard_fail
               (withStatus temperatureQuery 3 (healthy 1 0)) allFlags
               "0" 100))) _ 100 0 _) _).
  - reflexivity.
  - vm_compute. discriminate.
  - vm_compute. tauto.
Defined.

(** ** The fans *)

Section Fans.
Context {K : nvml.Consts}.
Variable drv : nvml.Driver.

Lemma getFanInfo_no_fans index d n :
  nvml.GetNumFans drv d = (n, nvml.SUCCESS) -> n <= 0 ->
  outcome (getFanInfo drv index d) = Ok tt
  /\ sent (trace (getFanInfo drv index d)) = [].
Proof.
  intros Hn Hle. unfold getFanInfo, call. cbn. rewrite Hn, Z.eqb_refl. cbn.
  destruct (Z.ltb_spec 0 n); [lia|]. cbn. auto.
Qed.

Lemma fanSpeed_Ok index d f :
  snd (nvml.GetFanSpeed_v2 drv d f) = nvml.SUCCESS ->
  outcome (fanSpeed drv index d (fst (fst (nvml.GetMinMaxFanSpeed drv d)))
             (snd (fst (nvml.GetMinMaxFanSpeed drv d))) f) = Ok tt
  /\ sent (trace (fanSpeed drv index d
                    (fst (fst (nvml.GetMinMaxFanSpeed drv d)))
                    (snd (fst (nvml.GetMinMaxFanSpeed drv d))) f))
     = fanMetrics drv index d f.
Proof.
  intros Hs. unfold fanSpeed, fanMetrics, call, check. cbn.
  destruct (nvml.GetFanSpeed_v2 drv d f) as [v rc]. cbn in *.
  rewrite Hs, Z.eqb_refl. cbn. auto.
Qed.

Lemma getFanInfo_fans index d n :
  nvml.GetNumFans drv d = (n, nvml.SUCCESS) -> 0 < n ->
  snd (nvml.GetMinMaxFanSpeed drv d) = nvml.SUCCESS ->
  (forall f, 0 <= f < n -> snd (nvml.GetFanSpeed_v2 drv d f) = nvml.SUCCESS) ->
  outcome (getFanInfo drv index d) = Ok tt
  /\ sent (trace (getFanInfo drv index d))
     = flat_map (fanMetrics drv index d) (upto n).
Proof.
  intros Hn Hpos Hmm Hf. unfold getFanInfo, call, check. cbn.
  rewrite Hn, Z.eqb_refl. cbn.
  destruct (Z.ltb_spec 0 n); [|lia]. cbn.
  pose proof (fun f => fanSpeed_Ok index d f) as Hstep.
  destruct (nvml.GetMinMaxFanSpeed drv d) as [[mn mx] rc]. cbn in *.
  rewrite Hmm, Z.eqb_refl. cbn.
  rewrite forEach_all_Ok.
  - split; [reflexivity|]. cbn. rewrite sent_flat_map.
    apply flat_map_ext_In. intros f Hin. apply in_upto in Hin.
    apply Hstep; auto.
  - intros f Hin. apply in_upto in Hin. apply Hstep; auto.
Qed.

Lemma fanMetrics_families index d l :
  List.length (ofFamily gpuFanSpeed (flat_map (fanMetrics drv index d) l))
  = List.length l
  /\ List.length (ofFamily gpuMinFanSpeed
                    (flat_map (fanMetrics drv index d) l))
     = List.length l
  /\ List.length (ofFamily gpuMaxFanSpeed
                    (flat_map (fanMetrics drv index d) l))
     = List.length l.
Proof.
  induction l as [|f l (IH1 & IH2 & IH3)]; [auto|].
  cbn [flat_map]. rewrite !ofFamily_app, !length_app, IH1, IH2, IH3.
  auto.
Qed.

End Fans.

(** C4, as far as the code goes: with no fans the fan family sends nothing
    and returns no error; with n > 0 fans that all answer, it sends, for
    each fan in order, a min_fan_speed, a max_fan_speed and a fan_speed
    metric, hence n metrics of each of the three families.  On the machine
    with one device of two fans both polls send min_fan_speed twice and
    max_fan_speed twice, with the same labels, and fan_speed twice. *)
Theorem C4_fan_observations {K : nvml.Consts} drv index d n :
  nvml.GetNumFans drv d = (n, nvml.SUCCESS) ->
  (n <= 0 ->
   outcome (getFanInfo drv index d) = Ok tt
   /\ sent (trace (getFanInfo drv index d)) = [])
  /\ (0 < n ->
      snd (nvml.GetMinMaxFanSpeed drv d) = nvml.SUCCESS ->
      (forall f, 0 <= f < n ->
                 snd (nvml.GetFanSpeed_v2 drv d f) = nvml.SUCCESS) ->
      outcome (getFanInfo drv index d) = Ok tt
      /\ sent (trace (getFanInfo drv index d))
         = flat_map (fanMetrics drv index d) (upto n)
      /\ Z.of_nat (List.length (ofFamily gpuFanSpeed
                                  (sent (trace (getFanInfo drv index d)))))
         = n
      /\ Z.of_nat (List.length (ofFamily gpuMinFanSpeed
                                  (sent (trace (getFanInfo drv index d)))))
         = n
      /\ Z.of_nat (List.length (ofFamily gpuMaxFanSpeed
                                  (sent (trace (getFanInfo drv index d)))))
         = n).
Proof.
  intros Hn. split.
  - now apply getFanInfo_no_fans.
  - intros Hpos Hmm Hf.
    destruct (getFanInfo_fans drv index d n Hn Hpos Hmm Hf) as [Ho Hs].
    rewrite Hs.
    destruct (fanMetrics_families drv index d (upto n)) as (H1 & H2 & H3).
    rewrite H1, H2, H3, length_upto. repeat split; auto; lia.
Qed.

Lemma C4_fan_observations_witness :
  ofFamily gpuMinFanSpeed
    (sent (trace (Part000.Update (healthy 1 2) allFlags)))
  = [MustNewConstMetric gpuMinFanSpeed 30 ["0"];
     MustNewConstMetric gpuMinFanSpeed 30 ["0"]]
  /\ ofFamily gpuMaxFanSpeed
       (sent (trace (NvidiaGpuLinux.Update (healthy 1 2) allFlags)))
     = [MustNewConstMetric gpuMaxFanSpeed 100 ["0"];
        MustNewConstMetric gpuMaxFanSpeed 100 ["0"]]
  /\ Z.of_nat (List.length
                 (ofFamily gpuMinFanSpeed
                    (sent (trace (getFanInfo (healthy 1 2) "0" 100)))))
     = 2.
Proof.
  split; [reflexivity|]. split; [reflexivity|].
  refine (proj1 (proj2 (proj2 (proj2 (proj2
            (C4_fan_observations (healthy 1 2) "0" 100 2 _) _ _ _))))).
  - reflexivity.
  - lia.
  - reflexivity.
  - intros; reflexivity.
Defined.

(** * Further properties of the two polls *)

(** ** Following the responses through a computation *)

Lemma every_bind_call (P : Event -> Prop) drv q {B} (k : Resp q -> M B) :
  P (Call q) -> every P (k (answer drv q)) -> every P (bind (call drv q) k).
Proof.
  intros Hq Hk. apply every_bind; [now apply every_call|].
  intros a [= <-]. exact Hk.
Qed.

(** One step through a computation that keeps what the calls returned and
    which element a loop is at. *)
Ltac track_step :=
  lazymatch goal with
  | |- every _ (ret _) => apply every_ret
  | |- every _ (bind (call _ _) _) =>
      apply every_bind_call; [ | cbv beta; cbn [answer] ]
  | |- every _ (bind _ _) => apply every_bind; [ | intros ? _ ]
  | |- every _ (send _) => apply every_send
  | |- every _ (log _ _) => apply every_log
  | |- every _ (fail _) => apply every_fail
  | |- every _ (check _ _) => apply every_check
  | |- every _ (forEach _ _) =>
      apply every_forEach;
      let x := fresh "x" in let Hx := fresh "Hx" in
      intros x Hx; try apply in_upto in Hx
  | |- every _ (if ?b then _ else _) => destruct b eqn:?
  | |- every _ (match ?x with _ => _ end) => destruct x eqn:?
  end.

Section Tracking.
Context {K : nvml.Consts}.
Variable drv : nvml.Driver.
Variable fl : Flags.

Lemma every_poll_parts (P : Event -> Prop) dm :
  P (Call QInit) ->
  every P (shutdown drv) ->
  every P (enumerate drv) ->
  every P (if enableNVGPUSysInfo fl then getSysInfo drv else ret tt) ->
  (forall i, 0 <= i < fst (nvml.DeviceGetCount drv) ->
             every P (dm i (handleAt drv i))) ->
  every P (poll drv fl dm).
Proof.
  intros Hi Hs He Hy Hd. unfold poll.
  apply every_bind_call; [assumption|].
  apply every_bind; [apply every_check|]. intros _ _.
  apply every_defer; [|assumption]. unfold collect.
  apply every_bind; [assumption|]. intros ds Hds.
  apply enumerate_Ok in Hds. subst ds.
  apply every_bind; [assumption|]. intros _ _.
  apply every_forEach. intros [i d] Hin.
  rewrite indexed_upto in Hin. apply in_map_iff in Hin.
  destruct Hin as (j & [= <- <-] & Hj). apply in_upto in Hj. now apply Hd.
Qed.

Lemma enumerate_inBounds : every (inBounds drv) (enumerate drv).
Proof.
  unfold enumerate. track_step; [exact I|].
  destruct (nvml.DeviceGetCount drv) as [count rc] eqn:E.
  track_step; [track_step|].
  apply every_deviceHandles. intros i Hi. apply in_upto in Hi.
  cbn [inBounds]. now rewrite E.
Qed.

Ltac inBounds_leaf :=
  cbn; auto;
  match goal with
  | H : nvml.GetNumFans _ _ = _ |- _ => rewrite H; assumption
  end.

Lemma Part000_deviceMetrics_inBounds i d :
  every (inBounds drv) (Part000.deviceMetrics drv fl i d).
Proof. unfold_poll. repeat track_step; try inBounds_leaf. Qed.

Lemma NvidiaGpuLinux_deviceMetrics_inBounds i d :
  every (inBounds drv) (NvidiaGpuLinux.deviceMetrics drv fl i d).
Proof. unfold_poll. repeat track_step; try inBounds_leaf. Qed.

Lemma Part000_deviceMetrics_onDevice i d :
  every (fun ev => match ev with
                   | Call q => deviceOf q = Some d
                   | _ => True
                   end)
        (Part000.deviceMetrics drv fl i d).
Proof. every_poll; reflexivity. Qed.

Lemma NvidiaGpuLinux_deviceMetrics_onDevice i d :
  every (fun ev => match ev with
                   | Call q => deviceOf q = Some d
                   | _ => True
                   end)
        (NvidiaGpuLinux.deviceMetrics drv fl i d).
Proof. every_poll; reflexivity. Qed.

Lemma poll_onEnumerated dm :
  (forall i d, every (fun ev => match ev with
                                | Call q => deviceOf q = Some d
                                | _ => True
                                end) (dm i d)) ->
  every (onEnumerated drv) (poll drv fl dm).
Proof.
  intros Hdm. apply every_poll_parts.
  - exact I.
  - every_poll; exact I.
  - every_poll; exact I.
  - every_poll; exact I.
  - intros i Hi. eapply every_impl; [|apply Hdm].
    intros [q|m|lvl msg]; cbn; auto. intros ->. eauto.
Qed.

Lemma poll_inBounds dm :
  (forall i d, every (inBounds drv) (dm i d)) ->
  every (inBounds drv) (poll drv fl dm).
Proof.
  intros Hdm. apply every_poll_parts.
  - exact I.
  - every_poll; exact I.
  - apply enumerate_inBounds.
  - every_poll; exact I.
  - intros i _. apply Hdm.
Qed.

Lemma Forall_calls (P : Event -> Prop) (Q : Query -> Prop) t :
  (forall q, P (Call q) -> Q q) -> Forall P t -> Forall Q (calls t).
Proof.
  intros H. induction 1 as [|ev t Hev _ IH]; [constructor|].
  destruct ev as [q|m|lvl msg]; simpl; auto.
Qed.

Lemma collect_empty dm :
  fst (nvml.DeviceGetCount drv) <= 0 ->
  snd (nvml.DeviceGetCount drv) = nvml.SUCCESS ->
  collect drv fl dm
  = (Call QDeviceGetCount
       :: trace (if enableNVGPUSysInfo fl then getSysInfo drv else ret tt),
     outcome (if enableNVGPUSysInfo fl then getSysInfo drv else ret tt)).
Proof.
  intros Hn Hs. unfold collect.
  remember (if enableNVGPUSysInfo fl then getSysInfo drv else ret tt) as S.
  clear HeqS. rewrite enumerate_run.
  destruct (nvml.DeviceGetCount drv) as [count rc]. cbn [fst snd] in *.
  rewrite Hs, Z.eqb_refl. unfold upto.
  replace (Z.to_nat count) with 0%nat by lia. cbn.
  destruct S as [t [[]|e]]; cbn; [now rewrite app_nil_r|reflexivity].
Qed.

End Tracking.

(** X1: when nvml.Init fails, either poll returns the initialisation error
    after that single call: nvml.Shutdown is not called, no other query is
    made and nothing is sent or logged. *)
Theorem init_failure_is_the_whole_poll {K : nvml.Consts} drv fl :
  nvml.Init drv <> nvml.SUCCESS ->
  Part000.Update drv fl
  = ([Call QInit],
     Err (fmt.Errorf ["unable to initialize NVML: ";
                      nvml.ErrorString drv (nvml.Init drv)]))
  /\ NvidiaGpuLinux.Update drv fl = Part000.Update drv fl.
Proof.
  intros H. unfold Part000.Update, NvidiaGpuLinux.Update.
  now rewrite !(poll_init_failed drv fl _ H).
Qed.

Lemma init_failure_is_the_whole_poll_witness :
  calls (trace (Part000.Update (withStatus (fun q => match q with
                                                     | QInit => true
                                                     | _ => false
                                                     end) 999 (healthy 2 2))
                  allFlags))
  = [QInit].
Proof.
  refine (f_equal (fun m => calls (trace m))
            (proj1 (init_failure_is_the_whole_poll _ allFlags _))).
  vm_compute. discriminate.
Defined.

(** X2: every metric that either poll builds has exactly as many label
    values as its descriptor has label names, so
    prometheus.MustNewConstMetric never panics. *)
Theorem metrics_match_their_descriptors {K : nvml.Consts} drv fl :
  Forall (fun m => List.length (labelValues m)
                   = List.length (variableLabels (desc m)))
         (sent (trace (Part000.Update drv fl)))
  /\ Forall (fun m => List.length (labelValues m)
                      = List.length (variableLabels (desc m)))
            (sent (trace (NvidiaGpuLinux.Update drv fl))).
Proof.
  split.
  - apply (Forall_sent wellLabelled); [auto|]. apply Part000_well_labelled.
  - apply (Forall_sent wellLabelled); [auto|].
    apply NvidiaGpuLinux_well_labelled.
Qed.

(** X3: every query about a device that either poll makes is about a handle
    that nvml.DeviceGetHandleByIndex returns for an index below the device
    count; the polls never query a handle of their own making. *)
Theorem device_queries_use_enumerated_handles {K : nvml.Consts} drv fl :
  Forall (fun q => forall d, deviceOf q = Some d ->
                     exists i, 0 <= i < fst (nvml.DeviceGetCount drv)
                               /\ d = handleAt drv i)
         (calls (trace (Part000.Update drv fl)))
  /\ Forall (fun q => forall d, deviceOf q = Some d ->
                        exists i, 0 <= i < fst (nvml.DeviceGetCount drv)
                                  /\ d = handleAt drv i)
            (calls (trace (NvidiaGpuLinux.Update drv fl))).
Proof.
  assert (H : forall q, onEnumerated drv (Call q) ->
                forall d, deviceOf q = Some d ->
                  exists i, 0 <= i < fst (nvml.DeviceGetCount drv)
                            /\ d = handleAt drv i).
  { intros q Hq d E. cbn in Hq. now rewrite E in Hq. }
  split; apply (Forall_calls (onEnumerated drv) _ _ H); apply poll_onEnumerated.
  - apply Part000_deviceMetrics_onDevice.
  - apply NvidiaGpuLinux_deviceMetrics_onDevice.
Qed.

(** X4: the counters that the loops hand to the driver are within the
    bounds of their loops: a handle index is below the device count, a fan
    index below the fan count that the same device reported, a clock type
    below CLOCK_COUNT, a clock id below CLOCK_ID_COUNT and a sensor below
    TEMPERATURE_COUNT, and none is negative. *)
Theorem loop_counters_stay_in_bounds {K : nvml.Consts} drv fl :
  Forall (inBounds drv) (trace (Part000.Update drv fl))
  /\ Forall (inBounds drv) (trace (NvidiaGpuLinux.Update drv fl)).
Proof.
  split; apply poll_inBounds; intros i d.
  - apply Part000_deviceMetrics_inBounds.
  - apply NvidiaGpuLinux_deviceMetrics_inBounds.
Qed.

(** X5: when the driver reports no device (a count of zero, or a negative
    one) either poll resolves no handle and makes no query about a device:
    after nvml.Init and the count it only collects the system information,
    if enabled, and releases the session; its result is that of the system
    information. *)
Theorem empty_inventory {K : nvml.Consts} drv fl :
  nvml.Init drv = nvml.SUCCESS ->
  fst (nvml.DeviceGetCount drv) <= 0 ->
  snd (nvml.DeviceGetCount drv) = nvml.SUCCESS ->
  Part000.Update drv fl
  = (Call QInit :: Call QDeviceGetCount
       :: trace (if enableNVGPUSysInfo fl then getSysInfo drv else ret tt)
       ++ trace (shutdown drv),
     outcome (if enableNVGPUSysInfo fl then getSysInfo drv else ret tt))
  /\ NvidiaGpuLinux.Update drv fl = Part000.Update drv fl.
Proof.
  intros Hi Hn Hs. unfold Part000.Update, NvidiaGpuLinux.Update.
  rewrite !(poll_run drv fl _ Hi), !(collect_empty drv fl _ Hn Hs).
  split; reflexivity.
Qed.

Lemma empty_inventory_witness :
  Part000.Update (healthy (-1) 2) noFlags
  = ([Call QInit; Call QDeviceGetCount; Call QShutdown], Ok tt).
Proof.
  refine (eq_trans (proj1 (empty_inventory (healthy (-1) 2) noFlags _ _ _)) _).
  - reflexivity.
  - vm_compute. discriminate.
  - reflexivity.
  - reflexivity.
Defined.

(** ** The families of one device *)

Section Families.
Context {K : nvml.Consts}.
Variable drv : nvml.Driver.

Ltac family :=
  repeat split; intros;
  repeat match goal with
         | H : _ /\ _ |- _ => destruct H
         | H : ?x = _ |- context [?x] => rewrite H
         | |- _ => rewrite Z.eqb_refl
         | H : ?x <> ?y |- context [?x =? ?y] =>
             destruct (Z.eqb_spec x y); [contradiction|]
         | |- context [?x =? ?y] =>
             destruct (Z.eqb_spec x y)
         end;
  cbn; eauto; try congruence; try solve [exfalso; tauto].

Lemma getSysInfo_all_or_nothing :
  calls (trace (getSysInfo drv)) = sysInfoCalls drv
  /\ (snd (nvml.SystemGetDriverVersion drv) = nvml.SUCCESS
      /\ snd (nvml.SystemGetCudaDriverVersion_v2 drv) = nvml.SUCCESS
      /\ snd (nvml.SystemGetNVMLVersion drv) = nvml.SUCCESS ->
      outcome (getSysInfo drv) = Ok tt
      /\ sent (trace (getSysInfo drv))
         = [MustNewConstMetric gpuSysInfo 1
              [fst (nvml.SystemGetDriverVersion drv);
               cudaV (fst (nvml.SystemGetCudaDriverVersion_v2 drv));
               fst (nvml.SystemGetNVMLVersion drv)]])
  /\ (~ (snd (nvml.SystemGetDriverVersion drv) = nvml.SUCCESS
         /\ snd (nvml.SystemGetCudaDriverVersion_v2 drv) = nvml.SUCCESS
         /\ snd (nvml.SystemGetNVMLVersion drv) = nvml.SUCCESS) ->
      (exists e, outcome (getSysInfo drv) = Err e)
      /\ sent (trace (getSysInfo drv)) = []).
Proof.
  unfold getSysInfo, sysInfoCalls, call, check. cbn.
  destruct (nvml.SystemGetDriverVersion drv) as [driverV rc1].
  destruct (nvml.SystemGetCudaDriverVersion_v2 drv) as [cudaVI rc2].
  destruct (nvml.SystemGetNVMLVersion drv) as [nvmlV rc3]. cbn.
  family.
Qed.

Lemma getGPUInfo_all_or_nothing index d :
  calls (trace (getGPUInfo drv index d)) = gpuInfoCalls drv d
  /\ (snd (nvml.GetUUID drv d) = nvml.SUCCESS
      /\ snd (nvml.GetName drv d) = nvml.SUCCESS
      /\ snd (nvml.GetBusType drv d) = nvml.SUCCESS ->
      outcome (getGPUInfo drv index d) = Ok tt
      /\ sent (trace (getGPUInfo drv index d))
         = [MustNewConstMetric gpuInfo 1
              [index; fst (nvml.GetUUID drv d); fst (nvml.GetName drv d);
               getBusTypeString (fst (nvml.GetBusType drv d))]])
  /\ (~ (snd (nvml.GetUUID drv d) = nvml.SUCCESS
         /\ snd (nvml.GetName drv d) = nvml.SUCCESS
         /\ snd (nvml.GetBusType drv d) = nvml.SUCCESS) ->
      (exists e, outcome (getGPUInfo drv index d) = Err e)
      /\ sent (trace (getGPUInfo drv index d)) = []).
Proof.
  unfold getGPUInfo, gpuInfoCalls, call, check. cbn.
  destruct (nvml.GetUUID drv d) as [uuid rc1].
  destruct (nvml.GetName drv d) as [name rc2].
  destruct (nvml.GetBusType drv d) as [busTypeE rc3]. cbn.
  family.
Qed.

Lemma getGPUUtilization_all_or_nothing index d :
  all_or_nothing drv (QGetUtilizationRates d)
    (Part000.getGPUUtilization drv index d)
    [MustNewConstMetric gpuUtil
       (nvml.Gpu (fst (nvml.GetUtilizationRates drv d))) [index; "GPU"];
     MustNewConstMetric gpuUtil
       (nvml.Memory_ (fst (nvml.GetUtilizationRates drv d)))
       [index; "MEMORY"]].
Proof.
  unfold all_or_nothing, Part000.getGPUUtilization, status, call, check. cbn.
  destruct (nvml.GetUtilizationRates drv d) as [util rc]. cbn. family.
Qed.

Lemma getMemoryInfo_all_or_nothing index d :
  all_or_nothing drv (QGetMemoryInfo d) (getMemoryInfo drv index d)
    [MustNewConstMetric gpuMemTotal
       (nvml.Total (fst (nvml.GetMemoryInfo drv d))) [index];
     MustNewConstMetric gpuMemFree
       (nvml.Free (fst (nvml.GetMemoryInfo drv d))) [index];
     MustNewConstMetric gpuMemUsed
       (nvml.Used (fst (nvml.GetMemoryInfo drv d))) [index]].
Proof.
  unfold all_or_nothing, getMemoryInfo, status, call, check. cbn.
  destruct (nvml.GetMemoryInfo drv d) as [mem rc]. cbn. family.
Qed.

Lemma getComputeMode_all_or_nothing index d :
  all_or_nothing drv (QGetComputeMode d) (Part000.getComputeMode drv index d)
    [MustNewConstMetric gpuComputeMode 1
       [index; getComputeModeString (fst (nvml.GetComputeMode drv d))]].
Proof.
  unfold all_or_nothing, Part000.getComputeMode, status, call, check. cbn.
  destruct (nvml.GetComputeMode drv d) as [v rc]. cbn. family.
Qed.

Lemma getPerformanceState_all_or_nothing index d :
  all_or_nothing drv (QGetPerformanceState d)
    (Part000.getPerformanceState drv index d)
    [MustNewConstMetric gpuPerf 1
       [index; getPstatesString (fst (nvml.GetPerformanceState drv d))]].
Proof.
  unfold all_or_nothing, Part000.getPerformanceState, status, call, check.
  cbn. destruct (nvml.GetPerformanceState drv d) as [v rc]. cbn. family.
Qed.

Lemma getPersistenceMode_all_or_nothing index d :
  all_or_nothing drv (QGetPersistenceMode d)
    (Part000.getPersistenceMode drv index d)
    [MustNewConstMetric gpuPersisMode 1
       [index; getPersisModeString (fst (nvml.GetPersistenceMode drv d))]].
Proof.
  unfold all_or_nothing, Part000.getPersistenceMode, status, call, check.
  cbn. destruct (nvml.GetPersistenceMode drv d) as [v rc]. cbn. family.
Qed.

Lemma getPowerUsage_all_or_nothing index d :
  all_or_nothing drv (QGetPowerUsage d) (getPowerUsage drv index d)
    [MustNewConstMetric gpuPowerUsage (fst (nvml.GetPowerUsage drv d))
       [index]].
Proof.
  unfold all_or_nothing, getPowerUsage, status, call, check. cbn.
  destruct (nvml.GetPowerUsage drv d) as [v rc]. cbn. family.
Qed.

End Families.

(** X6: the system information is all or nothing: its three queries are
    made in the order driver version, CUDA version, NVML version and stop
    at the first one that does not succeed; the one sysinfo metric, of
    value 1 and with the three versions as labels, is sent exactly when all
    three succeed, and otherwise an error is returned and nothing sent. *)
Theorem sysinfo_is_all_or_nothing {K : nvml.Consts} drv :
  calls (trace (getSysInfo drv)) = sysInfoCalls drv
  /\ (snd (nvml.SystemGetDriverVersion drv) = nvml.SUCCESS
      /\ snd (nvml.SystemGetCudaDriverVersion_v2 drv) = nvml.SUCCESS
      /\ snd (nvml.SystemGetNVMLVersion drv) = nvml.SUCCESS ->
      outcome (getSysInfo drv) = Ok tt
      /\ sent (trace (getSysInfo drv))
         = [MustNewConstMetric gpuSysInfo 1
              [fst (nvml.SystemGetDriverVersion drv);
               cudaV (fst (nvml.SystemGetCudaDriverVersion_v2 drv));
               fst (nvml.SystemGetNVMLVersion drv)]])
  /\ (~ (snd (nvml.SystemGetDriverVersion drv) = nvml.SUCCESS
         /\ snd (nvml.SystemGetCudaDriverVersion_v2 drv) = nvml.SUCCESS
         /\ snd (nvml.SystemGetNVMLVersion drv) = nvml.SUCCESS) ->
      (exists e, outcome (getSysInfo drv) = Err e)
      /\ sent (trace (getSysInfo drv)) = []).
Proof. apply getSysInfo_all_or_nothing. Qed.

Lemma sysinfo_is_all_or_nothing_witness :
  sent (trace (getSysInfo (healthy 1 0)))
  = [MustNewConstMetric gpuSysInfo 1
       ["535.104.05"; "12.2"; "12.535.104.05"]]
  /\ sent (trace (getSysInfo
                    (withStatus (fun q => match q with
                                          | QSystemGetNVMLVersion => true
                                          | _ => false
                                          end) 999 (healthy 1 0))))
     = [].
Proof.
  split.
  - refine (proj2 (proj1 (proj2 (sysinfo_is_all_or_nothing (healthy 1 0))) _)).
    repeat split.
  - refine (proj2 (proj2 (proj2 (sysinfo_is_all_or_nothing _)) _)).
    vm_compute. intros (_ & _ & H). discriminate H.
Defined.

(** X7: the device information is all or nothing in the same way: UUID,
    name and bus type are queried in that order up to the first failure,
    and the one gpuinfo metric, of value 1 and labelled with the index, the
    UUID, the name and the name of the bus type, is sent exactly when all
    three succeed. *)
Theorem gpuinfo_is_all_or_nothing {K : nvml.Consts} drv index d :
  calls (trace (getGPUInfo drv index d)) = gpuInfoCalls drv d
  /\ (snd (nvml.GetUUID drv d) = nvml.SUCCESS
      /\ snd (nvml.GetName drv d) = nvml.SUCCESS
      /\ snd (nvml.GetBusType drv d) = nvml.SUCCESS ->
      outcome (getGPUInfo drv index d) = Ok tt
      /\ sent (trace (getGPUInfo drv index d))
         = [MustNewConstMetric gpuInfo 1
              [index; fst (nvml.GetUUID drv d); fst (nvml.GetName drv d);
               getBusTypeString (fst (nvml.GetBusType drv d))]])
  /\ (~ (snd (nvml.GetUUID drv d) = nvml.SUCCESS
         /\ snd (nvml.GetName drv d) = nvml.SUCCESS
         /\ snd (nvml.GetBusType drv d) = nvml.SUCCESS) ->
      (exists e, outcome (getGPUInfo drv index d) = Err e)
      /\ sent (trace (getGPUInfo drv index d)) = []).
Proof. apply getGPUInfo_all_or_nothing. Qed.

Lemma gpuinfo_is_all_or_nothing_witness :
  sent (trace (getGPUInfo (healthy 1 0) "0" 100))
  = [MustNewConstMetric gpuInfo 1 ["0"; "GPU-100"; "NVIDIA A100"; "PCIE"]].
Proof.
  refine (proj2 (proj1 (proj2 (gpuinfo_is_all_or_nothing
                                 (healthy 1 0) "0" 100)) _)).
  repeat split.
Defined.

(** X8: the families fed by one query are all or nothing.  Utilization
    sends its two metrics in the order ("GPU", "MEMORY") and memory its
    three in the order total, free, used, each with the field of the same
    name as value; compute mode, performance state, persistence mode and
    power usage send one metric, which carries the index and, for the first
    three, the label that the helper of the family gives to the code
    returned.  On any status other than SUCCESS an error is returned and
    none of the metrics is sent. *)
Theorem one_query_families_are_all_or_nothing {K : nvml.Consts}
    drv index d :
  all_or_nothing drv (QGetUtilizationRates d)
    (Part000.getGPUUtilization drv index d)
    [MustNewConstMetric gpuUtil
       (nvml.Gpu (fst (nvml.GetUtilizationRates drv d))) [index; "GPU"];
     MustNewConstMetric gpuUtil
       (nvml.Memory_ (fst (nvml.GetUtilizationRates drv d)))
       [index; "MEMORY"]]
  /\ all_or_nothing drv (QGetMemoryInfo d) (getMemoryInfo drv index d)
       [MustNewConstMetric gpuMemTotal
          (nvml.Total (fst (nvml.GetMemoryInfo drv d))) [index];
        MustNewConstMetric gpuMemFree
          (nvml.Free (fst (nvml.GetMemoryInfo drv d))) [index];
        MustNewConstMetric gpuMemUsed
          (nvml.Used (fst (nvml.GetMemoryInfo drv d))) [index]]
  /\ all_or_nothing drv (QGetComputeMode d)
       (Part000.getComputeMode drv index d)
       [MustNewConstMetric gpuComputeMode 1
          [index; getComputeModeString (fst (nvml.GetComputeMode drv d))]]
  /\ all_or_nothing drv (QGetPerformanceState d)
       (Part000.getPerformanceState drv index d)
       [MustNewConstMetric gpuPerf 1
          [index; getPstatesString (fst (nvml.GetPerformanceState drv d))]]
  /\ all_or_nothing drv (QGetPersistenceMode d)
       (Part000.getPersistenceMode drv index d)
       [MustNewConstMetric gpuPersisMode 1
          [index; getPersisModeString (fst (nvml.GetPersistenceMode drv d))]]
  /\ all_or_nothing drv (QGetPowerUsage d) (getPowerUsage drv index d)
       [MustNewConstMetric gpuPowerUsage (fst (nvml.GetPowerUsage drv d))
          [index]].
Proof.
  split; [apply getGPUUtilization_all_or_nothing|].
  split; [apply getMemoryInfo_all_or_nothing|].
  split; [apply getComputeMode_all_or_nothing|].
  split; [apply getPerformanceState_all_or_nothing|].
  split; [apply getPersistenceMode_all_or_nothing
         |apply getPowerUsage_all_or_nothing].
Qed.

(** ** How many metrics a successful poll sends *)

Section Counting.
Variable d : Desc.

Lemma sos_eq {A} (m : M A) k k' :
  sends_on_success d k m -> k = k' -> sends_on_success d k' m.
Proof. now intros H <-. Qed.

Lemma sos_ret {A} (a : A) : sends_on_success d 0 (ret a).
Proof. intros _. reflexivity. Qed.

Lemma sos_fail {A} e k : sends_on_success d k (@fail A e).
Proof. intros [a H]. discriminate H. Qed.

Lemma sos_call drv q : sends_on_success d 0 (call drv q).
Proof. intros _. reflexivity. Qed.

Lemma sos_log lvl msg : sends_on_success d 0 (log lvl msg).
Proof. intros _. reflexivity. Qed.

Lemma sos_check {K : nvml.Consts} rc e : sends_on_success d 0 (check rc e).
Proof. intros _. unfold check. destruct (negb _); reflexivity. Qed.

Lemma sos_send m :
  sends_on_success d (if Desc_eqb (desc m) d then 1 else 0) (send m).
Proof. intros _. cbn. destruct (Desc_eqb (desc m) d); reflexivity. Qed.

Lemma sos_bind {A B} (m : M A) (f : A -> M B) k1 k2 :
  sends_on_success d k1 m -> (forall a, sends_on_success d k2 (f a)) ->
  sends_on_success d (k1 + k2) (bind m f).
Proof.
  unfold sends_on_success. rewrite outcome_bind, trace_bind.
  intros Hm Hf [b Hb]. destruct (outcome m) as [a|e]; [|discriminate].
  rewrite sent_app, ofFamily_app, length_app. f_equal; eauto.
Qed.

Lemma sos_forEach {A} (l : list A) (body : A -> M unit) k :
  (forall x, In x l -> sends_on_success d k (body x)) ->
  sends_on_success d (List.length l * k) (forEach l body).
Proof.
  induction l as [|x l IH]; intros H; cbn [forEach List.length].
  - apply sos_ret.
  - apply (sos_bind (body x) (fun _ => forEach l body) k (List.length l * k)).
    + apply H. now left.
    + intros _. apply IH. intros y Hy. apply H. now right.
Qed.

End Counting.

Ltac sos_close :=
  cbn; rewrite ?length_upto, ?Nat.mul_0_r, ?Nat.mul_1_r; cbn;
  first [reflexivity | lia].

Ltac sos_step :=
  lazymatch goal with
  | |- sends_on_success _ _ (ret _) =>
      eapply sos_eq; [apply sos_ret | sos_close]
  | |- sends_on_success _ _ (fail _) => apply sos_fail
  | |- sends_on_success _ _ (call _ _) =>
      eapply sos_eq; [apply sos_call | sos_close]
  | |- sends_on_success _ _ (log _ _) =>
      eapply sos_eq; [apply sos_log | sos_close]
  | |- sends_on_success _ _ (check _ _) =>
      eapply sos_eq; [apply sos_check | sos_close]
  | |- sends_on_success _ _ (send _) =>
      eapply sos_eq; [apply sos_send | sos_close]
  | |- sends_on_success _ _ (bind _ _) =>
      eapply sos_eq; [eapply sos_bind; [ | intros ? ] | ]
  | |- sends_on_success _ _ (forEach _ _) =>
      eapply sos_eq; [eapply sos_forEach; intros ? _ | ]
  | |- sends_on_success _ _ (if ?b then _ else _) =>
      destruct b eqn:?; try congruence
  | |- sends_on_success _ _ (match ?x with _ => _ end) => destruct x
  | |- @eq nat _ _ => sos_close
  end.

Section CountingPoll.
Context {K : nvml.Consts}.
Variable drv : nvml.Driver.

Lemma sos_bind_Ok d {A B} (m : M A) (f : A -> M B) k1 k2 :
  sends_on_success d k1 m ->
  (forall a, outcome m = Ok a -> sends_on_success d k2 (f a)) ->
  sends_on_success d (k1 + k2) (bind m f).
Proof.
  unfold sends_on_success. rewrite outcome_bind, trace_bind.
  intros Hm Hf [b Hb]. destruct (outcome m) as [a|e]; [|discriminate].
  rewrite sent_app, ofFamily_app, length_app. f_equal; eauto.
Qed.

Lemma Part000_deviceMetrics_counts fl d k i dv :
  perDevice true fl d = Some k ->
  sends_on_success d k (Part000.deviceMetrics drv fl i dv).
Proof.
  intros Hk.
  destruct d; cbn in Hk;
    destruct (enableNVGPUInfo fl) eqn:E1;
    destruct (enableNVGPUFan fl) eqn:E2;
    try discriminate Hk; injection Hk as <-;
    unfold_poll; repeat sos_step.
Qed.

Lemma NvidiaGpuLinux_deviceMetrics_counts fl d k i dv :
  perDevice false fl d = Some k ->
  sends_on_success d k (NvidiaGpuLinux.deviceMetrics drv fl i dv).
Proof.
  intros Hk.
  destruct d; cbn in Hk;
    destruct (enableNVGPUInfo fl) eqn:E1;
    destruct (enableNVGPUFan fl) eqn:E2;
    try discriminate Hk; injection Hk as <-;
    unfold_poll; repeat sos_step.
Qed.

Lemma getSysInfo_counts fl d :
  sends_on_success d
    (if enableNVGPUSysInfo fl && Desc_eqb d gpuSysInfo then 1 else 0)
    (if enableNVGPUSysInfo fl then getSysInfo drv else ret tt).
Proof.
  destruct (enableNVGPUSysInfo fl); destruct d; cbn [andb Desc_eqb];
    unfold_poll; repeat sos_step.
Qed.

Lemma enumerate_counts d : sends_on_success d 0 (enumerate drv).
Proof. intros _. now rewrite enumerate_sends_nothing. Qed.

Lemma poll_counts fl dm d k :
  (forall i dv, sends_on_success d k (dm i dv)) ->
  sends_on_success d
    ((if enableNVGPUSysInfo fl && Desc_eqb d gpuSysInfo then 1 else 0)
     + Z.to_nat (fst (nvml.DeviceGetCount drv)) * k)
    (poll drv fl dm).
Proof.
  intros Hdm Hok.
  destruct (Z.eq_dec (nvml.Init drv) nvml.SUCCESS) as [Hi|Hi];
    [|rewrite (poll_init_failed drv fl dm Hi) in Hok;
      destruct Hok as [a Ha]; discriminate Ha].
  rewrite (poll_run drv fl dm Hi) in *. cbn [outcome trace fst snd sent] in *.
  rewrite sent_app, sent_shutdown, app_nil_r.
  revert Hok. change (sends_on_success d
    ((if enableNVGPUSysInfo fl && Desc_eqb d gpuSysInfo then 1 else 0)
     + Z.to_nat (fst (nvml.DeviceGetCount drv)) * k) (collect drv fl dm)).
  unfold collect.
  eapply sos_eq;
    [apply sos_bind_Ok; [apply enumerate_counts|]|reflexivity].
  intros ds Hds. apply enumerate_Ok in Hds. subst ds.
  apply sos_bind; [apply getSysInfo_counts|]. intros _.
  eapply sos_eq; [apply sos_forEach|].
  - intros [i dv] _. apply Hdm.
  - unfold indexed.
    assert (L : forall A (l : list A) s,
                List.length (indexedFrom s l) = List.length l).
    { intros A l. induction l as [|x l IH]; intros s; cbn; [|rewrite IH];
        reflexivity. }
    now rewrite L, length_map, length_upto.
Qed.

End CountingPoll.

(** X9: a successful poll sends a fixed number of metrics for each family
    whose size does not depend on the answers of the driver: with N
    devices, N metrics each of power_usage, mem_total, mem_used and
    mem_free and N times TEMPERATURE_COUNT of temp in both files; N each of
    compute_mode, perf and persis_mode and 2 N of util in the richer file
    and none in the other; N of gpuinfo and one of sysinfo when their flag
    is true and none otherwise; none of the fan families when the fan flag
    is false. *)
Theorem successful_poll_family_sizes {K : nvml.Consts} drv fl d k :
  (perDevice true fl d = Some k ->
   outcome (Part000.Update drv fl) = Ok tt ->
   List.length (ofFamily d (sent (trace (Part000.Update drv fl))))
   = ((if enableNVGPUSysInfo fl && Desc_eqb d gpuSysInfo then 1 else 0)
      + Z.to_nat (fst (nvml.DeviceGetCount drv)) * k)%nat)
  /\ (perDevice false fl d = Some k ->
      outcome (NvidiaGpuLinux.Update drv fl) = Ok tt ->
      List.length (ofFamily d (sent (trace (NvidiaGpuLinux.Update drv fl))))
      = ((if enableNVGPUSysInfo fl && Desc_eqb d gpuSysInfo then 1 else 0)
         + Z.to_nat (fst (nvml.DeviceGetCount drv)) * k)%nat).
Proof.
  split; intros Hk Hok.
  - apply (poll_counts drv fl (Part000.deviceMetrics drv fl) d k); eauto.
    intros i dv. now apply Part000_deviceMetrics_counts.
  - apply (poll_counts drv fl (NvidiaGpuLinux.deviceMetrics drv fl) d k); eauto.
    intros i dv. now apply NvidiaGpuLinux_deviceMetrics_counts.
Qed.

Lemma successful_poll_family_sizes_witness :
  List.length (ofFamily gpuUtil
                 (sent (trace (Part000.Update (healthy 3 2) allFlags))))
  = 6%nat.
Proof.
  refine (proj1 (successful_poll_family_sizes (healthy 3 2) allFlags
                   gpuUtil 2) _ _); reflexivity.
Defined.

(** ** What the labels tell *)

Section LabelsTell.
Context {K : nvml.Consts}.

Ltac by_cases code :=
  repeat match goal with
         | |- context [code =? ?c] => destruct (Z.eqb_spec code c)
         end.

Lemma getBusTypeString_named code :
  getBusTypeString code <> "UNKNOWN" <-> In code namedBusTypeCodes.
Proof.
  unfold getBusTypeString, namedBusTypeCodes. cbn [In].
  by_cases code; split; intros H; try discriminate; try congruence;
    intuition congruence.
Qed.

Lemma getClockTypeString_named code :
  getClockTypeString code <> "UNKNOWN" <-> In code clockTypeCodes.
Proof.
  unfold getClockTypeString, clockTypeCodes. cbn [In].
  by_cases code; split; intros H; try discriminate; try congruence;
    intuition congruence.
Qed.

Lemma getClockIDString_named code :
  getClockIDString code <> "UNKNOWN" <-> In code clockIDCodes.
Proof.
  unfold getClockIDString, clockIDCodes. cbn [In].
  by_cases code; split; intros H; try discriminate; try congruence;
    intuition congruence.
Qed.

Lemma getComputeModeString_named code :
  getComputeModeString code <> "UNKNOWN" <-> In code computeModeCodes.
Proof.
  unfold getComputeModeString, computeModeCodes. cbn [In].
  by_cases code; split; intros H; try discriminate; try congruence;
    intuition congruence.
Qed.

Lemma getTemperatureSensorString_named code :
  getTemperatureSensorString code <> "UNKNOWN"
  <-> In code temperatureSensorCodes.
Proof.
  unfold getTemperatureSensorString, temperatureSensorCodes. cbn [In].
  by_cases code; split; intros H; try discriminate; try congruence;
    intuition congruence.
Qed.

(** A label other than "UNKNOWN" tells the code. *)
Lemma getClockTypeString_injective a b :
  getClockTypeString a <> "UNKNOWN" -> getClockTypeString a = getClockTypeString b -> a = b.
Proof.
  unfold getClockTypeString.
  by_cases a; by_cases b; intros N E; try discriminate E; congruence.
Qed.

Lemma getClockIDString_injective a b :
  getClockIDString a <> "UNKNOWN" -> getClockIDString a = getClockIDString b -> a = b.
Proof.
  unfold getClockIDString.
  by_cases a; by_cases b; intros N E; try discriminate E; congruence.
Qed.

Lemma getComputeModeString_injective a b :
  getComputeModeString a <> "UNKNOWN" -> getComputeModeString a = getComputeModeString b -> a = b.
Proof.
  unfold getComputeModeString.
  by_cases a; by_cases b; intros N E; try discriminate E; congruence.
Qed.

Lemma getBusTypeString_injective a b :
  getBusTypeString a <> "UNKNOWN" -> getBusTypeString a = getBusTypeString b ->
  a = b.
Proof.
  unfold getBusTypeString.
  by_cases a; by_cases b; intros N E; try discriminate E; congruence.
Qed.

Lemma getTemperatureSensorString_injective a b :
  getTemperatureSensorString a <> "UNKNOWN" ->
  getTemperatureSensorString a = getTemperatureSensorString b -> a = b.
Proof.
  unfold getTemperatureSensorString.
  by_cases a; by_cases b; intros N E; try discriminate E; congruence.
Qed.

Lemma Itoa_injective a b : strconv.Itoa a = strconv.Itoa b -> a = b.
Proof.
  assert (N : forall z, Z.to_int z <> Decimal.Pos Decimal.Nil
                        /\ Z.to_int z <> Decimal.Neg Decimal.Nil).
  { intros [|p|p]; split; intros [= H]; try discriminate;
      exact (Unsigned.to_uint_nonnil p H). }
  unfold strconv.Itoa. intros E.
  apply (f_equal NilZero.int_of_string) in E.
  rewrite !NilZero.isi in E by apply N. injection E as E.
  rewrite <- (DecimalZ.of_to a), <- (DecimalZ.of_to b). now rewrite E.
Qed.

Lemma getPstatesString_injective a b :
  getPstatesString a = getPstatesString b -> a = b.
Proof.
  unfold getPstatesString.
  destruct (Z.eqb_spec nvml.PSTATE_UNKNOWN a) as [<-|Ha];
    destruct (Z.eqb_spec nvml.PSTATE_UNKNOWN b) as [<-|Hb]; cbn;
    intros E; try discriminate E; [reflexivity|].
  injection E as E. now apply Itoa_injective.
Qed.

End LabelsTell.

(** X10: the five helpers written as a switch return a label other than
    "UNKNOWN" exactly on the codes named by their cases (for the bus type:
    the four cases that do not return "UNKNOWN" themselves), and such a
    label tells the code: two codes with the same label other than
    "UNKNOWN" are equal. *)
Theorem named_labels_tell_the_code {K : nvml.Consts} :
  (forall a, getBusTypeString a <> "UNKNOWN" <-> In a namedBusTypeCodes)
  /\ (forall a, getClockTypeString a <> "UNKNOWN" <-> In a clockTypeCodes)
  /\ (forall a, getClockIDString a <> "UNKNOWN" <-> In a clockIDCodes)
  /\ (forall a, getComputeModeString a <> "UNKNOWN"
                <-> In a computeModeCodes)
  /\ (forall a, getTemperatureSensorString a <> "UNKNOWN"
                <-> In a temperatureSensorCodes)
  /\ (forall a b,
        (getBusTypeString a <> "UNKNOWN" ->
         getBusTypeString a = getBusTypeString b -> a = b)
        /\ (getClockTypeString a <> "UNKNOWN" ->
            getClockTypeString a = getClockTypeString b -> a = b)
        /\ (getClockIDString a <> "UNKNOWN" ->
            getClockIDString a = getClockIDString b -> a = b)
        /\ (getComputeModeString a <> "UNKNOWN" ->
            getComputeModeString a = getComputeModeString b -> a = b)
        /\ (getTemperatureSensorString a <> "UNKNOWN" ->
            getTemperatureSensorString a = getTemperatureSensorString b ->
            a = b)).
Proof.
  split; [exact getBusTypeString_named|].
  split; [exact getClockTypeString_named|].
  split; [exact getClockIDString_named|].
  split; [exact getComputeModeString_named|].
  split; [exact getTemperatureSensorString_named|].
  intros a b.
  split; [apply getBusTypeString_injective|].
  split; [apply getClockTypeString_injective|].
  split; [apply getClockIDString_injective|].
  split; [apply getComputeModeString_injective
         |apply getTemperatureSensorString_injective].
Qed.

Lemma named_labels_tell_the_code_witness :
  getClockTypeString 2 <> "UNKNOWN"
  /\ (getClockTypeString 2 = getClockTypeString 2 -> 2 = 2).
Proof.
  split; [discriminate|].
  refine (proj1 (proj2 ((proj2 (proj2 (proj2 (proj2 (proj2
            named_labels_tell_the_code))))) 2 2)) _).
  discriminate.
Defined.

(** X11: getPstatesString gives different labels to different performance
    states: the state can be read back from the label. *)
Theorem performance_state_label_tells_the_state {K : nvml.Consts} a b :
  getPstatesString a = getPstatesString b -> a = b.
Proof. apply getPstatesString_injective. Qed.

Lemma performance_state_label_tells_the_state_witness :
  getPstatesString 8 = "P8" /\ (getPstatesString 8 = getPstatesString 8 -> 8 = 8).
Proof.
  split; [reflexivity|].
  apply (performance_state_label_tells_the_state 8 8).
Defined.

(** X12: a packed version 1000 * major + 10 * minor (+ a last digit),
    which is how the driver encodes it, is rendered as "major.minor": the
    string decodes the packing. *)
Theorem cudaV_decodes_the_packing major minor patch :
  0 <= major -> 0 <= minor < 100 -> 0 <= patch < 10 ->
  cudaV (1000 * major + 10 * minor + patch)
  = (strconv.Itoa major ++ "." ++ strconv.Itoa minor)%string.
Proof.
  intros HM Hm Hp. rewrite cudaV_unfold.
  rewrite (Z.quot_div_nonneg _ 1000), (Z.rem_mod_nonneg _ 1000) by lia.
  rewrite (Z.quot_div_nonneg _ 10)
    by (try lia; apply Z.mod_pos_bound; lia).
  replace ((1000 * major + 10 * minor + patch) / 1000) with major
    by (apply (Z.div_unique _ _ _ (10 * minor + patch)); lia).
  replace ((1000 * major + 10 * minor + patch) mod 1000)
    with (10 * minor + patch)
    by (apply (Z.mod_unique _ _ major); lia).
  replace ((10 * minor + patch) / 10) with minor
    by (apply (Z.div_unique _ _ _ patch); lia).
  reflexivity.
Qed.

Lemma cudaV_decodes_the_packing_witness : cudaV 12045 = "12.4".
Proof.
  apply (cudaV_decodes_the_packing 12 4 5); lia.
Defined.

(** X13: the metrics of devices at different positions never carry the
    same label values, in either file: their first label is the decimal
    rendering of the position, which differs. *)
Theorem devices_never_share_labels {K : nvml.Consts} drv fl i j d d' m m' :
  i <> j ->
  (In m (sent (trace (Part000.deviceMetrics drv fl i d))) ->
   In m' (sent (trace (Part000.deviceMetrics drv fl j d'))) ->
   labelValues m <> labelValues m')
  /\ (In m (sent (trace (NvidiaGpuLinux.deviceMetrics drv fl i d))) ->
      In m' (sent (trace (NvidiaGpuLinux.deviceMetrics drv fl j d'))) ->
      labelValues m <> labelValues m').
Proof.
  intros Hij.
  assert (H : forall (ti tj : list Event),
            Forall (labelled (strconv.Itoa i)) ti ->
            Forall (labelled (strconv.Itoa j)) tj ->
            In m (sent ti) -> In m' (sent tj) ->
            labelValues m <> labelValues m').
  { intros ti tj Hi Hj Hm Hm' E.
    apply (Forall_sent _ (fun m => hd_error (labelValues m)
                                   = Some (strconv.Itoa i))) in Hi; [|auto].
    apply (Forall_sent _ (fun m => hd_error (labelValues m)
                                   = Some (strconv.Itoa j))) in Hj; [|auto].
    rewrite Forall_forall in Hi, Hj.
    specialize (Hi _ Hm). specialize (Hj _ Hm'). rewrite E in Hi.
    rewrite Hi in Hj. injection Hj as Hj. now apply Itoa_injective in Hj. }
  split; apply H.
  - apply Part000_deviceMetrics_labelled.
  - apply Part000_deviceMetrics_labelled.
  - apply NvidiaGpuLinux_deviceMetrics_labelled.
  - apply NvidiaGpuLinux_deviceMetrics_labelled.
Qed.

Lemma devices_never_share_labels_witness :
  labelValues (MustNewConstMetric gpuPowerUsage 70000 ["0"])
  <> labelValues (MustNewConstMetric gpuPowerUsage 70000 ["1"]).
Proof.
  refine (proj1 (devices_never_share_labels (healthy 2 0) noFlags 0 1
                   100 101 _ _ _) _ _).
  - discriminate.
  - vm_compute. tauto.
  - vm_compute. tauto.
Defined.

(** ** Where a loop stops *)

Lemma upto_split k n :
  0 <= k < n -> exists rest, upto n = upto k ++ k :: rest.
Proof.
  intros H. unfold upto.
  replace (Z.to_nat n) with (Z.to_nat k + S (Z.to_nat (n - k - 1)))%nat by lia.
  rewrite seq_app, map_app. cbn [seq map Nat.add].
  rewrite Z2Nat.id by lia. eauto.
Qed.

Lemma forEach_first_failure {A} (l1 l2 : list A) x (body : A -> M unit) e :
  (forall y, In y l1 -> outcome (body y) = Ok tt) ->
  outcome (body x) = Err e ->
  forEach (l1 ++ x :: l2) body
  = (flat_map (fun y => trace (body y)) l1 ++ trace (body x), Err e).
Proof.
  intros H1 Hx. induction l1 as [|y l1 IH]; cbn [app forEach flat_map].
  - now rewrite (bind_Err _ _ e Hx).
  - rewrite (bind_Ok _ _ tt) by (apply H1; now left).
    rewrite IH by (intros z Hz; apply H1; now right).
    cbn [trace outcome fst snd]. now rewrite app_assoc.
Qed.

Section FirstFailure.
Context {K : nvml.Consts}.
Variable drv : nvml.Driver.

Lemma deviceHandles_first_failure l1 l2 k devices :
  (forall i, In i l1 ->
             snd (nvml.DeviceGetHandleByIndex drv i) = nvml.SUCCESS) ->
  snd (nvml.DeviceGetHandleByIndex drv k) <> nvml.SUCCESS ->
  deviceHandles drv (l1 ++ k :: l2) devices
  = (map (fun i => Call (QDeviceGetHandleByIndex i)) (l1 ++ [k]),
     Err (fmt.Errorf ["unable to get device at index "; strconv.Itoa k; ": ";
                      nvml.ErrorString drv
                        (snd (nvml.DeviceGetHandleByIndex drv k))])).
Proof.
  intros H1 Hk. revert devices.
  induction l1 as [|i l1 IH]; intros devices; cbn [app].
  - rewrite deviceHandles_cons.
    destruct (nvml.DeviceGetHandleByIndex drv k) as [d rc]. cbn in *.
    destruct (Z.eqb_spec rc nvml.SUCCESS); [contradiction|reflexivity].
  - rewrite deviceHandles_cons.
    pose proof (H1 i (or_introl eq_refl)) as Hi.
    destruct (nvml.DeviceGetHandleByIndex drv i) as [d rc]. cbn in Hi.
    rewrite Hi, Z.eqb_refl.
    rewrite IH by (intros j Hj; apply H1; now right). reflexivity.
Qed.

End FirstFailure.

(** X14: the enumeration stops at the first index whose handle cannot be
    resolved: the indices up to that one are queried in order, nothing is
    queried after it, and the error names the index and renders the status;
    the handles resolved before it are dropped. *)
Theorem enumeration_stops_at_first_failure {K : nvml.Consts} drv N k :
  nvml.DeviceGetCount drv = (N, nvml.SUCCESS) ->
  0 <= k < N ->
  (forall i, 0 <= i < k ->
             snd (nvml.DeviceGetHandleByIndex drv i) = nvml.SUCCESS) ->
  snd (nvml.DeviceGetHandleByIndex drv k) <> nvml.SUCCESS ->
  enumerate drv
  = (Call QDeviceGetCount
       :: map (fun i => Call (QDeviceGetHandleByIndex i)) (upto k ++ [k]),
     Err (fmt.Errorf ["unable to get device at index "; strconv.Itoa k; ": ";
                      nvml.ErrorString drv
                        (snd (nvml.DeviceGetHandleByIndex drv k))])).
Proof.
  intros Hc Hk Hok Hfail. rewrite enumerate_run, Hc, Z.eqb_refl.
  destruct (upto_split k N Hk) as [rest ->].
  rewrite (deviceHandles_first_failure drv (upto k) rest k []);
    [reflexivity| |assumption].
  intros i Hi. apply Hok. now apply in_upto.
Qed.

Lemma enumeration_stops_at_first_failure_witness :
  calls (trace (enumerate (withStatus beyondFirst 999 (healthy 3 0))))
  = [QDeviceGetCount; QDeviceGetHandleByIndex 0; QDeviceGetHandleByIndex 1].
Proof.
  refine (f_equal (fun m => calls (trace m))
            (enumeration_stops_at_first_failure
               (withStatus beyondFirst 999 (healthy 3 0)) 3 1 _ _ _ _)).
  - reflexivity.
  - lia.
  - intros i Hi. replace i with 0 by lia. reflexivity.
  - vm_compute. discriminate.
Defined.

Lemma getFanInfo_loop {K : nvml.Consts} drv index d n :
  nvml.GetNumFans drv d = (n, nvml.SUCCESS) -> 0 < n ->
  snd (nvml.GetMinMaxFanSpeed drv d) = nvml.SUCCESS ->
  getFanInfo drv index d
  = (Call (QGetNumFans d) :: Call (QGetMinMaxFanSpeed d)
       :: trace (forEach (upto n)
                   (fanSpeed drv index d
                      (fst (fst (nvml.GetMinMaxFanSpeed drv d)))
                      (snd (fst (nvml.GetMinMaxFanSpeed drv d))))),
     outcome (forEach (upto n)
                (fanSpeed drv index d
                   (fst (fst (nvml.GetMinMaxFanSpeed drv d)))
                   (snd (fst (nvml.GetMinMaxFanSpeed drv d)))))).
Proof.
  intros Hn Hpos Hmm. unfold getFanInfo, call, check.
  cbn -[forEach fanSpeed]. rewrite Hn, Z.eqb_refl. cbn -[forEach fanSpeed].
  destruct (Z.ltb_spec 0 n); [|lia]. cbn -[forEach fanSpeed].
  destruct (nvml.GetMinMaxFanSpeed drv d) as [[mn mx] rc].
  cbn -[forEach fanSpeed] in *. rewrite Hmm, Z.eqb_refl.
  cbn -[forEach fanSpeed]. reflexivity.
Qed.

(** X15: the loop over the fans stops at the first fan whose speed cannot
    be read: the fans before it have had their three metrics sent, which
    stay on the channel, the failing fan and the fans after it have none,
    no fan after it is queried, and the error names the fan. *)
Theorem fan_loop_stops_at_first_failure {K : nvml.Consts} drv index d n k :
  nvml.GetNumFans drv d = (n, nvml.SUCCESS) ->
  snd (nvml.GetMinMaxFanSpeed drv d) = nvml.SUCCESS ->
  0 <= k < n ->
  (forall f, 0 <= f < k -> snd (nvml.GetFanSpeed_v2 drv d f) = nvml.SUCCESS) ->
  snd (nvml.GetFanSpeed_v2 drv d k) <> nvml.SUCCESS ->
  outcome (getFanInfo drv index d)
  = Err (fmt.Errorf ["unable to get GPU "; index; " Fan "; strconv.Itoa k;
                     " Speed: ";
                     nvml.ErrorString drv
                       (snd (nvml.GetFanSpeed_v2 drv d k))])
  /\ sent (trace (getFanInfo drv index d))
     = flat_map (fanMetrics drv index d) (upto k)
  /\ calls (trace (getFanInfo drv index d))
     = QGetNumFans d :: QGetMinMaxFanSpeed d
         :: map (QGetFanSpeed_v2 d) (upto k ++ [k]).
Proof.
  intros Hn Hmm Hk Hok Hfail.
  assert (Hpos : 0 < n) by lia.
  rewrite (getFanInfo_loop drv index d n Hn Hpos Hmm).
  pose proof (fun f => fanSpeed_Ok drv index d f) as Hstep.
  assert (Hcalls : forall f mn mx,
            calls (trace (fanSpeed drv index d mn mx f))
            = [QGetFanSpeed_v2 d f]).
  { intros f mn mx. unfold fanSpeed, call, check. cbn.
    destruct (nvml.GetFanSpeed_v2 drv d f) as [v rc]. cbn.
    destruct (rc =? nvml.SUCCESS); reflexivity. }
  assert (Hbad : forall mn mx,
            fanSpeed drv index d mn mx k
            = ([Call (QGetFanSpeed_v2 d k)],
               Err (fmt.Errorf ["unable to get GPU "; index; " Fan ";
                                strconv.Itoa k; " Speed: ";
                                nvml.ErrorString drv
                                  (snd (nvml.GetFanSpeed_v2 drv d k))]))).
  { intros mn mx. unfold fanSpeed, call, check. cbn.
    destruct (nvml.GetFanSpeed_v2 drv d k) as [v rc]. cbn in *.
    destruct (Z.eqb_spec rc nvml.SUCCESS); [contradiction|reflexivity]. }
  destruct (upto_split k n Hk) as [rest ->].
  rewrite (forEach_first_failure (upto k) rest k _ _
             (fun f Hf => proj1 (Hstep f (Hok f (proj1 (in_upto f k) Hf))))
             (f_equal outcome (Hbad _ _))).
  cbn [outcome trace fst snd]. rewrite Hbad. cbn [trace fst].
  split; [reflexivity|]. split.
  - cbn [sent]. rewrite sent_app. cbn [sent]. rewrite app_nil_r, sent_flat_map.
    apply flat_map_ext_In. intros f Hf. apply in_upto in Hf.
    apply Hstep; auto.
  - cbn [calls]. rewrite calls_app. cbn [calls]. rewrite map_app. cbn [map].
    do 3 f_equal. clear - Hcalls. induction (upto k) as [|f l IH]; [reflexivity|].
    cbn [flat_map map]. rewrite calls_app, IH, Hcalls. reflexivity.
Qed.

Lemma fan_loop_stops_at_first_failure_witness :
  sent (trace (getFanInfo (withStatus beyondFirst 999 (healthy 1 4)) "0" 100))
  = flat_map (fanMetrics (withStatus beyondFirst 999 (healthy 1 4)) "0" 100)
      [0; 1].
Proof.
  refine (proj1 (proj2 (fan_loop_stops_at_first_failure
                          (withStatus beyondFirst 999 (healthy 1 4))
                          "0" 100 4 2 _ _ _ _ _))).
  - reflexivity.
  - reflexivity.
  - lia.
  - intros f Hf.
    assert (E : f = 0 \/ f = 1) by lia. destruct E as [-> | ->]; reflexivity.
  - vm_compute. discriminate.
Defined.

(** ** One poll against another *)

Section Extends.
Variable keep : Desc -> bool.

Lemma filter_sendsOnly t :
  Forall (sendsOnly keep) t ->
  filter (fun m => keep (desc m)) (sent t) = sent t.
Proof.
  induction 1 as [|ev t Hev _ IH]; [reflexivity|].
  destruct ev as [q|m|lvl msg]; cbn; auto.
  cbn in Hev. rewrite Hev, IH. reflexivity.
Qed.

Lemma filter_sendsNone t :
  Forall (sendsOnly (fun d => negb (keep d))) t ->
  filter (fun m => keep (desc m)) (sent t) = [].
Proof.
  induction 1 as [|ev t Hev _ IH]; [reflexivity|].
  destruct ev as [q|m|lvl msg]; cbn; auto.
  cbn in Hev. apply negb_true_iff in Hev. now rewrite Hev.
Qed.

Lemma extends_same {A} (m : M A) :
  every (sendsOnly keep) m -> extends keep m m.
Proof. intros H a Ha. split; [assumption|]. now apply filter_sendsOnly. Qed.

Lemma extends_drop (m : M unit) :
  every (sendsOnly (fun d => negb (keep d))) m -> extends keep m (ret tt).
Proof.
  intros H [] Ha. split; [reflexivity|]. now apply filter_sendsNone.
Qed.

Lemma extends_bind {A B} (m1 m2 : M A) (f1 f2 : A -> M B) :
  extends keep m1 m2 -> (forall a, extends keep (f1 a) (f2 a)) ->
  extends keep (bind m1 f1) (bind m2 f2).
Proof.
  unfold extends. intros Hm Hf b. rewrite !outcome_bind, !trace_bind.
  destruct (outcome m1) as [a|e]; [|discriminate].
  destruct (Hm a eq_refl) as [-> Hs]. intros Hb.
  destruct (Hf a b Hb) as [-> Hs'].
  split; [reflexivity|].
  now rewrite !sent_app, filter_app, Hs, Hs'.
Qed.

Lemma extends_skip {B} (m1 : M unit) (f1 : unit -> M B) (m2 : M B) :
  every (sendsOnly (fun d => negb (keep d))) m1 ->
  extends keep (f1 tt) m2 -> extends keep (bind m1 f1) m2.
Proof.
  intros H1 Hf. rewrite <- (bind_ret_l tt (fun _ => m2)).
  apply extends_bind; [now apply extends_drop|]. intros []. exact Hf.
Qed.

Lemma extends_forEach {A} (l : list A) (b1 b2 : A -> M unit) :
  (forall x, extends keep (b1 x) (b2 x)) ->
  extends keep (forEach l b1) (forEach l b2).
Proof.
  intros H. induction l as [|x l IH]; cbn [forEach].
  - intros a Ha. auto.
  - apply extends_bind; [apply H|intros _; apply IH].
Qed.

Lemma extends_defer {A} (s : M unit) (m1 m2 : M A) :
  sent (trace s) = [] -> extends keep m1 m2 ->
  extends keep (defer s m1) (defer s m2).
Proof.
  intros Hs H a Ha. cbn in Ha. destruct (H a Ha) as [Ho Hf].
  split; [exact Ho|]. cbn [defer trace fst].
  now rewrite !sent_app, filter_app, Hs, Hf.
Qed.

End Extends.

Section ExtendsPoll.
Context {K : nvml.Consts}.
Variable drv : nvml.Driver.

Lemma extends_poll keep fl fl' dm1 dm2 :
  extends keep (if enableNVGPUSysInfo fl then getSysInfo drv else ret tt)
    (if enableNVGPUSysInfo fl' then getSysInfo drv else ret tt) ->
  (forall i d, extends keep (dm1 i d) (dm2 i d)) ->
  extends keep (poll drv fl dm1) (poll drv fl' dm2).
Proof.
  intros Hsys Hdm. unfold poll.
  apply extends_bind; [apply extends_same; every_poll; exact I|]. intros rc.
  apply extends_bind; [apply extends_same; every_poll; exact I|]. intros _.
  apply extends_defer; [apply sent_shutdown|]. unfold collect.
  apply extends_bind; [apply extends_same; every_poll; exact I|]. intros ds.
  apply extends_bind; [exact Hsys|]. intros _.
  apply extends_forEach. intros [i d]. apply Hdm.
Qed.

Lemma temperature_extends index d t :
  extends (fun x => negb (richDesc x)) (Part000.temperature drv index d t)
    (NvidiaGpuLinux.temperature drv index d t).
Proof.
  unfold extends, Part000.temperature, NvidiaGpuLinux.temperature, call, check.
  cbn. destruct (nvml.GetTemperature drv d t) as [v rc]. cbn.
  destruct (rc =? nvml.SUCCESS); cbn; intros a Ha; [|discriminate].
  split; [assumption|reflexivity].
Qed.

Ltac only_sends := every_poll; reflexivity.

Lemma deviceMetrics_extends fl i d :
  extends (fun x => negb (richDesc x)) (Part000.deviceMetrics drv fl i d)
    (NvidiaGpuLinux.deviceMetrics drv fl i d).
Proof.
  unfold Part000.deviceMetrics, NvidiaGpuLinux.deviceMetrics.
  apply extends_bind; [apply extends_same; only_sends|]. intros _.
  apply extends_bind; [apply extends_same; only_sends|]. intros _.
  apply extends_skip; [only_sends|].
  apply extends_skip; [only_sends|].
  apply extends_skip; [only_sends|].
  apply extends_skip; [only_sends|].
  apply extends_skip; [only_sends|].
  apply extends_bind.
  { apply extends_forEach. intros t. apply temperature_extends. }
  intros _.
  apply extends_bind; [apply extends_same; only_sends|]. intros _.
  apply extends_skip; [only_sends|].
  apply extends_same; only_sends.
Qed.

End ExtendsPoll.

(** X16: the richer file extends the other one: on every driver and under
    the same flags, when the poll of the richer file succeeds, so does the
    poll of nvidia_gpu_linux.go, and it sends exactly the metrics of the
    richer poll that are not of the added families (appclk, clk,
    compute_mode, perf, persis_mode, util, power_enforce_limit), in the
    same order. *)
Theorem rich_poll_extends_the_other {K : nvml.Consts} drv fl :
  outcome (Part000.Update drv fl) = Ok tt ->
  outcome (NvidiaGpuLinux.Update drv fl) = Ok tt
  /\ filter (fun m => negb (richDesc (desc m)))
       (sent (trace (Part000.Update drv fl)))
     = sent (trace (NvidiaGpuLinux.Update drv fl)).
Proof.
  apply (extends_poll drv (fun x => negb (richDesc x)) fl fl).
  - apply extends_same. every_poll; reflexivity.
  - intros i d. apply deviceMetrics_extends.
Qed.

Lemma rich_poll_extends_the_other_witness :
  filter (fun m => negb (richDesc (desc m)))
    (sent (trace (Part000.Update (healthy 2 1) allFlags)))
  = sent (trace (NvidiaGpuLinux.Update (healthy 2 1) allFlags)).
Proof.
  refine (proj2 (rich_poll_extends_the_other (healthy 2 1) allFlags _)).
  reflexivity.
Defined.

(** ** Switching families off *)

Section FlagsOff.
Context {K : nvml.Consts}.
Variable drv : nvml.Driver.
Variables fl fl' : Flags.
Hypothesis Hle : flags_le fl' fl.

Lemma gated_extends keep (b b' : bool) (m : M unit) :
  (b' = true -> b = true) ->
  (b' = true -> every (sendsOnly keep) m) ->
  (b' = false -> every (sendsOnly (fun d => negb (keep d))) m) ->
  extends keep (if b then m else ret tt) (if b' then m else ret tt).
Proof.
  intros Hb Hon Hoff. destruct b' eqn:E'.
  - rewrite (Hb eq_refl). apply extends_same. auto.
  - destruct b.
    + apply extends_drop. auto.
    + apply extends_same. every_poll.
Qed.

Ltac enabled_leaf :=
  cbn; unfold disabledDesc; cbn;
  repeat match goal with
         | E : _ = _ :> bool |- _ => rewrite E
         end;
  rewrite ?andb_false_r; cbn; rewrite ?andb_false_r; reflexivity.

Lemma Part000_deviceMetrics_flags i d :
  extends (fun x => negb (disabledDesc fl' x))
    (Part000.deviceMetrics drv fl i d) (Part000.deviceMetrics drv fl' i d).
Proof.
  destruct Hle as (_ & Hinfo & Hfan).
  unfold Part000.deviceMetrics.
  apply extends_bind.
  { apply gated_extends; [exact Hinfo| |]; intros E; every_poll; enabled_leaf. }
  intros _. apply extends_bind.
  { apply gated_extends; [exact Hfan| |]; intros E; every_poll; enabled_leaf. }
  intros _. apply extends_same. every_poll; enabled_leaf.
Qed.

Lemma NvidiaGpuLinux_deviceMetrics_flags i d :
  extends (fun x => negb (disabledDesc fl' x))
    (NvidiaGpuLinux.deviceMetrics drv fl i d)
    (NvidiaGpuLinux.deviceMetrics drv fl' i d).
Proof.
  destruct Hle as (_ & Hinfo & Hfan).
  unfold NvidiaGpuLinux.deviceMetrics.
  apply extends_bind.
  { apply gated_extends; [exact Hinfo| |]; intros E; every_poll; enabled_leaf. }
  intros _. apply extends_bind.
  { apply gated_extends; [exact Hfan| |]; intros E; every_poll; enabled_leaf. }
  intros _. apply extends_same. every_poll; enabled_leaf.
Qed.

Lemma getSysInfo_flags :
  extends (fun x => negb (disabledDesc fl' x))
    (if enableNVGPUSysInfo fl then getSysInfo drv else ret tt)
    (if enableNVGPUSysInfo fl' then getSysInfo drv else ret tt).
Proof.
  destruct Hle as (Hsys & _).
  apply gated_extends; [exact Hsys| |]; intros E; every_poll; enabled_leaf.
Qed.

End FlagsOff.

(** X17: switching families off removes their metrics and nothing else.
    When every flag set in [fl'] is set in [fl] and the poll under [fl]
    succeeds, the poll under [fl'] succeeds too and sends the metrics of
    the poll under [fl] that are not of a family switched off in [fl'],
    in the same order; in both files. *)
Theorem switching_families_off_only_removes_their_metrics
  {K : nvml.Consts} drv fl fl' :
  flags_le fl' fl ->
  (outcome (Part000.Update drv fl) = Ok tt ->
   outcome (Part000.Update drv fl') = Ok tt
   /\ filter (fun m => negb (disabledDesc fl' (desc m)))
        (sent (trace (Part000.Update drv fl)))
      = sent (trace (Part000.Update drv fl')))
  /\ (outcome (NvidiaGpuLinux.Update drv fl) = Ok tt ->
      outcome (NvidiaGpuLinux.Update drv fl') = Ok tt
      /\ filter (fun m => negb (disabledDesc fl' (desc m)))
           (sent (trace (NvidiaGpuLinux.Update drv fl)))
         = sent (trace (NvidiaGpuLinux.Update drv fl'))).
Proof.
  intros Hle. split.
  - apply (extends_poll drv (fun x => negb (disabledDesc fl' x)) fl fl').
    + now apply getSysInfo_flags.
    + intros i d. now apply Part000_deviceMetrics_flags.
  - apply (extends_poll drv (fun x => negb (disabledDesc fl' x)) fl fl').
    + now apply getSysInfo_flags.
    + intros i d. now apply NvidiaGpuLinux_deviceMetrics_flags.
Qed.

Lemma switching_families_off_only_removes_their_metrics_witness :
  flags_le noFlags allFlags
  /\ filter (fun m => negb (disabledDesc noFlags (desc m)))
       (sent (trace (Part000.Update (healthy 2 1) allFlags)))
     = sent (trace (Part000.Update (healthy 2 1) noFlags)).
Proof.
  assert (H : flags_le noFlags allFlags) by (repeat split; discriminate).
  split; [exact H|].
  refine (proj2 (proj1 (switching_families_off_only_removes_their_metrics
                          (healthy 2 1) allFlags noFlags H) _)).
  reflexivity.
Defined.

(** ** What an error says *)

Lemma append_assoc' (a b c : string) : ((a ++ b) ++ c = a ++ b ++ c)%string.
Proof. induction a as [|x a IH]; cbn; [reflexivity|now rewrite IH]. Qed.

Lemma Errorf_snoc pieces x :
  fmt.Errorf (pieces ++ [x]) = (fmt.Errorf pieces ++ x)%string.
Proof.
  unfold fmt.Errorf, fmt.Sprintf.
  induction pieces as [|a l IH]; [reflexivity|].
  destruct l as [|b l]; [reflexivity|].
  change (concat "" ((a :: b :: l) ++ [x]))
    with (a ++ concat "" ((b :: l) ++ [x]))%string.
  rewrite IH. change (concat "" (a :: b :: l)) with (a ++ concat "" (b :: l))%string.
  now rewrite append_assoc'.
Qed.

Lemma prefix_app (a b c : string) :
  String.prefix (a ++ b) (a ++ c) = String.prefix b c.
Proof.
  induction a as [|x a IH]; cbn; [reflexivity|].
  destruct (ascii_dec x x); [exact IH|contradiction].
Qed.

Section Blame.
Context {K : nvml.Consts}.
Variable drv : nvml.Driver.
Variable P : Query -> string -> Prop.

Lemma blames_ret {A} (a : A) : blames drv P (ret a).
Proof. intros e; discriminate. Qed.

Lemma blames_send m : blames drv P (send m).
Proof. intros e; discriminate. Qed.

Lemma blames_log lvl msg : blames drv P (log lvl msg).
Proof. intros e; discriminate. Qed.

Lemma blames_bind_Ok {A B} (m : M A) (f : A -> M B) :
  blames drv P m -> (forall a, outcome m = Ok a -> blames drv P (f a)) ->
  blames drv P (bind m f).
Proof.
  unfold blames. rewrite outcome_bind, trace_bind.
  intros Hm Hf e. destruct (outcome m) as [a|e'].
  - intros He. destruct (Hf a eq_refl e He) as (pre & q & -> & Hq & HP).
    exists (trace m ++ pre), q. now rewrite app_assoc.
  - intros [= <-]. destruct (Hm e' eq_refl) as (pre & q & -> & Hq & HP).
    exists pre, q. now rewrite app_nil_r.
Qed.

Lemma blames_bind {A B} (m : M A) (f : A -> M B) :
  blames drv P m -> (forall a, blames drv P (f a)) -> blames drv P (bind m f).
Proof. intros Hm Hf. apply blames_bind_Ok; auto. Qed.

Lemma blames_call q {B} (k : Resp q -> M B) :
  (hard_failure drv q = false -> blames drv P (k (answer drv q))) ->
  (hard_failure drv q = true ->
   exists e, k (answer drv q) = fail e /\ P q e) ->
  blames drv P (bind (call drv q) k).
Proof.
  intros Hpass Hfail. unfold blames.
  rewrite outcome_bind, trace_bind. simpl.
  destruct (hard_failure drv q) eqn:Hq.
  - destruct (Hfail eq_refl) as (e & -> & HP). simpl. intros e' [= <-].
    exists [], q. auto.
  - intros e He. destruct (Hpass eq_refl e He) as (pre & q' & -> & Hq' & HP).
    exists (Call q :: pre), q'. auto.
Qed.

Lemma blames_forEach {A} (l : list A) (body : A -> M unit) :
  (forall x, In x l -> blames drv P (body x)) ->
  blames drv P (forEach l body).
Proof.
  induction l as [|x l IH]; intros H; cbn [forEach].
  - apply blames_ret.
  - apply blames_bind; [apply H; now left|].
    intros _. apply IH. intros y Hy. apply H. now right.
Qed.

Lemma blames_impl (Q : Query -> string -> Prop) {A} (m : M A) :
  (forall q e, P q e -> Q q e) -> blames drv P m -> blames drv Q m.
Proof.
  intros HPQ Hm e He. destruct (Hm e He) as (pre & q & Ht & Hq & HP).
  exists pre, q. auto.
Qed.

End Blame.

Ltac blame_after_call leaf :=
  let Hhf := fresh "Hhf" in
  intros Hhf; cbv beta; unfold hard_failure, status in Hhf;
  cbn in Hhf; cbn [answer];
  repeat match goal with
         | |- context [let (_, _) := ?x in _] => destruct x eqn:?
         end;
  cbn [snd] in Hhf; decide_status Hhf;
  try (eexists; split; [reflexivity|leaf]); clear Hhf.

Ltac blame_step leaf :=
  lazymatch goal with
  | |- blames _ _ (ret _) => apply blames_ret
  | |- blames _ _ (send _) => apply blames_send
  | |- blames _ _ (log _ _) => apply blames_log
  | |- blames _ _ (bind (call _ _) _) =>
      apply blames_call; blame_after_call leaf
  | |- blames _ _ (bind _ _) => apply blames_bind; [ | intros ? ]
  | |- blames _ _ (forEach _ _) => apply blames_forEach; intros ? _
  | |- blames _ _ (if ?b then _ else _) => destruct b eqn:?
  | |- blames _ _ (match ?x with _ => _ end) => destruct x
  end.

(** The message ends with the rendering of the status just tested. *)
Ltac describes_leaf :=
  unfold describes, status; cbn [answer];
  repeat match goal with
         | E : ?x = (_, _) |- context [?x] => rewrite E
         end;
  cbn [snd];
  split;
  [ reflexivity
  | lazymatch goal with
    | |- exists what, fmt.Errorf ?l = _ =>
        exists (fmt.Errorf (removelast l)); rewrite <- Errorf_snoc; reflexivity
    end ].

Ltac device_leaf :=
  unfold describesDevice;
  split; [describes_leaf|];
  split; [reflexivity|];
  lazymatch goal with
  | |- String.prefix (?a ++ ?i ++ ?s)%string (fmt.Errorf (?a :: ?i :: ?rest))
       = true =>
      change (fmt.Errorf (a :: i :: rest))
        with (a ++ i ++ fmt.Errorf rest)%string;
      rewrite !prefix_app; reflexivity
  end.

Section BlamePoll.
Context {K : nvml.Consts}.
Variable drv : nvml.Driver.
Variable fl : Flags.

Lemma Part000_deviceMetrics_blames i d :
  blames drv (describesDevice drv (strconv.Itoa i) d)
    (Part000.deviceMetrics drv fl i d).
Proof.
  unfold_poll. cbv zeta. repeat blame_step device_leaf.
Qed.

Lemma NvidiaGpuLinux_deviceMetrics_blames i d :
  blames drv (describesDevice drv (strconv.Itoa i) d)
    (NvidiaGpuLinux.deviceMetrics drv fl i d).
Proof.
  unfold_poll. cbv zeta. repeat blame_step device_leaf.
Qed.

Lemma deviceHandles_blames idx : forall devices,
  blames drv (fun q e => describes drv q e /\ namesDevice drv q e)
    (deviceHandles drv idx devices).
Proof.
  induction idx as [|i idx IH]; intros devices; cbn [deviceHandles].
  - apply blames_ret.
  - repeat blame_step ltac:(split; [describes_leaf|exact I]). apply IH.
Qed.

Lemma collect_blames dm :
  (forall i d, blames drv (describesDevice drv (strconv.Itoa i) d) (dm i d)) ->
  blames drv (fun q e => describes drv q e /\ namesDevice drv q e)
    (collect drv fl dm).
Proof.
  intros Hdm. unfold collect.
  apply blames_bind_Ok.
  { unfold enumerate.
    repeat first [ apply deviceHandles_blames
                 | blame_step ltac:(split; [describes_leaf|exact I]) ]. }
  intros ds Hds. apply enumerate_Ok in Hds. subst ds.
  apply blames_bind.
  { unfold getSysInfo.
    repeat blame_step ltac:(split; [describes_leaf|exact I]). }
  intros _. rewrite indexed_upto. apply blames_forEach.
  intros [i d] Hin. apply in_map_iff in Hin. destruct Hin as (j & [= <- <-] & Hj).
  apply in_upto in Hj.
  eapply blames_impl; [|apply Hdm].
  intros q e (Hd & Hq & Hp). split; [exact Hd|].
  unfold namesDevice. rewrite Hq. exists j. auto.
Qed.

Lemma poll_reports_failure dm :
  (forall i d, blames drv (describesDevice drv (strconv.Itoa i) d) (dm i d)) ->
  reports_failure drv (poll drv fl dm).
Proof.
  intros Hdm e.
  destruct (Z.eq_dec (nvml.Init drv) nvml.SUCCESS) as [Hi|Hi].
  - rewrite (poll_run drv fl dm Hi). cbn [outcome trace fst snd]. intros He.
    destruct (collect_blames dm Hdm e He) as (pre & q & Ht & Hq & Hd & Hn).
    exists (Call QInit :: pre), q. split; [right|auto].
    rewrite Ht, <- app_assoc. reflexivity.
  - rewrite (poll_init_failed drv fl dm Hi). cbn [outcome trace fst snd].
    intros [= <-]. exists [], QInit. split; [left; auto|].
    split; [|split; [|exact I]].
    + unfold hard_failure, status. cbn.
      destruct (Z.eqb_spec (nvml.Init drv) nvml.SUCCESS); [contradiction|].
      reflexivity.
    + describes_leaf.
Qed.

End BlamePoll.

(** X18: a poll that returns an error made a query that failed hard, and
    that query is the last event before the deferred shutdown (for
    nvml.Init, the only event); the message of the error starts with
    "unable to " and ends with the driver's rendering of the status of that
    query; and when the query is about a device, the message starts with
    "unable to get GPU i " for a position i of that device in the
    enumeration.  In both files. *)
Theorem poll_error_tells_what_failed {K : nvml.Consts} drv fl :
  reports_failure drv (Part000.Update drv fl)
  /\ reports_failure drv (NvidiaGpuLinux.Update drv fl).
Proof.
  split; apply poll_reports_failure; intros i d.
  - apply Part000_deviceMetrics_blames.
  - apply NvidiaGpuLinux_deviceMetrics_blames.
Qed.

Lemma poll_error_tells_what_failed_witness :
  let drv := withStatus temperatureQuery 999 (healthy 2 1) in
  let e := fmt.Errorf ["unable to get GPU "; "0"; " Temperature Sensor ";
                       "GPU"; " Value: "; nvml.ErrorString drv 999] in
  outcome (Part000.Update drv allFlags) = Err e
  /\ exists q, hard_failure drv q = true
               /\ describes drv q e /\ namesDevice drv q e.
Proof.
  intros drv e.
  assert (H : outcome (Part000.Update drv allFlags) = Err e)
    by (vm_compute; reflexivity).
  split; [exact H|].
  destruct (proj1 (poll_error_tells_what_failed drv allFlags) e H)
    as (pre & q & _ & Hq).
  exists q. exact Hq.
Defined.

(** ** Values and families *)

(** X19: every metric of the information families (sysinfo, gpuinfo,
    compute_mode, perf, persis_mode) that a poll sends has the value 1,
    whatever the driver answers; in both files. *)
Theorem information_gauges_are_one {K : nvml.Consts} drv fl :
  Forall (fun m => infoDesc (desc m) = true -> value m = 1)
    (sent (trace (Part000.Update drv fl)))
  /\ Forall (fun m => infoDesc (desc m) = true -> value m = 1)
       (sent (trace (NvidiaGpuLinux.Update drv fl))).
Proof.
  split.
  - apply (Forall_sent valueOne); [intros m H; exact H|].
    change (every valueOne (Part000.Update drv fl)).
    every_poll; cbn; solve [auto | discriminate].
  - apply (Forall_sent valueOne); [intros m H; exact H|].
    change (every valueOne (NvidiaGpuLinux.Update drv fl)).
    every_poll; cbn; solve [auto | discriminate].
Qed.

(** X20: the poll of nvidia_gpu_linux.go never makes a query and never
    sends a metric that only the richer file has (application clocks,
    clocks, compute mode, performance state, persistence mode, utilization,
    enforced power limit), whether it succeeds or not. *)
Theorem plain_poll_stays_plain {K : nvml.Consts} drv fl :
  Forall (fun q => richQuery q = false)
    (calls (trace (NvidiaGpuLinux.Update drv fl)))
  /\ Forall (fun m => richDesc (desc m) = false)
       (sent (trace (NvidiaGpuLinux.Update drv fl))).
Proof.
  assert (H : every plain (NvidiaGpuLinux.Update drv fl))
    by (every_poll; cbn; reflexivity).
  split.
  - apply (Forall_calls plain); [intros q Hq; exact Hq|exact H].
  - apply (Forall_sent plain); [intros m Hm; exact Hm|exact H].
Qed.

(** ** The descriptors of NewNVGPUCollector *)

(** X21: the descriptors that NewNVGPUCollector builds are well formed and
    do not clash: none lists a label name twice, every descriptor other
    than the system information has "index" as its first label name, and
    no two descriptors are built from the same metric name. *)
Theorem descriptors_do_not_clash :
  (forall d, NoDup (variableLabels d))
  /\ (forall d, d <> gpuSysInfo -> hd_error (variableLabels d) = Some "index")
  /\ (forall d1 d2, familyName d1 = familyName d2 -> d1 = d2).
Proof.
  split; [|split].
  - intros []; cbn; repeat constructor; cbn; intuition discriminate.
  - intros [] H; try reflexivity. now contradiction H.
  - intros [] []; cbn; intros H; try reflexivity; discriminate H.
Qed.
